(** * Arduino_baremetal: register access, timer-driven delay and the blink loop

    A shallow embedding of the three programs of the repository
    ([01_blink_led/blink_led.c], [02_register_ReadWrite/reg_readwrite.c],
    [03_delay_timer/delay_timer.c]).

    Every access through a register pointer is an observable event: a
    program is a function from the state of the device behind the bus to
    an outcome that carries the value returned, the device state reached
    and the list of loads and stores it performed, in program order.
    Loops take fuel; running out of fuel inside a loop is the outcome
    [Spin], which keeps the state and the trace reached so far. *)

From Stdlib Require Import ZArith Lia List Bool.
From stdpp Require Import base option list gmap.
Import ListNotations.
Local Open Scope Z_scope.

(** ** Machine integers

    [unsigned char] and [unsigned short] values are integers with the
    conversion to the type written out. The C expressions [1 << bit],
    [x | m], [x & ~m] are computed in [int] after promotion; they are
    modelled on [Z] (two's complement of unbounded width), which agrees with
    the [int] result on every bit the later conversion to [uint8_t] keeps. *)

Definition uint8_t (z : Z) : Z := z mod 256.
Definition uint16_t (z : Z) : Z := z mod 65536.
Arguments uint8_t : simpl never.
Arguments uint16_t : simpl never.

(** ** Register map of [delay_timer.c] *)

Definition DDRB_ADDR : Z := 0x24.
Definition PORTB_ADDR : Z := 0x25.
Definition TCCR1A_ADDR : Z := 0x80.
Definition TCCR1B_ADDR : Z := 0x81.
Definition TCNT1L_ADDR : Z := 0x84.
Definition TCNT1H_ADDR : Z := 0x85.
Definition TIFR1_ADDR : Z := 0x36.

(** ** Bus events and devices *)

Inductive event : Type :=
| Load (addr val : Z)     (* a byte read from a register *)
| Store (addr val : Z).   (* a byte written to a register *)

Definition is_store_to (a : Z) (e : event) : bool :=
  match e with
  | Store a' _ => a' =? a
  | Load _ _ => false
  end.

Definition event_addr (e : event) : Z :=
  match e with Load a _ => a | Store a _ => a end.

(** The bytes stored to register [a], oldest first. *)
Fixpoint stores_to (a : Z) (tr : list event) : list Z :=
  match tr with
  | [] => []
  | Store a' v :: tr' => if a' =? a then v :: stores_to a tr' else stores_to a tr'
  | Load _ _ :: tr' => stores_to a tr'
  end.

(** What sits behind the addresses: a state and the effect of one load
    and of one store on it. A load may change the state (time passes,
    hardware moves on), which is why the pointers are [volatile]. *)
Record device : Type := Device {
  hw : Type;
  hw_load : Z -> hw -> Z * hw;
  hw_store : Z -> Z -> hw -> hw;
}.

(** ** The program monad *)

Inductive outcome (S A : Type) : Type :=
| Done (a : A) (s : S) (tr : list event)
| Spin (s : S) (tr : list event).
Arguments Done {S A} a s tr.
Arguments Spin {S A} s tr.

Definition trace_of {S A} (o : outcome S A) : list event :=
  match o with Done _ _ tr => tr | Spin _ tr => tr end.

Definition state_of {S A} (o : outcome S A) : S :=
  match o with Done _ s _ => s | Spin s _ => s end.

Definition returns {S A} (o : outcome S A) : bool :=
  match o with Done _ _ _ => true | Spin _ _ => false end.

Section Programs.
Context {D : device}.

Definition prog (A : Type) : Type := hw D -> outcome (hw D) A.

Definition ret {A} (a : A) : prog A := fun s => Done a s [].

Definition bind {A B} (m : prog A) (k : A -> prog B) : prog B :=
  fun s =>
    match m s with
    | Done a s1 t1 =>
        match k a s1 with
        | Done b s2 t2 => Done b s2 (t1 ++ t2)
        | Spin s2 t2 => Spin s2 (t1 ++ t2)
        end
    | Spin s1 t1 => Spin s1 t1
    end.

Definition spin {A} : prog A := fun s => Spin s [].

(** [*reg] as an rvalue and [*reg = v], for [uint8_t *reg]. *)
Definition load (addr : Z) : prog Z :=
  fun s => let '(v, s') := hw_load D addr s in
           Done (uint8_t v) s' [Load addr (uint8_t v)].

Definition store (addr v : Z) : prog unit :=
  fun s => Done tt (hw_store D addr (uint8_t v) s) [Store addr (uint8_t v)].

(** [while (cond) body;] with fuel counting the evaluations of [cond]. *)
Fixpoint while (fuel : nat) (cond : prog bool) (body : prog unit) : prog unit :=
  match fuel with
  | O => spin
  | S n =>
      bind cond (fun c =>
        if c then bind body (fun _ => while n cond body) else ret tt)
  end.
End Programs.

Arguments prog D A : clear implicits.

Declare Scope prog_scope.
Delimit Scope prog_scope with prog.
Notation "x <- m ;; k" := (bind m (fun x => k))
  (at level 100, m at next level, right associativity) : prog_scope.
Notation "m ;; k" := (bind m (fun _ => k))
  (at level 100, right associativity) : prog_scope.
Local Open Scope prog_scope.

(** ** 03_delay_timer/delay_timer.c *)

Module DelayTimer.
Section WithDevice.
Context {D : device}.

(* inline void set_bit(uint16_t addr, uint8_t bit): *reg |= (1 << bit); *)
Definition set_bit (addr bit : Z) : prog D unit :=
  v <- load addr ;; store addr (Z.lor v (Z.shiftl 1 bit)).

(* inline void clear_bit(uint16_t addr, uint8_t bit): *reg &= ~(1 << bit); *)
Definition clear_bit (addr bit : Z) : prog D unit :=
  v <- load addr ;; store addr (Z.land v (Z.lnot (Z.shiftl 1 bit))).

(* inline void write_reg(uint16_t addr, uint8_t value): *reg = value; *)
Definition write_reg (addr value : Z) : prog D unit := store addr value.

(* inline uint8_t read_reg(uint16_t addr): return *reg; *)
Definition read_reg (addr : Z) : prog D Z := load addr.

(* while (!(read_reg(TIFR1_ADDR) & 1)); *)
Definition wait_overflow (fuel : nat) : prog D unit :=
  while fuel (v <- read_reg TIFR1_ADDR ;; ret (Z.land v 1 =? 0)) (ret tt).

Definition delay_1000ms (fuel : nat) : prog D unit :=
  write_reg TCCR1A_ADDR 0x00 ;;
  write_reg TCCR1B_ADDR 0x04 ;;
  write_reg TCNT1L_ADDR 0xDB ;;
  write_reg TCNT1H_ADDR 0x0B ;;
  wait_overflow fuel ;;
  set_bit TIFR1_ADDR 0.

(** One pass through the body of the [while(1)] of [main]. *)
Definition toggle_cycle (fuel : nat) : prog D unit :=
  set_bit PORTB_ADDR 5 ;;
  delay_1000ms fuel ;;
  clear_bit PORTB_ADDR 5 ;;
  delay_1000ms fuel.

Definition main (fuel : nat) : prog D Z :=
  set_bit DDRB_ADDR 5 ;;
  while fuel (ret true) (toggle_cycle fuel) ;;
  ret 0.
End WithDevice.
End DelayTimer.

(** ** 02_register_ReadWrite/reg_readwrite.c

    The same two helpers through a plain [uint8_t *]; the delay comes from
    the C library ([_delay_ms] of [util/delay.h]) and is a parameter. *)

Module RegReadWrite.
Section WithDevice.
Context {D : device}.
Variable delay_ms : Z -> prog D unit.

(* void set_bit(uint16_t addr, uint8_t bit): *reg |= (1 << bit); *)
Definition set_bit (addr bit : Z) : prog D unit :=
  v <- load addr ;; store addr (Z.lor v (Z.shiftl 1 bit)).

(* void clear_bit(uint16_t addr, uint8_t bit): *reg &= ~(1 << bit); *)
Definition clear_bit (addr bit : Z) : prog D unit :=
  v <- load addr ;; store addr (Z.land v (Z.lnot (Z.shiftl 1 bit))).

Definition toggle_cycle : prog D unit :=
  set_bit PORTB_ADDR 5 ;;
  delay_ms 1000 ;;
  clear_bit PORTB_ADDR 5 ;;
  delay_ms 1000.

Definition main (fuel : nat) : prog D Z :=
  set_bit DDRB_ADDR 5 ;;
  while fuel (ret true) toggle_cycle ;;
  ret 0.
End WithDevice.
End RegReadWrite.

(** ** 01_blink_led/blink_led.c

    [DDRB], [PORTB], [DDB5] and [PORTB5] come from [avr/io.h]; the register
    addresses and the bit numbers are parameters here. *)

Module BlinkLed.
Section WithDevice.
Context {D : device}.
Variable delay_ms : Z -> prog D unit.
Variables DDRB PORTB DDB5 PORTB5 : Z.

Definition toggle_cycle : prog D unit :=
  (* PORTB = PORTB | (1 << PORTB5); *)
  (v <- load PORTB ;; store PORTB (Z.lor v (Z.shiftl 1 PORTB5))) ;;
  delay_ms 1000 ;;
  (* PORTB = PORTB & ~(1 << PORTB5); *)
  (v <- load PORTB ;; store PORTB (Z.land v (Z.lnot (Z.shiftl 1 PORTB5)))) ;;
  delay_ms 1000.

Definition main (fuel : nat) : prog D Z :=
  (* DDRB = DDRB | (1 << DDB5); *)
  (v <- load DDRB ;; store DDRB (Z.lor v (Z.shiftl 1 DDB5))) ;;
  while fuel (ret true) toggle_cycle ;;
  ret 0.
End WithDevice.
End BlinkLed.

(** ** Devices *)

(** Plain storage: a register keeps the byte last stored to it, and a load
    changes nothing. This is what the C abstract machine gives a
    [uint8_t *], and what the port registers [DDRB] and [PORTB] do. *)
Definition ram : device :=
  {| hw := gmap Z Z;
     hw_load := fun a (m : gmap Z Z) => (default 0 (m !! a), m);
     hw_store := fun a v (m : gmap Z Z) => <[a := v]> m |}.

(** The byte a load of [a] would return. *)
Definition peek (m : gmap Z Z) (a : Z) : Z := uint8_t (default 0 (m !! a)).

(** Modelled from the spec: the timer/counter peripheral behind the seven
    addresses (hardware, not code of the repository). Section 3 of the
    spec gives two control registers that select the running mode and the
    clock divisor, a 16-bit counter split across a low-byte and a high-byte
    register that increments at the prescaled clock rate and wraps from its
    maximum to zero, and an overflow flag that the wrap sets and that
    software clears by writing a one to its bit. Every other address is
    plain storage. *)
Record timer1 : Type := Timer1 {
  io : gmap Z Z;     (* DDRB, PORTB and the other plain registers *)
  tccr1a : Z;        (* control register A: mode bits 1..0 *)
  tccr1b : Z;        (* control register B: mode bits 4..3, clock select 2..0 *)
  tcnt1h : Z;        (* counter, high byte *)
  tcnt1l : Z;        (* counter, low byte *)
  tifr1 : Z;         (* flag register, bit 0 is the overflow flag *)
  presc : Z;         (* the 10-bit clock prescaler *)
}.

(** Modelled from the spec: the clock frequency (the source has none;
    16 MHz is the frequency the spec names). *)
Definition F_CPU : Z := 16000000.

(** Modelled from the spec: the fixed integer divisors of the system clock
    that the clock-select field (bits 2..0 of control register B) chooses
    from; the value 4 written by the delay is the divisor 256. *)
Definition prescale_div (cs : Z) : option Z :=
  if cs =? 1 then Some 1
  else if cs =? 2 then Some 8
  else if cs =? 3 then Some 64
  else if cs =? 4 then Some 256
  else if cs =? 5 then Some 1024
  else None.   (* 0: counter stopped; 6, 7: external clock pin *)

(** Modelled from the spec: [ticks = duration_seconds * (clock_frequency /
    prescaler)] and [preload = 0x10000 - ticks]. *)
Definition ticks_of (duration_ms divisor : Z) : Z :=
  duration_ms * (F_CPU / divisor) / 1000.

Definition preload_of (ticks : Z) : Z := 0x10000 - ticks.

Definition clock_select (s : timer1) : Z := Z.land (tccr1b s) 7.

Definition normal_mode (s : timer1) : bool :=
  (Z.land (tccr1a s) 3 =? 0) && (Z.land (tccr1b s) 0x18 =? 0).

Definition tcnt1 (s : timer1) : Z := tcnt1h s * 256 + tcnt1l s.

Definition overflow_flag (s : timer1) : bool := Z.testbit (tifr1 s) 0.

(** Modelled from the spec: one count of the counter, up by one and
    wrapping from its maximum to zero; the wrap raises the overflow flag. *)
Definition count_up (s : timer1) : timer1 :=
  let n := (tcnt1 s + 1) mod 65536 in
  {| io := io s; tccr1a := tccr1a s; tccr1b := tccr1b s;
     tcnt1h := n / 256; tcnt1l := n mod 256;
     tifr1 := if n =? 0 then Z.lor (tifr1 s) 1 else tifr1 s;
     presc := presc s |}.

(** Modelled from the spec: one cycle of the system clock. The prescaler
    advances, and in normal mode the counter counts whenever the selected
    divisor divides the prescaler value, that is at the prescaled rate. *)
Definition cycle (s : timer1) : timer1 :=
  let p := (presc s + 1) mod 1024 in
  let s' := {| io := io s; tccr1a := tccr1a s; tccr1b := tccr1b s;
               tcnt1h := tcnt1h s; tcnt1l := tcnt1l s;
               tifr1 := tifr1 s; presc := p |} in
  match prescale_div (clock_select s) with
  | Some d => if normal_mode s && (p mod d =? 0) then count_up s' else s'
  | None => s'
  end.

Definition clock (n : nat) (s : timer1) : timer1 := Nat.iter n cycle s.

(** Modelled from the spec: what a register reads as, and what a store
    does to it. The counter bytes are two adjacent byte registers; the flag
    register is write-one-to-clear. *)
Definition timer1_load (a : Z) (s : timer1) : Z :=
  if a =? TCCR1A_ADDR then tccr1a s
  else if a =? TCCR1B_ADDR then tccr1b s
  else if a =? TCNT1L_ADDR then tcnt1l s
  else if a =? TCNT1H_ADDR then tcnt1h s
  else if a =? TIFR1_ADDR then tifr1 s
  else default 0 (io s !! a).

Definition timer1_store (a v : Z) (s : timer1) : timer1 :=
  if a =? TCCR1A_ADDR then
    {| io := io s; tccr1a := v; tccr1b := tccr1b s; tcnt1h := tcnt1h s;
       tcnt1l := tcnt1l s; tifr1 := tifr1 s; presc := presc s |}
  else if a =? TCCR1B_ADDR then
    {| io := io s; tccr1a := tccr1a s; tccr1b := v; tcnt1h := tcnt1h s;
       tcnt1l := tcnt1l s; tifr1 := tifr1 s; presc := presc s |}
  else if a =? TCNT1L_ADDR then
    {| io := io s; tccr1a := tccr1a s; tccr1b := tccr1b s; tcnt1h := tcnt1h s;
       tcnt1l := v; tifr1 := tifr1 s; presc := presc s |}
  else if a =? TCNT1H_ADDR then
    {| io := io s; tccr1a := tccr1a s; tccr1b := tccr1b s; tcnt1h := v;
       tcnt1l := tcnt1l s; tifr1 := tifr1 s; presc := presc s |}
  else if a =? TIFR1_ADDR then
    (* write-one-to-clear: every flag whose bit is one in [v] is cleared *)
    {| io := io s; tccr1a := tccr1a s; tccr1b := tccr1b s; tcnt1h := tcnt1h s;
       tcnt1l := tcnt1l s; tifr1 := Z.land (tifr1 s) (Z.lnot v);
       presc := presc s |}
  else
    {| io := <[a := v]> (io s); tccr1a := tccr1a s; tccr1b := tccr1b s;
       tcnt1h := tcnt1h s; tcnt1l := tcnt1l s; tifr1 := tifr1 s;
       presc := presc s |}.

(** Modelled from the spec: the device as the program meets it. A bus
    access takes [c] cycles of the system clock and then reads or writes
    the register; [c = 0] is a device whose clock has stopped. *)
Definition timer1_dev (c : nat) : device :=
  {| hw := timer1;
     hw_load := fun a s => let s' := clock c s in (timer1_load a s', s');
     hw_store := fun a v s => timer1_store a v (clock c s) |}.

(** The state after reset: every register zero, the counter stopped. *)
Definition timer1_reset : timer1 :=
  {| io := ∅; tccr1a := 0; tccr1b := 0; tcnt1h := 0; tcnt1l := 0;
     tifr1 := 0; presc := 0 |}.

(** The timer once a call of the delay has done its four set-up stores. *)
Definition setup_state (c : nat) (s : timer1) : timer1 :=
  hw_store (timer1_dev c) TCNT1H_ADDR 0x0B
    (hw_store (timer1_dev c) TCNT1L_ADDR 0xDB
       (hw_store (timer1_dev c) TCCR1B_ADDR 0x04
          (hw_store (timer1_dev c) TCCR1A_ADDR 0x00 s))).

(** A state with two flags pending: the overflow flag (bit 0) and the
    flag in bit 1 of the flag register. *)
Definition two_flags_pending : timer1 :=
  {| io := ∅; tccr1a := 0; tccr1b := 4; tcnt1h := 0; tcnt1l := 0;
     tifr1 := 0x03; presc := 0 |}.

(** Register bytes are bytes. *)
Definition wf (s : timer1) : Prop :=
  0 <= tcnt1h s < 256 /\ 0 <= tcnt1l s < 256.

(** The configuration [delay_1000ms] selects: normal mode, divisor 256. *)
Definition running (s : timer1) : Prop := tccr1a s = 0 /\ tccr1b s = 4.

(** No clock source selected: the counter stands still. *)
Definition stopped (s : timer1) : Prop := clock_select s = 0.

(** Flag clear, counter at most [n], timer stopped or already in the
    configuration of the delay. *)
Definition calm (n : Z) (s : timer1) : Prop :=
  overflow_flag s = false /\ tcnt1 s <= n /\ (running s \/ stopped s).

(** A state from which a call of the delay cannot meet an overflow before
    it has written the preload: the counter is well below its maximum.
    The reset state and the state a call returns in are like that. *)
Definition quiet (s : timer1) : Prop := calm 65000 s.

(** More polls than any wait can take once the counter runs: a wrap is at
    most [2^24] system-clock cycles away. *)
Definition poll_bound : nat := Z.to_nat (2 ^ 24).

(** The position of the counter in system-clock cycles when the divisor is
    256: the 16-bit count followed by the low eight prescaler bits. It
    wraps at [2^24] exactly when the counter overflows. *)
Definition fine (s : timer1) : Z := tcnt1 s * 256 + presc s mod 256.

(** The number of system-clock cycles from the start of a call of the
    delay to the wrap of the counter that its set-up stores arm: four
    accesses, then the way from the preloaded position to [2^24]. *)
Definition cycles_to_overflow (c : nat) (s : timer1) : Z :=
  4 * Z.of_nat c + (2 ^ 24 - fine (setup_state c s)).

(** The window of a full wait: [k] polls of [c] cycles each last between
    62500 counter periods less one access and 62501 counter periods. *)
Definition full_wait (c k : nat) : Prop :=
  62500 * 256 - Z.of_nat c < Z.of_nat k * Z.of_nat c < 62501 * 256.

(** [n] passes through the loop body of [main], one after the other. *)
Fixpoint cycles {D : device} (fuel n : nat) : prog D unit :=
  match n with
  | O => ret tt
  | S n' => DelayTimer.toggle_cycle fuel ;; cycles fuel n'
  end.

(** ** Shapes of traces *)

(** The four configuration stores that open every call of the delay. *)
Definition delay_setup : list event :=
  [Store TCCR1A_ADDR 0x00; Store TCCR1B_ADDR 0x04;
   Store TCNT1L_ADDR 0xDB; Store TCNT1H_ADDR 0x0B].

(** A poll of the flag register that saw bit 0 clear, resp. set. *)
Definition poll_miss (e : event) : bool :=
  match e with
  | Load a v => (a =? TIFR1_ADDR) && negb (Z.testbit v 0)
  | Store _ _ => false
  end.

Definition poll_hit (e : event) : bool :=
  match e with
  | Load a v => (a =? TIFR1_ADDR) && Z.testbit v 0
  | Store _ _ => false
  end.

(** The 16-bit value formed by the last bytes stored to the two counter
    registers in a trace. *)
Definition preload_written (tr : list event) : option Z :=
  match last (stores_to TCNT1H_ADDR tr), last (stores_to TCNT1L_ADDR tr) with
  | Some h, Some l => Some (h * 256 + l)
  | _, _ => None
  end.

(** Every event of the trace is an access to one of the registers [regs]. *)
Definition touches_only (regs : list Z) (tr : list event) : bool :=
  forallb (fun e => existsb (Z.eqb (event_addr e)) regs) tr.

(** The registers of the timer, and those a pass through the loop body of
    [main] may touch. *)
Definition timer_regs : list Z :=
  [TCCR1A_ADDR; TCCR1B_ADDR; TCNT1L_ADDR; TCNT1H_ADDR; TIFR1_ADDR].

Definition toggle_regs : list Z := PORTB_ADDR :: timer_regs.

(** Position of the first event satisfying [p]. *)
Fixpoint index_of (p : event -> bool) (tr : list event) : option nat :=
  match tr with
  | [] => None
  | e :: tr' => if p e then Some O else S <$> index_of p tr'
  end.

(** Bit 5 of the successive bytes alternates, starting from [b]. *)
Fixpoint alternates (b : bool) (vs : list Z) : bool :=
  match vs with
  | [] => true
  | v :: vs' => Bool.eqb (Z.testbit v 5) b && alternates (negb b) vs'
  end.

(** The byte read back from [a] once [p] has run on plain storage. *)
Definition read_after (p : prog ram unit) (a : Z) (m : gmap Z Z) : option Z :=
  match (p ;; load a) m with
  | Done v _ _ => Some v
  | Spin _ _ => None
  end.

(** The storage left by [p] when it returns. *)
Definition storage_after (p : prog ram unit) (m : gmap Z Z) : option (gmap Z Z) :=
  match p m with
  | Done _ m' _ => Some m'
  | Spin _ _ => None
  end.

(** A delay that performs no register access and returns: what the
    busy-wait [_delay_ms] of the C library is to the bus. *)
Definition inert {D : device} (delay_ms : Z -> prog D unit) : Prop :=
  forall ms s, delay_ms ms s = Done tt s [].

(** [n] copies of a list, end to end. *)
Fixpoint repeated {A : Type} (n : nat) (l : list A) : list A :=
  match n with
  | O => []
  | S n' => l ++ repeated n' l
  end.

(** The trace of one call of [delay_1000ms] that may poll [fuel] times:
    the four set-up stores and the polls that saw bit 0 clear, followed,
    when the call returns, by the poll that saw it set and the
    read-modify-write of the flag register; a call that does not return
    has used all its polls. *)
Definition delay_trace (fuel : nat) (complete : bool) (d : list event) : Prop :=
  exists misses,
    forallb poll_miss misses = true /\
    if complete then
      (length misses < fuel)%nat /\
      exists hit v,
        poll_hit hit = true /\
        d = delay_setup ++ misses ++
            [hit; Load TIFR1_ADDR v; Store TIFR1_ADDR (uint8_t (Z.lor v 1))]
    else
      length misses = fuel /\ d = delay_setup ++ misses.

(** The trace of one call [delay_ms 1000] of a delay given as a program,
    from some state, and whether the call returns. *)
Definition call_trace {D : device} (delay_ms : Z -> prog D unit)
           (complete : bool) (d : list event) : Prop :=
  exists s, trace_of (delay_ms 1000 s) = d /\ returns (delay_ms 1000 s) = complete.

(** The two accesses of [PORTB |= (1 << bit)] and of [PORTB &= ~(1 << bit)]
    when the load returns [p]. *)
Definition port_high (PORTB bit p : Z) : list event :=
  [Load PORTB p; Store PORTB (uint8_t (Z.lor p (Z.shiftl 1 bit)))].

Definition port_low (PORTB bit p : Z) : list event :=
  [Load PORTB p; Store PORTB (uint8_t (Z.land p (Z.lnot (Z.shiftl 1 bit))))].

(** The traces of a blink loop that may take [n] turns: every turn is port
    bit high, a delay, port bit low, a delay, in this order; the trace
    ends when the turns are used up, or inside a delay that does not
    return. [delays complete d] says which traces a delay may leave. *)
Inductive blink_trace (PORTB bit : Z) (delays : bool -> list event -> Prop) :
  nat -> list event -> Prop :=
| blink_out_of_turns : blink_trace PORTB bit delays 0 []
| blink_hangs_high n p d :
    delays false d ->
    blink_trace PORTB bit delays (S n) (port_high PORTB bit p ++ d)
| blink_hangs_low n p d1 q d2 :
    delays true d1 -> delays false d2 ->
    blink_trace PORTB bit delays (S n)
      (port_high PORTB bit p ++ d1 ++ port_low PORTB bit q ++ d2)
| blink_pass n p d1 q d2 rest :
    delays true d1 -> delays true d2 ->
    blink_trace PORTB bit delays n rest ->
    blink_trace PORTB bit delays (S n)
      (port_high PORTB bit p ++ d1 ++ port_low PORTB bit q ++ d2 ++ rest).

(** [n] complete turns of the loop of [main] on the timer with accesses of
    [c] cycles: after each port store come only accesses to the timer
    registers, [6 + k] of them where [k] polls make a full wait, and the
    low store writes back the byte the high store wrote, bit 5 cleared. *)
Inductive timed_passes (c : nat) : nat -> list event -> Prop :=
| timed_done : timed_passes c 0 []
| timed_pass n p d1 d2 rest k1 k2 :
    full_wait c k1 -> full_wait c k2 ->
    length d1 = (6 + k1)%nat -> length d2 = (6 + k2)%nat ->
    touches_only timer_regs d1 = true -> touches_only timer_regs d2 = true ->
    timed_passes c n rest ->
    timed_passes c (S n)
      (port_high PORTB_ADDR 5 p ++ d1 ++
       port_low PORTB_ADDR 5 (uint8_t (Z.lor p (Z.shiftl 1 5))) ++ d2 ++ rest).

(** * Properties *)

(** ** Bits of bytes *)

Lemma uint8_t_testbit v i :
  Z.testbit (uint8_t v) i = (i <? 8) && Z.testbit v i.
Proof.
  unfold uint8_t. change 256 with (2 ^ 8).
  apply Z.testbit_mod_pow2. lia.
Qed.

Lemma uint8_t_range v : 0 <= uint8_t v < 256.
Proof. unfold uint8_t. apply Z.mod_pos_bound. lia. Qed.

Lemma uint8_t_small v : 0 <= v < 256 -> uint8_t v = v.
Proof. unfold uint8_t. intros. apply Z.mod_small. lia. Qed.

Lemma uint8_t_idem v : uint8_t (uint8_t v) = uint8_t v.
Proof. apply uint8_t_small, uint8_t_range. Qed.

Lemma land_1_testbit v : Z.land v 1 = Z.b2z (Z.testbit v 0).
Proof.
  change 1 with (Z.ones 1). rewrite Z.land_ones by lia.
  symmetry. apply Z.bit0_mod.
Qed.

Lemma land_1_eqb v : (Z.land v 1 =? 0) = negb (Z.testbit v 0).
Proof. rewrite land_1_testbit. now destruct (Z.testbit v 0). Qed.

Lemma shiftl_1_testbit i j :
  0 <= i -> Z.testbit (Z.shiftl 1 i) j = (j =? i).
Proof.
  intros Hi. rewrite Z.shiftl_1_l.
  destruct (Z.eqb_spec j i) as [->|Hne].
  - now apply Z.pow2_bits_true.
  - destruct (Z.ltb_spec j 0) as [Hj|Hj].
    + now apply Z.testbit_neg_r.
    + apply Z.pow2_bits_false. lia.
Qed.

(** ** The delay routine on an arbitrary device *)

Section AnyDevice.
Context {D : device}.

(** One turn of a loop. *)
Lemma while_S (fuel : nat) (cond : prog D bool) (body : prog D unit) (s : hw D) :
  while (S fuel) cond body s =
  match cond s with
  | Done true s1 t1 =>
      match body s1 with
      | Done _ s2 t2 =>
          match while fuel cond body s2 with
          | Done b s3 t3 => Done b s3 (t1 ++ t2 ++ t3)
          | Spin s3 t3 => Spin s3 (t1 ++ t2 ++ t3)
          end
      | Spin s2 t2 => Spin s2 (t1 ++ t2)
      end
  | Done false s1 t1 => Done tt s1 t1
  | Spin s1 t1 => Spin s1 t1
  end.
Proof.
  cbn [while]. unfold bind.
  destruct (cond s) as [[|] s1 t1|s1 t1]; [|cbn; now rewrite app_nil_r|easy].
  destruct (body s1) as [[] s2 t2|s2 t2]; [|easy].
  destruct (while fuel cond body s2) as [b s3 t3|s3 t3];
    now rewrite ?app_assoc.
Qed.

(** One turn of the polling loop: load the flag register, leave if bit 0
    of the byte is set, go round again otherwise. *)
Lemma wait_overflow_S (fuel : nat) (s : hw D) :
  DelayTimer.wait_overflow (S fuel) s =
  let '(v, s1) := hw_load D TIFR1_ADDR s in
  if Z.testbit (uint8_t v) 0
  then Done tt s1 [Load TIFR1_ADDR (uint8_t v)]
  else match DelayTimer.wait_overflow fuel s1 with
       | Done _ s2 t => Done tt s2 (Load TIFR1_ADDR (uint8_t v) :: t)
       | Spin s2 t => Spin s2 (Load TIFR1_ADDR (uint8_t v) :: t)
       end.
Proof.
  unfold DelayTimer.wait_overflow. rewrite while_S.
  unfold bind, DelayTimer.read_reg, load, ret.
  destruct (hw_load D TIFR1_ADDR s) as [v s1].
  rewrite land_1_eqb.
  destruct (Z.testbit (uint8_t v) 0); cbn; [reflexivity|].
  destruct (while fuel _ _ s1) as [[] s2 t|s2 t]; reflexivity.
Qed.

Lemma wait_overflow_0 (s : hw D) : DelayTimer.wait_overflow 0 s = Spin s [].
Proof. reflexivity. Qed.

(** The trace of the polling loop: misses, then one hit if it leaves. *)
Lemma wait_overflow_trace (fuel : nat) (s : hw D) :
  match DelayTimer.wait_overflow fuel s with
  | Done _ _ tr =>
      exists misses hit, tr = misses ++ [hit] /\
        forallb poll_miss misses = true /\ poll_hit hit = true /\
        (length misses < fuel)%nat
  | Spin _ tr => forallb poll_miss tr = true /\ length tr = fuel
  end.
Proof.
  revert s. induction fuel as [|fuel IH]; intros s.
  - rewrite wait_overflow_0. split; reflexivity.
  - rewrite wait_overflow_S.
    destruct (hw_load D TIFR1_ADDR s) as [v s1].
    destruct (Z.testbit (uint8_t v) 0) eqn:Hb.
    + exists [], (Load TIFR1_ADDR (uint8_t v)). cbn -[Z.testbit].
      rewrite Hb. repeat split; auto. lia.
    + specialize (IH s1).
      destruct (DelayTimer.wait_overflow fuel s1) as [[] s2 t|s2 t].
      * destruct IH as (misses & hit & -> & Hm & Hh & Hl).
        exists (Load TIFR1_ADDR (uint8_t v) :: misses), hit.
        cbn -[Z.testbit]. rewrite Hb, Hm. repeat split; auto. lia.
      * destruct IH as [Hm Hl]. cbn -[Z.testbit]. rewrite Hb, Hm, Hl. auto.
Qed.

(** The delay is the four stores, the polling loop and the
    read-modify-write of the flag register, glued in that order. *)
Lemma delay_1000ms_unfold (fuel : nat) (s : hw D) :
  DelayTimer.delay_1000ms fuel s =
  let s4 := hw_store D TCNT1H_ADDR 0x0B
              (hw_store D TCNT1L_ADDR 0xDB
                 (hw_store D TCCR1B_ADDR 0x04
                    (hw_store D TCCR1A_ADDR 0x00 s))) in
  match DelayTimer.wait_overflow fuel s4 with
  | Done _ s5 t =>
      let '(v, s6) := hw_load D TIFR1_ADDR s5 in
      Done tt (hw_store D TIFR1_ADDR (uint8_t (Z.lor (uint8_t v) 1)) s6)
        (delay_setup ++ t ++
           [Load TIFR1_ADDR (uint8_t v);
            Store TIFR1_ADDR (uint8_t (Z.lor (uint8_t v) 1))])
  | Spin s5 t => Spin s5 (delay_setup ++ t)
  end.
Proof.
  unfold DelayTimer.delay_1000ms, DelayTimer.write_reg, DelayTimer.set_bit.
  unfold bind, store, load. cbn.
  destruct (DelayTimer.wait_overflow fuel _) as [[] s5 t|s5 t]; [|reflexivity].
  destruct (hw_load D TIFR1_ADDR s5) as [v s6]. reflexivity.
Qed.
End AnyDevice.

(** ** The bit helpers on plain storage *)

Lemma set_bit_same : @RegReadWrite.set_bit = @DelayTimer.set_bit.
Proof. reflexivity. Qed.

Lemma clear_bit_same : @RegReadWrite.clear_bit = @DelayTimer.clear_bit.
Proof. reflexivity. Qed.

Lemma ram_load (a : Z) (m : gmap Z Z) :
  load (D:=ram) a m = Done (peek m a) m [Load a (peek m a)].
Proof. reflexivity. Qed.

Lemma ram_set_bit (a i : Z) (m : gmap Z Z) :
  DelayTimer.set_bit (D:=ram) a i m =
  let v := uint8_t (Z.lor (peek m a) (Z.shiftl 1 i)) in
  Done tt (<[a := v]> m) [Load a (peek m a); Store a v].
Proof. reflexivity. Qed.

Lemma ram_clear_bit (a i : Z) (m : gmap Z Z) :
  DelayTimer.clear_bit (D:=ram) a i m =
  let v := uint8_t (Z.land (peek m a) (Z.lnot (Z.shiftl 1 i))) in
  Done tt (<[a := v]> m) [Load a (peek m a); Store a v].
Proof. reflexivity. Qed.

Lemma peek_insert (a v : Z) (m : gmap Z Z) : peek (<[a := v]> m) a = uint8_t v.
Proof. unfold peek. now rewrite lookup_insert_eq. Qed.

Lemma peek_insert_ne (a b v : Z) (m : gmap Z Z) :
  a <> b -> peek (<[a := v]> m) b = peek m b.
Proof. intros H. unfold peek. now rewrite lookup_insert_ne. Qed.

Lemma read_after_set_bit (a i : Z) (m : gmap Z Z) :
  read_after (DelayTimer.set_bit a i) a m =
  Some (uint8_t (Z.lor (peek m a) (Z.shiftl 1 i))).
Proof.
  unfold read_after, bind. rewrite ram_set_bit. cbn beta iota zeta.
  rewrite ram_load, peek_insert. now rewrite uint8_t_idem.
Qed.

Lemma read_after_clear_bit (a i : Z) (m : gmap Z Z) :
  read_after (DelayTimer.clear_bit a i) a m =
  Some (uint8_t (Z.land (peek m a) (Z.lnot (Z.shiftl 1 i)))).
Proof.
  unfold read_after, bind. rewrite ram_clear_bit. cbn beta iota zeta.
  rewrite ram_load, peek_insert. now rewrite uint8_t_idem.
Qed.

Lemma peek_high_bits (m : gmap Z Z) (a j : Z) :
  8 <= j -> Z.testbit (peek m a) j = false.
Proof.
  intros Hj. unfold peek. rewrite uint8_t_testbit.
  destruct (Z.ltb_spec j 8); [lia|reflexivity].
Qed.

(** Bits of the byte stored by [set_bit] and by [clear_bit]. *)
Lemma set_byte_testbit (v i j : Z) :
  0 <= i ->
  Z.testbit (uint8_t (Z.lor v (Z.shiftl 1 i))) j =
  (j <? 8) && (Z.testbit v j || (j =? i)).
Proof.
  intros Hi. now rewrite uint8_t_testbit, Z.lor_spec, shiftl_1_testbit.
Qed.

Lemma clear_byte_testbit (v i j : Z) :
  0 <= i -> 0 <= j ->
  Z.testbit (uint8_t (Z.land v (Z.lnot (Z.shiftl 1 i)))) j =
  (j <? 8) && (Z.testbit v j && negb (j =? i)).
Proof.
  intros Hi Hj.
  now rewrite uint8_t_testbit, Z.land_spec, Z.lnot_spec, shiftl_1_testbit.
Qed.

(** C4. On a register that stores bytes, for every initial value and
    every bit index 0..7: the byte read back after [set_bit] has bit [i]
    set and every other bit as before; after [clear_bit] it has bit [i]
    clear and every other bit as before. The helpers of
    [reg_readwrite.c] and of [delay_timer.c] are the same functions. *)
Theorem bit_helpers_round_trip (m : gmap Z Z) (a i : Z) :
  0 <= i <= 7 ->
  (exists v, read_after (DelayTimer.set_bit a i) a m = Some v /\
     read_after (RegReadWrite.set_bit a i) a m = Some v /\
     Z.testbit v i = true /\
     forall j, j <> i -> Z.testbit v j = Z.testbit (peek m a) j) /\
  (exists v, read_after (DelayTimer.clear_bit a i) a m = Some v /\
     read_after (RegReadWrite.clear_bit a i) a m = Some v /\
     Z.testbit v i = false /\
     forall j, j <> i -> Z.testbit v j = Z.testbit (peek m a) j).
Proof.
  intros Hi. split.
  - eexists. rewrite set_bit_same, read_after_set_bit.
    split; [reflexivity|]. split; [reflexivity|]. split.
    + rewrite set_byte_testbit by lia. rewrite Z.eqb_refl, orb_true_r.
      destruct (Z.ltb_spec i 8); [reflexivity|lia].
    + intros j Hj. rewrite set_byte_testbit by lia.
      destruct (Z.eqb_spec j i); [contradiction|]. rewrite orb_false_r.
      destruct (Z.ltb_spec j 8); [reflexivity|].
      now rewrite peek_high_bits.
  - eexists. rewrite clear_bit_same, read_after_clear_bit.
    split; [reflexivity|]. split; [reflexivity|]. split.
    + rewrite clear_byte_testbit by lia. rewrite Z.eqb_refl.
      now rewrite andb_false_r, andb_false_r.
    + intros j Hj. destruct (Z.ltb_spec j 0) as [Hneg|Hpos].
      { now rewrite !Z.testbit_neg_r. }
      rewrite clear_byte_testbit by lia.
      destruct (Z.eqb_spec j i); [contradiction|]. cbn [negb].
      rewrite andb_true_r.
      destruct (Z.ltb_spec j 8); [reflexivity|].
      now rewrite peek_high_bits.
Qed.

Lemma bit_helpers_round_trip_witness :
  0 <= 5 <= 7 /\
  (exists v, read_after (DelayTimer.set_bit PORTB_ADDR 5) PORTB_ADDR
               (<[PORTB_ADDR := 0x81]> ∅) = Some v /\ Z.testbit v 5 = true) /\
  (exists v, read_after (DelayTimer.clear_bit PORTB_ADDR 5) PORTB_ADDR
               (<[PORTB_ADDR := 0xA1]> ∅) = Some v /\ Z.testbit v 5 = false).
Proof.
  split; [lia|].
  destruct (bit_helpers_round_trip (<[PORTB_ADDR := 0x81]> ∅) PORTB_ADDR 5)
    as [(v & Hs & _ & Hb & _) _]; [lia|].
  destruct (bit_helpers_round_trip (<[PORTB_ADDR := 0xA1]> ∅) PORTB_ADDR 5)
    as [_ (w & Hc & _ & Hb' & _)]; [lia|].
  split; [exists v|exists w]; auto.
Defined.

Lemma set_byte_idem (v i : Z) :
  uint8_t (Z.lor (uint8_t (Z.lor v (Z.shiftl 1 i))) (Z.shiftl 1 i)) =
  uint8_t (Z.lor v (Z.shiftl 1 i)).
Proof.
  apply Z.bits_inj'. intros n Hn.
  rewrite !uint8_t_testbit, !Z.lor_spec, uint8_t_testbit, Z.lor_spec.
  destruct (n <? 8), (Z.testbit v n), (Z.testbit (Z.shiftl 1 i) n); reflexivity.
Qed.

Lemma clear_byte_idem (v i : Z) :
  uint8_t (Z.land (uint8_t (Z.land v (Z.lnot (Z.shiftl 1 i))))
             (Z.lnot (Z.shiftl 1 i))) =
  uint8_t (Z.land v (Z.lnot (Z.shiftl 1 i))).
Proof.
  apply Z.bits_inj'. intros n Hn.
  rewrite !uint8_t_testbit, !Z.land_spec, uint8_t_testbit, Z.land_spec.
  destruct (n <? 8), (Z.testbit v n), (Z.testbit (Z.lnot (Z.shiftl 1 i)) n);
    reflexivity.
Qed.

Lemma clear_set_byte (v i : Z) :
  uint8_t (Z.land (uint8_t (Z.lor v (Z.shiftl 1 i))) (Z.lnot (Z.shiftl 1 i))) =
  uint8_t (Z.land v (Z.lnot (Z.shiftl 1 i))).
Proof.
  apply Z.bits_inj'. intros n Hn.
  rewrite !uint8_t_testbit, !Z.land_spec, uint8_t_testbit, Z.lor_spec,
    Z.lnot_spec by lia.
  destruct (n <? 8), (Z.testbit v n), (Z.testbit (Z.shiftl 1 i) n); reflexivity.
Qed.

Lemma land_byte (v w : Z) : uint8_t (Z.land (uint8_t v) w) = Z.land (uint8_t v) w.
Proof.
  apply Z.bits_inj'. intros n Hn.
  rewrite uint8_t_testbit, !Z.land_spec, uint8_t_testbit.
  destruct (n <? 8); reflexivity.
Qed.

(** C10. On a register that stores bytes, for every address, bit index
    and initial content: [set_bit] twice leaves the storage as [set_bit]
    once does, likewise [clear_bit]; and [clear_bit] after [set_bit] leaves
    the register holding its original value with bit [i] cleared. Every
    one of these runs returns. *)
Theorem bit_helpers_idempotent (m : gmap Z Z) (a i : Z) :
  storage_after (DelayTimer.set_bit a i) m =
    Some (<[a := uint8_t (Z.lor (peek m a) (Z.shiftl 1 i))]> m) /\
  storage_after (DelayTimer.set_bit a i ;; DelayTimer.set_bit a i) m =
    storage_after (DelayTimer.set_bit a i) m /\
  storage_after (DelayTimer.clear_bit a i) m =
    Some (<[a := Z.land (peek m a) (Z.lnot (Z.shiftl 1 i))]> m) /\
  storage_after (DelayTimer.clear_bit a i ;; DelayTimer.clear_bit a i) m =
    storage_after (DelayTimer.clear_bit a i) m /\
  storage_after (DelayTimer.set_bit a i ;; DelayTimer.clear_bit a i) m =
    Some (<[a := Z.land (peek m a) (Z.lnot (Z.shiftl 1 i))]> m) /\
  storage_after (RegReadWrite.set_bit a i ;; RegReadWrite.set_bit a i) m =
    storage_after (RegReadWrite.set_bit a i) m /\
  storage_after (RegReadWrite.clear_bit a i ;; RegReadWrite.clear_bit a i) m =
    storage_after (RegReadWrite.clear_bit a i) m /\
  storage_after (RegReadWrite.set_bit a i ;; RegReadWrite.clear_bit a i) m =
    Some (<[a := Z.land (peek m a) (Z.lnot (Z.shiftl 1 i))]> m).
Proof.
  rewrite set_bit_same, clear_bit_same.
  unfold storage_after, bind. rewrite !ram_set_bit, !ram_clear_bit.
  cbn beta iota zeta. rewrite !ram_set_bit, !ram_clear_bit.
  cbn beta iota zeta.
  rewrite !peek_insert, !uint8_t_idem, set_byte_idem, clear_byte_idem,
    clear_set_byte, !insert_insert_eq.
  assert (Hb : uint8_t (Z.land (peek m a) (Z.lnot (Z.shiftl 1 i))) =
               Z.land (peek m a) (Z.lnot (Z.shiftl 1 i)))
    by (unfold peek; apply land_byte).
  rewrite !Hb. repeat split.
Qed.

(** ** Traces of the delay routine *)

Lemma stores_to_app (a : Z) (t1 t2 : list event) :
  stores_to a (t1 ++ t2) = stores_to a t1 ++ stores_to a t2.
Proof.
  induction t1 as [|[b v|b v] t1 IH]; cbn; [reflexivity|assumption|].
  destruct (b =? a); cbn; now rewrite IH.
Qed.

Lemma stores_to_elsewhere (a b : Z) (tr : list event) :
  a <> b ->
  forallb (fun e => event_addr e =? b) tr = true ->
  stores_to a tr = [].
Proof.
  intros Hab. induction tr as [|[c v|c v] tr IH]; cbn; [reflexivity| |];
    intros [Hc Htr]%andb_prop; apply Z.eqb_eq in Hc; subst c; auto.
  destruct (Z.eqb_spec b a); [congruence|auto].
Qed.

Lemma poll_miss_addr (tr : list event) :
  forallb poll_miss tr = true ->
  forallb (fun e => event_addr e =? TIFR1_ADDR) tr = true.
Proof.
  induction tr as [|[a v|a v] tr IH]; cbn -[Z.testbit]; [reflexivity| |discriminate].
  intros [[Ha _]%andb_prop Htr]%andb_prop. rewrite Ha. auto.
Qed.

Section DelayTraces.
Context {D : device}.

(** After the four set-up stores a call only touches the flag register. *)
Lemma delay_1000ms_trace_split (fuel : nat) (s : hw D) :
  exists rest,
    trace_of (DelayTimer.delay_1000ms fuel s) = delay_setup ++ rest /\
    forallb (fun e => event_addr e =? TIFR1_ADDR) rest = true.
Proof.
  rewrite delay_1000ms_unfold. cbn zeta.
  pose proof (wait_overflow_trace fuel
    (hw_store D TCNT1H_ADDR 0x0B (hw_store D TCNT1L_ADDR 0xDB
       (hw_store D TCCR1B_ADDR 0x04 (hw_store D TCCR1A_ADDR 0x00 s))))) as H.
  destruct (DelayTimer.wait_overflow fuel _) as [[] s5 t|s5 t].
  - destruct H as (misses & hit & -> & Hm & Hh & _).
    destruct (hw_load D TIFR1_ADDR s5) as [v s6]. cbn [trace_of].
    eexists. split; [reflexivity|].
    rewrite !forallb_app. rewrite (poll_miss_addr _ Hm).
    destruct hit as [a w|a w]; [|discriminate]. cbn -[Z.testbit] in Hh.
    apply andb_prop in Hh as [Ha _]. cbn. now rewrite Ha.
  - destruct H as [Hm _]. cbn [trace_of].
    eexists. split; [reflexivity|]. now apply poll_miss_addr.
Qed.
End DelayTraces.

(** The bytes a call stores to a register other than the flag register
    are those of its set-up. *)
Lemma delay_1000ms_stores_to (D : device) (a : Z) (fuel : nat) (s : hw D) :
  a <> TIFR1_ADDR ->
  stores_to a (trace_of (DelayTimer.delay_1000ms fuel s)) = stores_to a delay_setup.
Proof.
  intros Ha. destruct (delay_1000ms_trace_split fuel s) as (rest & -> & Hrest).
  rewrite stores_to_app, (stores_to_elsewhere a TIFR1_ADDR rest Ha Hrest).
  apply app_nil_r.
Qed.

(** C9. In the trace of every call of [delay_1000ms], on any device and
    whether or not the call returns, the store of [0xDB] to the low counter
    byte (address 0x84) is the third event and the store of [0x0B] to the
    high counter byte (address 0x85) the fourth, and these are the only
    stores to the two registers: low byte strictly before high byte. *)
Theorem preload_low_byte_first (D : device) (fuel : nat) (s : hw D) :
  let tr := trace_of (DelayTimer.delay_1000ms fuel s) in
  tr !! 2%nat = Some (Store 0x84 0xDB) /\
  tr !! 3%nat = Some (Store 0x85 0x0B) /\
  index_of (is_store_to TCNT1L_ADDR) tr = Some 2%nat /\
  index_of (is_store_to TCNT1H_ADDR) tr = Some 3%nat /\
  stores_to TCNT1L_ADDR tr = [0xDB] /\
  stores_to TCNT1H_ADDR tr = [0x0B].
Proof.
  cbn zeta. rewrite !delay_1000ms_stores_to by discriminate.
  destruct (delay_1000ms_trace_split fuel s) as (rest & -> & _).
  repeat split.
Qed.

(** ** The timer peripheral *)

Lemma cycle_frame (s : timer1) :
  io (cycle s) = io s /\ tccr1a (cycle s) = tccr1a s /\ tccr1b (cycle s) = tccr1b s.
Proof.
  unfold cycle. destruct (prescale_div (clock_select s)); [|easy].
  destruct (normal_mode s && _); easy.
Qed.

Lemma clock_S (n : nat) (s : timer1) : clock (S n) s = cycle (clock n s).
Proof. reflexivity. Qed.

Lemma clock_add (n m : nat) (s : timer1) : clock (n + m) s = clock n (clock m s).
Proof. unfold clock. apply Nat.iter_add. Qed.

Lemma clock_frame (n : nat) (s : timer1) :
  io (clock n s) = io s /\ tccr1a (clock n s) = tccr1a s /\
  tccr1b (clock n s) = tccr1b s.
Proof.
  induction n as [|n (Hio & Ha & Hb)]; [easy|].
  rewrite clock_S. destruct (cycle_frame (clock n s)) as (-> & -> & ->). easy.
Qed.

Lemma count_up_wf (s : timer1) : wf (count_up s).
Proof.
  unfold wf, count_up. cbn [tcnt1h tcnt1l].
  pose proof (Z.mod_pos_bound (tcnt1 s + 1) 65536 eq_refl).
  split; [|apply Z.mod_pos_bound; lia].
  split; [apply Z.div_pos; lia|apply Z.div_lt_upper_bound; lia].
Qed.

Lemma cycle_wf (s : timer1) : wf s -> wf (cycle s).
Proof.
  intros Hwf. unfold cycle.
  destruct (prescale_div (clock_select s)); [|exact Hwf].
  destruct (normal_mode s && _); [apply count_up_wf|exact Hwf].
Qed.

Lemma clock_wf (n : nat) (s : timer1) : wf s -> wf (clock n s).
Proof.
  intros Hwf. induction n; [exact Hwf|]. rewrite clock_S. now apply cycle_wf.
Qed.

Lemma clock_running (n : nat) (s : timer1) : running s -> running (clock n s).
Proof.
  unfold running. destruct (clock_frame n s) as (_ & -> & ->). easy.
Qed.

Lemma fine_range (s : timer1) : wf s -> 0 <= fine s < 2 ^ 24.
Proof.
  unfold wf, fine, tcnt1. intros [Hh Hl].
  pose proof (Z.mod_pos_bound (presc s) 256 eq_refl). lia.
Qed.

Lemma cycle_running (s : timer1) :
  running s ->
  cycle s =
  let s' := {| io := io s; tccr1a := tccr1a s; tccr1b := tccr1b s;
               tcnt1h := tcnt1h s; tcnt1l := tcnt1l s;
               tifr1 := tifr1 s; presc := (presc s + 1) mod 1024 |} in
  if (presc s + 1) mod 1024 mod 256 =? 0 then count_up s' else s'.
Proof.
  intros [Ha Hb]. unfold cycle, clock_select, normal_mode.
  rewrite Ha, Hb. reflexivity.
Qed.

(** One cycle in the configuration of the delay moves the fine position
    up by one, and the wrap at [2^24] is the overflow. *)
Lemma cycle_fine (s : timer1) :
  running s -> wf s ->
  fine (cycle s) = (fine s + 1) mod 2 ^ 24 /\
  tifr1 (cycle s) = if fine s + 1 =? 2 ^ 24 then Z.lor (tifr1 s) 1 else tifr1 s.
Proof.
  intros Hrun [Hh Hl]. rewrite (cycle_running s Hrun). cbn zeta.
  change (2 ^ 24) with 16777216.
  destruct (Z.eqb_spec ((presc s + 1) mod 1024 mod 256) 0) as [Hp|Hp];
    unfold fine, count_up, tcnt1;
    cbn [tcnt1h tcnt1l tifr1 presc io tccr1a tccr1b].
  - destruct (Z.eqb_spec ((tcnt1h s * 256 + tcnt1l s + 1) mod 65536) 0) as [Hn|Hn];
      destruct (Z.eqb_spec ((tcnt1h s * 256 + tcnt1l s) * 256 + presc s mod 256 + 1)
                           16777216);
      (split; [|try reflexivity]); Z.div_mod_to_equations; lia.
  - destruct (Z.eqb_spec ((tcnt1h s * 256 + tcnt1l s) * 256 + presc s mod 256 + 1)
                         16777216);
      (split; [|try reflexivity]); Z.div_mod_to_equations; lia.
Qed.

Lemma lor_1_idem (t : Z) : Z.lor (Z.lor t 1) 1 = Z.lor t 1.
Proof. now rewrite <- Z.lor_assoc, Z.lor_diag. Qed.

Lemma clock_fine (n : nat) (s : timer1) :
  running s -> wf s ->
  fine (clock n s) = (fine s + Z.of_nat n) mod 2 ^ 24 /\
  tifr1 (clock n s) =
    if fine s + Z.of_nat n <? 2 ^ 24 then tifr1 s else Z.lor (tifr1 s) 1.
Proof.
  intros Hrun Hwf. pose proof (fine_range s Hwf) as Hf.
  change (2 ^ 24) with 16777216 in *.
  induction n as [|n [IHf IHt]].
  - rewrite Z.add_0_r, Z.mod_small by lia. cbn [clock Nat.iter].
    destruct (Z.ltb_spec (fine s) 16777216); [easy|lia].
  - rewrite clock_S.
    destruct (cycle_fine (clock n s)) as [Hcf Hct];
      [now apply clock_running|now apply clock_wf|].
    change (2 ^ 24) with 16777216 in *.
    rewrite Hcf, Hct, IHf, IHt. split.
    + rewrite Z.add_mod_idemp_l by lia. f_equal. lia.
    + destruct (Z.eqb_spec ((fine s + Z.of_nat n) mod 16777216 + 1) 16777216) as [He|He];
        destruct (Z.ltb_spec (fine s + Z.of_nat n) 16777216);
        destruct (Z.ltb_spec (fine s + Z.of_nat (S n)) 16777216);
        try reflexivity; try apply lor_1_idem;
        try (rewrite Z.mod_small in He by lia); lia.
Qed.

Lemma testbit_lor_1 (t : Z) : Z.testbit (Z.lor t 1) 0 = true.
Proof. rewrite Z.lor_spec. apply orb_true_r. Qed.

(** No wrap within [n] cycles: the flag register is untouched. *)
Lemma clock_before_wrap (n : nat) (s : timer1) :
  running s -> wf s -> fine s + Z.of_nat n < 2 ^ 24 ->
  fine (clock n s) = fine s + Z.of_nat n /\ tifr1 (clock n s) = tifr1 s.
Proof.
  intros Hrun Hwf Hlt. destruct (clock_fine n s Hrun Hwf) as [-> ->].
  pose proof (fine_range s Hwf).
  rewrite Z.mod_small by lia.
  destruct (Z.ltb_spec (fine s + Z.of_nat n) (2 ^ 24)); [easy|lia].
Qed.

(** A wrap within [n] cycles: the overflow flag is up. *)
Lemma clock_after_wrap (n : nat) (s : timer1) :
  running s -> wf s -> 2 ^ 24 <= fine s + Z.of_nat n ->
  tifr1 (clock n s) = Z.lor (tifr1 s) 1 /\ overflow_flag (clock n s) = true.
Proof.
  intros Hrun Hwf Hge. unfold overflow_flag.
  destruct (clock_fine n s Hrun Hwf) as [_ ->].
  destruct (Z.ltb_spec (fine s + Z.of_nat n) (2 ^ 24)); [lia|].
  split; [reflexivity|apply testbit_lor_1].
Qed.

(** A stopped counter does not move and raises no flag. *)
Lemma cycle_stopped (s : timer1) :
  stopped s ->
  tcnt1h (cycle s) = tcnt1h s /\ tcnt1l (cycle s) = tcnt1l s /\
  tifr1 (cycle s) = tifr1 s.
Proof. unfold stopped, cycle. intros ->. easy. Qed.

Lemma clock_stopped (n : nat) (s : timer1) :
  stopped s ->
  tcnt1h (clock n s) = tcnt1h s /\ tcnt1l (clock n s) = tcnt1l s /\
  tifr1 (clock n s) = tifr1 s.
Proof.
  intros Hst. induction n as [|n (Hh & Hl & Ht)]; [easy|].
  rewrite clock_S.
  destruct (cycle_stopped (clock n s)) as (-> & -> & ->); [|easy].
  unfold stopped, clock_select in *.
  now destruct (clock_frame n s) as (_ & _ & ->).
Qed.

Lemma poll_bound_Z : Z.of_nat poll_bound = 2 ^ 24.
Proof. unfold poll_bound. apply Z2Nat.id. apply Z.pow_nonneg. lia. Qed.

Global Opaque poll_bound.

(** ** Fuel *)

Section Fuel.
Context {D : device}.

(** A loop that has left keeps its outcome when given more fuel. *)
Lemma while_more_fuel (cond : prog D bool) (body : prog D unit)
      (f f' : nat) (s s' : hw D) (tr : list event) :
  while f cond body s = Done tt s' tr -> (f <= f')%nat ->
  while f' cond body s = Done tt s' tr.
Proof.
  revert f' s s' tr. induction f as [|f IH]; intros f' s s' tr H Hle; [discriminate|].
  destruct f' as [|f']; [lia|].
  rewrite while_S in *.
  destruct (cond s) as [[|] s1 t1|s1 t1]; [|assumption|discriminate].
  destruct (body s1) as [[] s2 t2|s2 t2]; [|discriminate].
  destruct (while f cond body s2) as [[] s3 t3|s3 t3] eqn:Hw; [|discriminate].
  rewrite (IH f' s2 s3 t3 Hw) by lia. assumption.
Qed.

Lemma delay_1000ms_more_fuel (f f' : nat) (s s' : hw D) (tr : list event) :
  DelayTimer.delay_1000ms f s = Done tt s' tr -> (f <= f')%nat ->
  DelayTimer.delay_1000ms f' s = Done tt s' tr.
Proof.
  rewrite !delay_1000ms_unfold. cbn zeta. intros H Hle.
  destruct (DelayTimer.wait_overflow f _) as [[] s5 t|s5 t] eqn:Hw; [|discriminate].
  unfold DelayTimer.wait_overflow in *.
  now rewrite (while_more_fuel _ _ f f' _ _ _ Hw Hle).
Qed.

(** So the outcome of a call that returns does not depend on the fuel. *)
Lemma delay_1000ms_unique (f f' : nat) (s s1 s2 : hw D) (t1 t2 : list event) :
  DelayTimer.delay_1000ms f s = Done tt s1 t1 ->
  DelayTimer.delay_1000ms f' s = Done tt s2 t2 ->
  s1 = s2 /\ t1 = t2.
Proof.
  intros H1 H2.
  apply (delay_1000ms_more_fuel f (Nat.max f f')) in H1; [|lia].
  apply (delay_1000ms_more_fuel f' (Nat.max f f')) in H2; [|lia].
  rewrite H1 in H2. now inversion H2.
Qed.
End Fuel.

Lemma mod_wrap_once (a m : Z) : m <= a < 2 * m -> a mod m = a - m.
Proof. intros H. symmetry. apply Z.mod_unique with 1; lia. Qed.

Lemma calm_of_fine (n : Z) (s : timer1) :
  running s -> wf s -> overflow_flag s = false -> fine s <= n * 256 + 255 ->
  calm n s.
Proof.
  intros Hrun [Hh Hl] Hclr Hf. split; [exact Hclr|]. split; [|now left].
  unfold fine in Hf. pose proof (Z.mod_pos_bound (presc s) 256 eq_refl). lia.
Qed.

Lemma calm_weaken (n m : Z) (s : timer1) : n <= m -> calm n s -> calm m s.
Proof. intros Hnm (Hclr & Hcnt & Hmode). repeat split; auto. lia. Qed.

(** ** The delay routine on the timer *)

Section OnTimer.
Variable c : nat.
Hypothesis c_pos : (1 <= c)%nat.

Lemma timer1_poll (s : timer1) :
  hw_load (timer1_dev c) TIFR1_ADDR s = (tifr1 (clock c s), clock c s).
Proof. reflexivity. Qed.

Lemma overflow_flag_byte (s : timer1) :
  Z.testbit (uint8_t (tifr1 s)) 0 = overflow_flag s.
Proof. now rewrite uint8_t_testbit. Qed.

(** Once the counter runs the polling loop leaves, flag seen set, within
    as many polls as accesses fit before the next wrap. *)
Lemma wait_overflow_terminates (n fuel : nat) (s : timer1) :
  running s -> wf s -> 2 ^ 24 - fine s <= Z.of_nat n * Z.of_nat c ->
  (n <= fuel)%nat ->
  exists s' tr,
    DelayTimer.wait_overflow (D:=timer1_dev c) fuel s = Done tt s' tr /\
    running s' /\ wf s' /\ overflow_flag s' = true /\ io s' = io s /\
    (length tr <= n)%nat.
Proof.
  revert fuel s. induction n as [|n IH]; intros fuel s Hrun Hwf Hn Hfuel.
  - pose proof (fine_range s Hwf). lia.
  - destruct fuel as [|fuel]; [lia|].
    rewrite Nat2Z.inj_succ, Z.mul_succ_l in Hn.
    rewrite wait_overflow_S, timer1_poll, overflow_flag_byte.
    pose proof (clock_running c s Hrun) as Hrun1.
    pose proof (clock_wf c s Hwf) as Hwf1.
    destruct (clock_frame c s) as (Hio1 & _ & _).
    destruct (overflow_flag (clock c s)) eqn:Hflag.
    + exists (clock c s), [Load TIFR1_ADDR (uint8_t (tifr1 (clock c s)))].
      cbn [length]. repeat split; auto; try apply Hrun1; try apply Hwf1. lia.
    + destruct (Z.ltb_spec (fine s + Z.of_nat c) (2 ^ 24)) as [Hlt|Hge].
      2:{ destruct (clock_after_wrap c s Hrun Hwf Hge) as [_ Ht]. congruence. }
      destruct (clock_before_wrap c s Hrun Hwf Hlt) as [Hf1 _].
      destruct (IH fuel (clock c s)) as (s' & tr & -> & Hr' & Hw' & Hfl' & Hio' & Hlen);
        auto; [lia|lia|].
      eexists _, _. split; [reflexivity|]. cbn [length].
      repeat split; auto; try apply Hr'; try apply Hw'; [congruence|lia].
Qed.

(** With the flag clear at the start, the loop leaves at the first poll
    after the wrap: poll [k] where [k c - c < 2^24 - fine <= k c]. *)
Lemma wait_overflow_polls (k fuel : nat) (s : timer1) :
  running s -> wf s -> overflow_flag s = false ->
  Z.of_nat k * Z.of_nat c - Z.of_nat c < 2 ^ 24 - fine s <= Z.of_nat k * Z.of_nat c ->
  (k <= fuel)%nat ->
  exists s' tr,
    DelayTimer.wait_overflow (D:=timer1_dev c) fuel s = Done tt s' tr /\
    length tr = k /\ running s' /\ wf s' /\
    fine s' = (fine s + Z.of_nat k * Z.of_nat c) mod 2 ^ 24 /\
    tifr1 s' = Z.lor (tifr1 s) 1 /\ io s' = io s.
Proof.
  revert fuel s. induction k as [|k IH]; intros fuel s Hrun Hwf Hclr Hk Hfuel.
  - pose proof (fine_range s Hwf). lia.
  - destruct fuel as [|fuel]; [lia|].
    rewrite wait_overflow_S, timer1_poll, overflow_flag_byte.
    pose proof (clock_running c s Hrun) as Hrun1.
    pose proof (clock_wf c s Hwf) as Hwf1.
    destruct (clock_frame c s) as (Hio1 & _ & _).
    pose proof (clock_fine c s Hrun Hwf) as [Hfine _].
    rewrite Nat2Z.inj_succ, Z.mul_succ_l in *.
    assert (Hkc : 0 <= Z.of_nat k * Z.of_nat c)
      by (apply Z.mul_nonneg_nonneg; lia).
    destruct (Z.ltb_spec (fine s + Z.of_nat c) (2 ^ 24)) as [Hlt|Hge].
    + destruct (clock_before_wrap c s Hrun Hwf Hlt) as [Hf1 Ht1].
      assert (Hclr1 : overflow_flag (clock c s) = false)
        by (unfold overflow_flag in *; congruence).
      rewrite Hclr1.
      destruct (IH fuel (clock c s)) as (s' & tr & -> & Hlen & Hr' & Hw' & Hf' & Ht' & Hio');
        auto; [lia|lia|].
      eexists _, _. split; [reflexivity|]. cbn [length].
      repeat split; auto; try apply Hr'; try apply Hw'; try congruence.
      rewrite Hf', Hf1. f_equal. lia.
    + destruct (clock_after_wrap c s Hrun Hwf Hge) as [Ht1 Hset].
      rewrite Hset.
      assert (k = 0%nat) as ->.
      { destruct k as [|k]; [reflexivity|exfalso].
        rewrite Nat2Z.inj_succ, Z.mul_succ_l in Hk.
        assert (0 <= Z.of_nat k * Z.of_nat c)
          by (apply Z.mul_nonneg_nonneg; lia).
        lia. }
      eexists _, _. split; [reflexivity|]. cbn [length].
      repeat split; auto; try apply Hrun1; try apply Hwf1.
Qed.

(** *** The four set-up stores *)

Lemma store_control_wf (a v : Z) (x : timer1) :
  a = TCCR1A_ADDR \/ a = TCCR1B_ADDR \/ a = TIFR1_ADDR ->
  wf (timer1_store a v x) <-> wf x.
Proof. intros [-> | [-> | ->]]; reflexivity. Qed.

Lemma store_control_fine (a v : Z) (x : timer1) :
  a = TCCR1A_ADDR \/ a = TCCR1B_ADDR \/ a = TIFR1_ADDR ->
  fine (timer1_store a v x) = fine x.
Proof. intros [-> | [-> | ->]]; reflexivity. Qed.

(** The two control stores put the timer in the configuration of the
    delay, whatever it was. *)
Lemma setup_control (s : timer1) :
  wf s ->
  let s2 := hw_store (timer1_dev c) TCCR1B_ADDR 0x04
              (hw_store (timer1_dev c) TCCR1A_ADDR 0x00 s) in
  running s2 /\ wf s2 /\ io s2 = io s.
Proof.
  intros Hwf. cbn [hw_store timer1_dev]. split; [|split].
  - split; [|reflexivity].
    change (tccr1a (timer1_store TCCR1B_ADDR 4 ?x)) with (tccr1a x).
    now destruct (clock_frame c (timer1_store TCCR1A_ADDR 0 (clock c s)))
      as (_ & -> & _).
  - apply store_control_wf; [auto|]. apply clock_wf.
    apply store_control_wf; [auto|]. now apply clock_wf.
  - change (io (timer1_store TCCR1B_ADDR 4 ?x)) with (io x).
    destruct (clock_frame c (timer1_store TCCR1A_ADDR 0 (clock c s)))
      as (-> & _ & _).
    change (io (timer1_store TCCR1A_ADDR 0 ?x)) with (io x).
    now destruct (clock_frame c s) as (-> & _ & _).
Qed.

(** The two counter stores leave the timer running and well formed. *)
Lemma setup_counter (s2 : timer1) :
  running s2 -> wf s2 ->
  let s4 := hw_store (timer1_dev c) TCNT1H_ADDR 0x0B
              (hw_store (timer1_dev c) TCNT1L_ADDR 0xDB s2) in
  running s4 /\ wf s4 /\ io s4 = io s2.
Proof.
  intros Hrun Hwf. cbn [hw_store timer1_dev].
  pose proof (clock_running c s2 Hrun) as Hr3.
  pose proof (clock_wf c s2 Hwf) as [Hh3 Hl3].
  destruct (clock_frame c s2) as (Hio3 & _ & _).
  set (s3 := timer1_store TCNT1L_ADDR 219 (clock c s2)).
  assert (Hr3' : running s3) by exact Hr3.
  assert (Hw3' : wf s3) by (split; [exact Hh3|cbn; lia]).
  pose proof (clock_running c s3 Hr3') as Hr4.
  pose proof (clock_wf c s3 Hw3') as [Hh4 Hl4].
  destruct (clock_frame c s3) as (Hio4 & _ & _).
  split; [exact Hr4|]. split; [split; [cbn; lia|exact Hl4]|].
  change (io (timer1_store TCNT1H_ADDR 11 ?x)) with (io x).
  rewrite Hio4. exact Hio3.
Qed.

(** With accesses no longer than a counter period, the preload leaves
    the counter between [0x0BDB] and [0x0BDC] in fine position, and from
    a state that cannot wrap within one access the flag register is
    left alone. *)
Lemma setup_counter_fine (s2 : timer1) :
  (c <= 256)%nat -> running s2 -> wf s2 ->
  let s4 := hw_store (timer1_dev c) TCNT1H_ADDR 0x0B
              (hw_store (timer1_dev c) TCNT1L_ADDR 0xDB s2) in
  0x0BDB * 256 + Z.of_nat c <= fine s4 < 0x0BDC * 256 + Z.of_nat c /\
  (fine s2 + Z.of_nat c < 2 ^ 24 -> tifr1 s4 = tifr1 s2).
Proof.
  intros Hc Hrun Hwf. cbn [hw_store timer1_dev].
  pose proof (clock_running c s2 Hrun) as Hr3.
  pose proof (clock_wf c s2 Hwf) as [Hh3 Hl3].
  set (s3 := timer1_store TCNT1L_ADDR 219 (clock c s2)).
  assert (Hr3' : running s3) by exact Hr3.
  assert (Hw3' : wf s3) by (split; [exact Hh3|cbn; lia]).
  assert (Hf3 : fine s3 = (tcnt1h (clock c s2) * 256 + 219) * 256
                          + presc (clock c s2) mod 256) by reflexivity.
  pose proof (Z.mod_pos_bound (presc (clock c s2)) 256 eq_refl) as Hp3.
  destruct (clock_before_wrap c s3 Hr3' Hw3') as [Hf4 Ht4];
    [change (2 ^ 24) with 16777216; lia|].
  pose proof (clock_wf c s3 Hw3') as [Hh4 Hl4].
  pose proof (Z.mod_pos_bound (presc (clock c s3)) 256 eq_refl) as Hp4.
  assert (Hf4' : fine (clock c s3) =
                 (tcnt1h (clock c s3) * 256 + tcnt1l (clock c s3)) * 256
                 + presc (clock c s3) mod 256) by reflexivity.
  assert (Hfine : fine (timer1_store TCNT1H_ADDR 11 (clock c s3)) =
                  (11 * 256 + tcnt1l (clock c s3)) * 256
                  + presc (clock c s3) mod 256) by reflexivity.
  split; [rewrite Hfine; lia|].
  intros Hlt.
  change (tifr1 (timer1_store TCNT1H_ADDR 11 ?x)) with (tifr1 x).
  rewrite Ht4. change (tifr1 s3) with (tifr1 (clock c s2)).
  now destruct (clock_before_wrap c s2 Hrun Hwf Hlt) as [_ ->].
Qed.

(** From a quiet state the control stores meet no overflow either. *)
Lemma setup_control_quiet (s : timer1) :
  (c <= 256)%nat -> wf s -> quiet s ->
  let s2 := hw_store (timer1_dev c) TCCR1B_ADDR 0x04
              (hw_store (timer1_dev c) TCCR1A_ADDR 0x00 s) in
  tifr1 s2 = tifr1 s /\ fine s2 <= 65003 * 256.
Proof.
  intros Hc Hwf (Hclr & Hcnt & [Hrun|Hst]); cbn [hw_store timer1_dev].
  - pose proof (fine_range s Hwf) as Hf.
    assert (Hfs : fine s <= 65000 * 256 + 255).
    { unfold fine. pose proof (Z.mod_pos_bound (presc s) 256 eq_refl). lia. }
    destruct (clock_before_wrap c s Hrun Hwf) as [Hf1 Ht1];
      [change (2 ^ 24) with 16777216; lia|].
    set (y1 := timer1_store TCCR1A_ADDR 0 (clock c s)).
    assert (Hry : running y1).
    { split; [reflexivity|]. change (tccr1b y1) with (tccr1b (clock c s)).
      apply (clock_running c s Hrun). }
    assert (Hwy : wf y1) by (apply store_control_wf; [auto|now apply clock_wf]).
    assert (Hfy : fine y1 = fine s + Z.of_nat c) by (rewrite <- Hf1; reflexivity).
    destruct (clock_before_wrap c y1 Hry Hwy) as [Hf2 Ht2];
      [change (2 ^ 24) with 16777216; lia|].
    rewrite store_control_fine by auto.
    change (tifr1 (timer1_store TCCR1B_ADDR 4 ?x)) with (tifr1 x).
    rewrite Ht2, Hf2, Hfy. change (tifr1 y1) with (tifr1 (clock c s)).
    split; [exact Ht1|lia].
  - destruct (clock_stopped c s Hst) as (Hh1 & Hl1 & Ht1).
    set (y1 := timer1_store TCCR1A_ADDR 0 (clock c s)).
    assert (Hsy : stopped y1).
    { unfold stopped, clock_select in *. change (tccr1b y1) with (tccr1b (clock c s)).
      now destruct (clock_frame c s) as (_ & _ & ->). }
    destruct (clock_stopped c y1 Hsy) as (Hh2 & Hl2 & Ht2).
    rewrite store_control_fine by auto.
    change (tifr1 (timer1_store TCCR1B_ADDR 4 ?x)) with (tifr1 x).
    rewrite Ht2. change (tifr1 y1) with (tifr1 (clock c s)).
    split; [exact Ht1|].
    unfold fine, tcnt1 in *. rewrite Hh2, Hl2.
    change (tcnt1h y1) with (tcnt1h (clock c s)).
    change (tcnt1l y1) with (tcnt1l (clock c s)).
    rewrite Hh1, Hl1.
    pose proof (Z.mod_pos_bound (presc (clock c y1)) 256 eq_refl). lia.
Qed.

(** *** Clearing the flag *)

Lemma clear_byte_bit0 (v : Z) : Z.testbit (uint8_t (Z.lor (uint8_t v) 1)) 0 = true.
Proof. rewrite uint8_t_testbit. apply testbit_lor_1. Qed.

Lemma clear_flag (s5 : timer1) :
  running s5 -> wf s5 ->
  let s7 := hw_store (timer1_dev c) TIFR1_ADDR
              (uint8_t (Z.lor (uint8_t (tifr1 (clock c s5))) 1)) (clock c s5) in
  running s7 /\ wf s7 /\ io s7 = io s5 /\ overflow_flag s7 = false /\
  fine s7 = (fine s5 + 2 * Z.of_nat c) mod 2 ^ 24.
Proof.
  intros Hrun Hwf. cbn [hw_store timer1_dev].
  pose proof (clock_running c _ (clock_running c s5 Hrun)) as Hr7.
  pose proof (clock_wf c _ (clock_wf c s5 Hwf)) as Hw7.
  split; [exact Hr7|]. split; [exact Hw7|]. split; [|split].
  - change (io (timer1_store TIFR1_ADDR ?v ?x)) with (io x).
    destruct (clock_frame c (clock c s5)) as (-> & _ & _).
    now destruct (clock_frame c s5) as (-> & _ & _).
  - unfold overflow_flag.
    change (tifr1 (timer1_store TIFR1_ADDR ?v ?x)) with (Z.land (tifr1 x) (Z.lnot v)).
    rewrite Z.land_spec, Z.lnot_spec, clear_byte_bit0 by lia.
    apply andb_false_r.
  - rewrite store_control_fine by auto.
    rewrite <- clock_add.
    destruct (clock_fine (c + c) s5 Hrun Hwf) as [-> _]. f_equal. lia.
Qed.

(** *** Whole calls *)

Lemma wait_overflow_stale (fuel : nat) (s : timer1) :
  running s -> wf s -> overflow_flag s = true -> (1 <= fuel)%nat ->
  DelayTimer.wait_overflow (D:=timer1_dev c) fuel s =
  Done tt (clock c s) [Load TIFR1_ADDR (uint8_t (tifr1 (clock c s)))].
Proof.
  intros Hrun Hwf Hset Hfuel. destruct fuel as [|fuel]; [lia|].
  rewrite wait_overflow_S, timer1_poll, overflow_flag_byte.
  assert (Hset' : overflow_flag (clock c s) = true).
  { unfold overflow_flag in *. destruct (clock_fine c s Hrun Hwf) as [_ ->].
    destruct (_ <? _); [exact Hset|apply testbit_lor_1]. }
  now rewrite Hset'.
Qed.

(** Every call returns, with the overflow flag clear, once the fuel
    covers a full counter period. *)
Lemma delay_returns (fuel : nat) (s : timer1) :
  wf s -> (poll_bound <= fuel)%nat ->
  exists s1 tr,
    DelayTimer.delay_1000ms (D:=timer1_dev c) fuel s = Done tt s1 tr /\
    running s1 /\ wf s1 /\ overflow_flag s1 = false /\ io s1 = io s.
Proof.
  intros Hwf Hfuel. rewrite delay_1000ms_unfold. cbn zeta.
  destruct (setup_control s Hwf) as (Hr2 & Hw2 & Hio2).
  destruct (setup_counter _ Hr2 Hw2) as (Hr4 & Hw4 & Hio4).
  cbn zeta in *.
  set (s4 := hw_store (timer1_dev c) TCNT1H_ADDR 11 _) in *.
  destruct (wait_overflow_terminates poll_bound fuel s4 Hr4 Hw4)
    as (s5 & t & -> & Hr5 & Hw5 & _ & Hio5 & _); [|exact Hfuel|].
  { pose proof (fine_range s4 Hw4). rewrite poll_bound_Z.
    change (2 ^ 24) with 16777216 in *. lia. }
  rewrite timer1_poll.
  destruct (clear_flag s5 Hr5 Hw5) as (Hr7 & Hw7 & Hio7 & Hclr & _).
  eexists _, _. split; [reflexivity|].
  repeat split; try apply Hr7; try apply Hw7; auto. congruence.
Qed.

(** The number of the poll that sees a wrap [x] cycles away. *)
Lemma poll_count (x : Z) :
  1 <= x <= 2 ^ 24 ->
  exists k : nat,
    Z.of_nat k * Z.of_nat c - Z.of_nat c < x <= Z.of_nat k * Z.of_nat c /\
    (k <= poll_bound)%nat.
Proof.
  intros Hx. change (2 ^ 24) with 16777216 in Hx.
  set (q := (x + Z.of_nat c - 1) / Z.of_nat c).
  assert (Hq : 0 <= q) by (apply Z.div_pos; lia).
  pose proof (Z.div_mod (x + Z.of_nat c - 1) (Z.of_nat c) ltac:(lia)) as Hdm.
  pose proof (Z.mod_pos_bound (x + Z.of_nat c - 1) (Z.of_nat c) ltac:(lia)) as Hr.
  fold q in Hdm. rewrite (Z.mul_comm (Z.of_nat c) q) in Hdm.
  exists (Z.to_nat q). rewrite Z2Nat.id by exact Hq.
  split; [lia|].
  apply Nat2Z.inj_le. rewrite Z2Nat.id by exact Hq. rewrite poll_bound_Z.
  change (2 ^ 24) with 16777216.
  destruct (Z.eq_dec q 0) as [->|Hq0]; [lia|].
  assert (Hle : (q - 1) * 1 <= (q - 1) * Z.of_nat c)
    by (apply Z.mul_le_mono_nonneg_l; lia).
  rewrite !Z.mul_sub_distr_r, !Z.mul_1_l in Hle. lia.
Qed.

Section ShortAccess.
Hypothesis c_short : (c <= 256)%nat.

(** A call from any state leaves the timer calm, the counter just
    past the preload or just past zero. *)
Lemma delay_rearms (fuel : nat) (s : timer1) :
  wf s -> (poll_bound <= fuel)%nat ->
  exists s1 tr,
    DelayTimer.delay_1000ms (D:=timer1_dev c) fuel s = Done tt s1 tr /\
    running s1 /\ wf s1 /\ calm 3040 s1 /\ io s1 = io s.
Proof.
  intros Hwf Hfuel. rewrite delay_1000ms_unfold. cbn zeta.
  destruct (setup_control s Hwf) as (Hr2 & Hw2 & Hio2).
  destruct (setup_counter _ Hr2 Hw2) as (Hr4 & Hw4 & Hio4).
  destruct (setup_counter_fine _ c_short Hr2 Hw2) as (Hf4 & _).
  cbn zeta in *.
  set (s4 := hw_store (timer1_dev c) TCNT1H_ADDR 11 _) in *.
  assert (Hpb : (1 <= poll_bound)%nat) by (pose proof poll_bound_Z; lia).
  assert (exists s5 t,
             DelayTimer.wait_overflow (D:=timer1_dev c) fuel s4 = Done tt s5 t /\
             running s5 /\ wf s5 /\ io s5 = io s4 /\
             fine s5 <= 0x0BDC * 256 + 2 * Z.of_nat c)
    as (s5 & t & -> & Hr5 & Hw5 & Hio5 & Hf5).
  { destruct (overflow_flag s4) eqn:Hflag.
    - rewrite wait_overflow_stale by (auto; lia).
      eexists _, _. split; [reflexivity|].
      split; [now apply clock_running|]. split; [now apply clock_wf|].
      split; [now destruct (clock_frame c s4) as (-> & _ & _)|].
      destruct (clock_before_wrap c s4 Hr4 Hw4) as [-> _];
        [change (2 ^ 24) with 16777216|]; lia.
    - pose proof (fine_range s4 Hw4) as Hfr.
      destruct (poll_count (2 ^ 24 - fine s4)) as (k & Hk & Hkb); [lia|].
      destruct (wait_overflow_polls k fuel s4 Hr4 Hw4 Hflag Hk)
        as (s5 & t & Hrun & _ & Hr5 & Hw5 & Hf5 & _ & Hio5); [lia|].
      exists s5, t. repeat split; auto; try apply Hr5; try apply Hw5.
      rewrite Hf5. revert Hk Hfr Hf4.
      generalize (Z.of_nat k * Z.of_nat c). generalize (fine s4).
      change (2 ^ 24) with 16777216. intros f kc Hk Hfr Hf4.
      rewrite mod_wrap_once; lia. }
  rewrite timer1_poll.
  destruct (clear_flag s5 Hr5 Hw5) as (Hr7 & Hw7 & Hio7 & Hclr & Hf7).
  eexists _, _. split; [reflexivity|].
  split; [exact Hr7|]. split; [exact Hw7|]. split; [|congruence].
  apply calm_of_fine; auto. rewrite Hf7.
  pose proof (fine_range s5 Hw5).
  change (2 ^ 24) with 16777216 in *. rewrite Z.mod_small; lia.
Qed.

(** From a quiet state the wrap that the set-up arms comes between
    62500 and 62501 counter periods (plus three accesses) after the
    start of the call. *)
Lemma cycles_to_overflow_bounds (s : timer1) :
  wf s ->
  62500 * 256 + 3 * Z.of_nat c < cycles_to_overflow c s
    <= 62501 * 256 + 3 * Z.of_nat c.
Proof.
  intros Hwf. unfold cycles_to_overflow, setup_state.
  destruct (setup_control s Hwf) as (Hr2 & Hw2 & _).
  destruct (setup_counter_fine _ c_short Hr2 Hw2) as (Hf4 & _).
  cbn zeta in Hf4. change (2 ^ 24) with 16777216. lia.
Qed.

(** A call from a quiet state polls until the counter has run from the
    preload to the wrap: the poll that sees the flag is the first one
    at or after the wrap, poll [k] with
    [(3 + k) c < cycles_to_overflow <= (4 + k) c]. *)
Lemma delay_from_quiet (s : timer1) :
  wf s -> quiet s ->
  exists k : nat,
    (3 + Z.of_nat k) * Z.of_nat c < cycles_to_overflow c s
      <= (4 + Z.of_nat k) * Z.of_nat c /\
    (k <= poll_bound)%nat /\
    forall fuel, (k <= fuel)%nat ->
      exists s1 tr,
        DelayTimer.delay_1000ms (D:=timer1_dev c) fuel s = Done tt s1 tr /\
        length tr = (6 + k)%nat /\
        running s1 /\ wf s1 /\ calm 3040 s1 /\ io s1 = io s.
Proof.
  intros Hwf Hq.
  pose proof (cycles_to_overflow_bounds s Hwf) as Hcb.
  unfold cycles_to_overflow, setup_state in *.
  destruct (setup_control s Hwf) as (Hr2 & Hw2 & Hio2).
  destruct (setup_control_quiet s c_short Hwf Hq) as (Ht2 & Hf2).
  destruct (setup_counter _ Hr2 Hw2) as (Hr4 & Hw4 & Hio4).
  destruct (setup_counter_fine _ c_short Hr2 Hw2) as (Hf4 & Ht4).
  cbn zeta in *.
  set (s2 := hw_store (timer1_dev c) TCCR1B_ADDR 4 _) in *.
  set (s4 := hw_store (timer1_dev c) TCNT1H_ADDR 11 _) in *.
  assert (Hclr4 : overflow_flag s4 = false).
  { unfold overflow_flag. rewrite Ht4, Ht2.
    - apply Hq.
    - change (2 ^ 24) with 16777216. lia. }
  pose proof (fine_range s4 Hw4) as Hfr.
  destruct (poll_count (2 ^ 24 - fine s4)) as (k & Hk & Hkb); [lia|].
  exists k. split; [rewrite !Z.mul_add_distr_r; lia|].
  split; [exact Hkb|].
  intros fuel Hfuel. rewrite delay_1000ms_unfold. cbn zeta.
  fold s2. fold s4.
  destruct (wait_overflow_polls k fuel s4 Hr4 Hw4 Hclr4 Hk Hfuel)
    as (s5 & t & -> & Hlen & Hr5 & Hw5 & Hf5 & _ & Hio5).
  rewrite timer1_poll.
  destruct (clear_flag s5 Hr5 Hw5) as (Hr7 & Hw7 & Hio7 & Hclr & Hf7).
  eexists _, _. split; [reflexivity|].
  split.
  { rewrite !length_app. cbn [length delay_setup]. lia. }
  split; [exact Hr7|]. split; [exact Hw7|]. split; [|congruence].
  apply calm_of_fine; auto. rewrite Hf7, Hf5.
  revert Hk Hfr Hf4.
  generalize (Z.of_nat k * Z.of_nat c). generalize (fine s4).
  change (2 ^ 24) with 16777216. intros f kc Hk Hfr Hf4.
  rewrite (mod_wrap_once (f + kc)) by lia. rewrite Z.mod_small; lia.
Qed.
End ShortAccess.
End OnTimer.

(** ** The blink loop on an arbitrary device *)

Lemma touches_only_app (regs : list Z) (t1 t2 : list event) :
  touches_only regs (t1 ++ t2) = touches_only regs t1 && touches_only regs t2.
Proof. apply forallb_app. Qed.

Lemma touches_only_at (regs : list Z) (a : Z) (tr : list event) :
  existsb (Z.eqb a) regs = true ->
  forallb (fun e => event_addr e =? a) tr = true ->
  touches_only regs tr = true.
Proof.
  intros Ha. unfold touches_only. induction tr as [|e tr IH]; [reflexivity|].
  cbn [forallb]. intros [He Htr]%andb_prop. apply Z.eqb_eq in He.
  rewrite He, Ha. cbn. now apply IH.
Qed.

Lemma stores_to_untouched (regs : list Z) (a : Z) (tr : list event) :
  existsb (Z.eqb a) regs = false ->
  touches_only regs tr = true ->
  stores_to a tr = [].
Proof.
  intros Ha. unfold touches_only.
  induction tr as [|[b v|b v] tr IH]; cbn [forallb stores_to event_addr];
    [reflexivity| |]; intros [Hb Htr]%andb_prop; [now apply IH|].
  destruct (Z.eqb_spec b a) as [->|Hne]; [congruence|now apply IH].
Qed.

Section Blink.
Context {D : device}.

Lemma set_bit_run (a i : Z) (s : hw D) :
  DelayTimer.set_bit a i s =
  let '(v, s1) := hw_load D a s in
  let w := uint8_t (Z.lor (uint8_t v) (Z.shiftl 1 i)) in
  Done tt (hw_store D a w s1) [Load a (uint8_t v); Store a w].
Proof.
  unfold DelayTimer.set_bit, bind, load, store.
  destruct (hw_load D a s) as [v s1]. reflexivity.
Qed.

Lemma clear_bit_run (a i : Z) (s : hw D) :
  DelayTimer.clear_bit a i s =
  let '(v, s1) := hw_load D a s in
  let w := uint8_t (Z.land (uint8_t v) (Z.lnot (Z.shiftl 1 i))) in
  Done tt (hw_store D a w s1) [Load a (uint8_t v); Store a w].
Proof.
  unfold DelayTimer.clear_bit, bind, load, store.
  destruct (hw_load D a s) as [v s1]. reflexivity.
Qed.

Lemma delay_1000ms_touches (fuel : nat) (s : hw D) :
  touches_only timer_regs (trace_of (DelayTimer.delay_1000ms fuel s)) = true.
Proof.
  destruct (delay_1000ms_trace_split fuel s) as (rest & -> & Hrest).
  rewrite touches_only_app. apply andb_true_intro. split; [reflexivity|].
  now apply (touches_only_at timer_regs TIFR1_ADDR).
Qed.

Lemma touches_only_toggle (tr : list event) :
  touches_only timer_regs tr = true -> touches_only toggle_regs tr = true.
Proof.
  unfold touches_only. induction tr as [|e tr IH]; [reflexivity|].
  cbn [forallb]. intros [He Htr]%andb_prop. rewrite (IH Htr), andb_true_r.
  unfold toggle_regs. cbn [existsb]. rewrite He. apply orb_true_r.
Qed.

(** The pass through the loop body, call by call. *)
Lemma toggle_cycle_run (fuel : nat) (s : hw D) :
  DelayTimer.toggle_cycle fuel s =
  let '(p, s1) := hw_load D PORTB_ADDR s in
  let hi := uint8_t (Z.lor (uint8_t p) (Z.shiftl 1 5)) in
  let t1 := [Load PORTB_ADDR (uint8_t p); Store PORTB_ADDR hi] in
  match DelayTimer.delay_1000ms fuel (hw_store D PORTB_ADDR hi s1) with
  | Spin s2 t2 => Spin s2 (t1 ++ t2)
  | Done _ s2 t2 =>
      let '(q, s3) := hw_load D PORTB_ADDR s2 in
      let lo := uint8_t (Z.land (uint8_t q) (Z.lnot (Z.shiftl 1 5))) in
      let t3 := [Load PORTB_ADDR (uint8_t q); Store PORTB_ADDR lo] in
      match DelayTimer.delay_1000ms fuel (hw_store D PORTB_ADDR lo s3) with
      | Spin s4 t4 => Spin s4 (t1 ++ t2 ++ t3 ++ t4)
      | Done _ s4 t4 => Done tt s4 (t1 ++ t2 ++ t3 ++ t4)
      end
  end.
Proof.
  unfold DelayTimer.toggle_cycle. unfold bind at 1.
  rewrite set_bit_run. destruct (hw_load D PORTB_ADDR s) as [p s1]. cbn zeta.
  unfold bind at 1.
  destruct (DelayTimer.delay_1000ms fuel _) as [[] s2 t2|s2 t2]; [|reflexivity].
  unfold bind. rewrite clear_bit_run.
  destruct (hw_load D PORTB_ADDR s2) as [q s3]. cbn beta iota zeta.
  destruct (DelayTimer.delay_1000ms fuel (hw_store D PORTB_ADDR _ s3))
    as [[] s4 t4|s4 t4]; reflexivity.
Qed.

Lemma hi_bit5 (p : Z) : Z.testbit (uint8_t (Z.lor (uint8_t p) (Z.shiftl 1 5))) 5 = true.
Proof. rewrite set_byte_testbit by lia. cbn. apply orb_true_r. Qed.

Lemma lo_bit5 (q : Z) :
  Z.testbit (uint8_t (Z.land (uint8_t q) (Z.lnot (Z.shiftl 1 5)))) 5 = false.
Proof. rewrite clear_byte_testbit by lia. cbn. apply andb_false_r. Qed.

(** What a pass stores to the port, and where it goes at all. *)
Lemma toggle_cycle_trace (fuel : nat) (s : hw D) :
  let o := DelayTimer.toggle_cycle fuel s in
  touches_only toggle_regs (trace_of o) = true /\
  exists hi, Z.testbit hi 5 = true /\
    (stores_to PORTB_ADDR (trace_of o) = [hi] /\ returns o = false \/
     exists lo, Z.testbit lo 5 = false /\
       stores_to PORTB_ADDR (trace_of o) = [hi; lo]).
Proof.
  cbn zeta. rewrite toggle_cycle_run.
  destruct (hw_load D PORTB_ADDR s) as [p s1]. cbn zeta.
  set (hi := uint8_t (Z.lor (uint8_t p) (Z.shiftl 1 5))).
  pose proof (delay_1000ms_touches fuel (hw_store D PORTB_ADDR hi s1)) as Ht2.
  destruct (DelayTimer.delay_1000ms fuel (hw_store D PORTB_ADDR hi s1))
    as [[] s2 t2|s2 t2]; cbn [trace_of] in *.
  - destruct (hw_load D PORTB_ADDR s2) as [q s3]. cbn zeta.
    set (lo := uint8_t (Z.land (uint8_t q) (Z.lnot (Z.shiftl 1 5)))).
    pose proof (delay_1000ms_touches fuel (hw_store D PORTB_ADDR lo s3)) as Ht4.
    assert (Hs2 : stores_to PORTB_ADDR t2 = [])
      by (now apply (stores_to_untouched timer_regs)).
    assert (forall t4, touches_only timer_regs t4 = true ->
              touches_only toggle_regs
                ([Load PORTB_ADDR (uint8_t p); Store PORTB_ADDR hi] ++ t2 ++
                 [Load PORTB_ADDR (uint8_t q); Store PORTB_ADDR lo] ++ t4) = true /\
              stores_to PORTB_ADDR
                ([Load PORTB_ADDR (uint8_t p); Store PORTB_ADDR hi] ++ t2 ++
                 [Load PORTB_ADDR (uint8_t q); Store PORTB_ADDR lo] ++ t4) = [hi; lo])
      as Hboth.
    { intros t4 H4. split.
      - rewrite !touches_only_app, (touches_only_toggle _ Ht2),
          (touches_only_toggle _ H4). reflexivity.
      - rewrite !stores_to_app, Hs2,
          (stores_to_untouched timer_regs PORTB_ADDR t4) by easy. reflexivity. }
    destruct (DelayTimer.delay_1000ms fuel (hw_store D PORTB_ADDR lo s3))
      as [[] s4 t4|s4 t4]; cbn [trace_of returns] in *;
      destruct (Hboth t4 Ht4) as [Hto Hst]; (split; [exact Hto|]);
      exists hi; (split; [apply hi_bit5|]); right; exists lo;
      (split; [apply lo_bit5|exact Hst]).
  - split.
    + rewrite touches_only_app, (touches_only_toggle _ Ht2). reflexivity.
    + exists hi. split; [apply hi_bit5|]. left. split; [|reflexivity].
      rewrite stores_to_app,
        (stores_to_untouched timer_regs PORTB_ADDR t2) by easy. reflexivity.
Qed.
End Blink.

Section Forever.
Context {D : device}.

(** [while(1)] never leaves: whatever the body does, the outcome of the
    loop is never a return. *)
Lemma while_true_spins (fuel : nat) (body : prog D unit) (s : hw D) :
  returns (while fuel (ret true) body s) = false.
Proof.
  revert s. induction fuel as [|fuel IH]; intros s; [reflexivity|].
  rewrite while_S. cbn [ret].
  destruct (body s) as [[] s2 t2|s2 t2]; [|reflexivity].
  specialize (IH s2). destruct (while fuel (ret true) body s2); easy.
Qed.

Lemma bind_spins {A B} (m : prog D A) (k : A -> prog D B) (s : hw D) :
  (forall a s1, returns (k a s1) = false) -> returns (bind m k s) = false.
Proof.
  intros Hk. unfold bind. destruct (m s) as [a s1 t1|s1 t1]; [|reflexivity].
  specialize (Hk a s1). destruct (k a s1); easy.
Qed.

Lemma bind_spins_l {A B} (m : prog D A) (k : A -> prog D B) (s : hw D) :
  returns (m s) = false -> returns (bind m k s) = false.
Proof. unfold bind. destruct (m s); easy. Qed.

Lemma cycles_S (fuel n : nat) (s : hw D) :
  cycles fuel (S n) s =
  match DelayTimer.toggle_cycle fuel s with
  | Done _ s1 t1 =>
      match cycles fuel n s1 with
      | Done _ s2 t2 => Done tt s2 (t1 ++ t2)
      | Spin s2 t2 => Spin s2 (t1 ++ t2)
      end
  | Spin s1 t1 => Spin s1 t1
  end.
Proof.
  cbn [cycles]. unfold bind.
  destruct (DelayTimer.toggle_cycle fuel s) as [[] s1 t1|s1 t1]; [|reflexivity].
  destruct (cycles fuel n s1) as [[] s2 t2|s2 t2]; reflexivity.
Qed.

(** The loop of [main] with fuel for [n] turns is [n] passes through
    its body in sequence, and then it is still looping. *)
Lemma while_true_cycles (fuel n : nat) (s : hw D) :
  while n (ret true) (DelayTimer.toggle_cycle fuel) s =
  Spin (state_of (cycles fuel n s)) (trace_of (cycles fuel n s)).
Proof.
  revert s. induction n as [|n IH]; intros s; [reflexivity|].
  rewrite while_S, cycles_S. cbn [ret].
  destruct (DelayTimer.toggle_cycle fuel s) as [[] s1 t1|s1 t1]; [|reflexivity].
  rewrite IH. destruct (cycles fuel n s1) as [[] s2 t2|s2 t2]; reflexivity.
Qed.

Lemma main_run (fuel : nat) (s : hw D) :
  DelayTimer.main fuel s =
  let '(v, s1) := hw_load D DDRB_ADDR s in
  let w := uint8_t (Z.lor (uint8_t v) (Z.shiftl 1 5)) in
  let o := cycles fuel fuel (hw_store D DDRB_ADDR w s1) in
  Spin (state_of o) ([Load DDRB_ADDR (uint8_t v); Store DDRB_ADDR w] ++ trace_of o).
Proof.
  unfold DelayTimer.main. unfold bind at 1. rewrite set_bit_run.
  destruct (hw_load D DDRB_ADDR s) as [v s1]. cbn beta iota zeta.
  unfold bind. now rewrite while_true_cycles.
Qed.

(** The port stores of any number of passes alternate, high first, and
    the passes touch nothing but the port and the timer. *)
Lemma cycles_trace (fuel n : nat) (s : hw D) :
  touches_only toggle_regs (trace_of (cycles fuel n s)) = true /\
  alternates true (stores_to PORTB_ADDR (trace_of (cycles fuel n s))) = true.
Proof.
  revert s. induction n as [|n IH]; intros s; [split; reflexivity|].
  rewrite cycles_S.
  destruct (toggle_cycle_trace fuel s) as (Hto & hi & Hhi & Hst).
  cbn zeta in *.
  destruct (DelayTimer.toggle_cycle fuel s) as [[] s1 t1|s1 t1];
    cbn [trace_of returns] in *.
  - destruct Hst as [[_ ?]|(lo & Hlo & Hst)]; [discriminate|].
    destruct (IH s1) as [IHt IHa].
    assert (touches_only toggle_regs (t1 ++ trace_of (cycles fuel n s1)) = true /\
            alternates true
              (stores_to PORTB_ADDR (t1 ++ trace_of (cycles fuel n s1))) = true)
      as Hboth.
    { rewrite touches_only_app, Hto, IHt, stores_to_app, Hst.
      cbn -[Z.testbit]. rewrite Hhi, Hlo, IHa. split; reflexivity. }
    destruct (cycles fuel n s1); exact Hboth.
  - split; [exact Hto|].
    destruct Hst as [[-> _]|(lo & Hlo & ->)]; cbn -[Z.testbit];
      rewrite ?Hhi, ?Hlo; reflexivity.
Qed.
End Forever.


(** ** The blink loop on the timer *)

Section BlinkOnTimer.
Variable c : nat.
Hypothesis c_pos : (1 <= c)%nat.

Lemma port_load (a : Z) (s : timer1) :
  a = PORTB_ADDR \/ a = DDRB_ADDR ->
  hw_load (timer1_dev c) a s = (default 0 (io s !! a), clock c s).
Proof.
  intros Ha. cbn [hw_load timer1_dev].
  destruct (clock_frame c s) as (Hio & _ & _).
  destruct Ha as [-> | ->]; cbn; now rewrite Hio.
Qed.

Lemma port_store_wf (a v : Z) (s : timer1) :
  a = PORTB_ADDR \/ a = DDRB_ADDR ->
  wf s -> wf (hw_store (timer1_dev c) a v s).
Proof.
  intros Ha Hwf. cbn [hw_store timer1_dev]. pose proof (clock_wf c s Hwf).
  now destruct Ha as [-> | ->].
Qed.

Lemma port_store_io (a v : Z) (s : timer1) :
  a = PORTB_ADDR \/ a = DDRB_ADDR ->
  io (hw_store (timer1_dev c) a v s) = <[a := v]> (io s).
Proof.
  intros Ha. cbn [hw_store timer1_dev].
  destruct (clock_frame c s) as (Hio & _ & _).
  destruct Ha as [-> | ->]; cbn; now rewrite Hio.
Qed.

(** A pass through the loop body returns once the fuel covers a counter
    period, from any state. *)
Lemma toggle_cycle_returns (fuel : nat) (s : timer1) :
  wf s -> (poll_bound <= fuel)%nat ->
  exists s' tr,
    DelayTimer.toggle_cycle (D:=timer1_dev c) fuel s = Done tt s' tr /\
    wf s' /\ running s' /\ overflow_flag s' = false.
Proof.
  intros Hwf Hfuel. rewrite toggle_cycle_run, port_load by auto. cbn zeta.
  edestruct (delay_returns c c_pos fuel) as (s2 & t2 & -> & _ & Hw2 & _ & _);
    [|exact Hfuel|].
  { apply port_store_wf; [auto|]. now apply clock_wf. }
  rewrite port_load by auto. cbn zeta.
  edestruct (delay_returns c c_pos fuel) as (s4 & t4 & -> & Hr4 & Hw4 & Hc4 & _);
    [|exact Hfuel|].
  { apply port_store_wf; [auto|]. now apply clock_wf. }
  eexists _, _. split; [reflexivity|]. auto.
Qed.

Lemma cycles_returns (fuel n : nat) (s : timer1) :
  wf s -> (poll_bound <= fuel)%nat ->
  exists s' tr,
    cycles (D:=timer1_dev c) fuel n s = Done tt s' tr /\ wf s' /\
    length (stores_to PORTB_ADDR tr) = (2 * n)%nat.
Proof.
  intros Hwf Hfuel. revert s Hwf. induction n as [|n IH]; intros s Hwf.
  - exists s, []. split; [reflexivity|]. split; [exact Hwf|reflexivity].
  - rewrite cycles_S.
    destruct (toggle_cycle_returns fuel s Hwf Hfuel) as (s1 & t1 & Hrun & Hw1 & _).
    destruct (toggle_cycle_trace (D:=timer1_dev c) fuel s) as (_ & hi & _ & Hst).
    cbn zeta in Hst. rewrite Hrun in *. cbn [trace_of returns] in Hst.
    destruct Hst as [[_ ?]|(lo & _ & Hst)]; [discriminate|].
    destruct (IH s1 Hw1) as (s2 & t2 & -> & Hw2 & Hlen).
    eexists _, _. split; [reflexivity|]. split; [exact Hw2|].
    rewrite stores_to_app, Hst, length_app, Hlen. cbn [length]. lia.
Qed.

(** The port is toggled as often as one likes. *)
Lemma main_toggles (n : nat) (s : timer1) :
  wf s ->
  exists fuel,
    (2 * n <= length (stores_to PORTB_ADDR
                (trace_of (DelayTimer.main (D:=timer1_dev c) fuel s))))%nat.
Proof.
  intros Hwf. exists (n + poll_bound)%nat.
  rewrite main_run, port_load by auto. cbn zeta.
  edestruct (cycles_returns (n + poll_bound) (n + poll_bound))
    as (s2 & t2 & -> & _ & Hlen); [|lia|].
  { apply port_store_wf; [auto|]. now apply clock_wf. }
  cbn [trace_of]. rewrite stores_to_app, length_app, Hlen. lia.
Qed.
End BlinkOnTimer.

(** ** Calls that cannot end *)

Section Blocked.
Context {D : device}.
Variable inv : hw D -> Prop.
Hypothesis inv_store : forall a v s, inv s -> inv (hw_store D a v s).
Hypothesis inv_load : forall a s, inv s -> inv (snd (hw_load D a s)).
Hypothesis inv_flag :
  forall s, inv s -> Z.testbit (uint8_t (fst (hw_load D TIFR1_ADDR s))) 0 = false.

Lemma wait_overflow_blocks (fuel : nat) (s : hw D) :
  inv s ->
  exists s' tr,
    DelayTimer.wait_overflow fuel s = Spin s' tr /\ inv s' /\ length tr = fuel.
Proof.
  revert s. induction fuel as [|fuel IH]; intros s Hs.
  - exists s, []. repeat split. exact Hs.
  - rewrite wait_overflow_S.
    pose proof (inv_flag s Hs) as Hf. pose proof (inv_load TIFR1_ADDR s Hs) as Hl.
    destruct (hw_load D TIFR1_ADDR s) as [v s1]. cbn [fst snd] in *.
    rewrite Hf. destruct (IH s1 Hl) as (s' & tr & -> & Hs' & Hlen).
    eexists _, _. split; [reflexivity|]. split; [exact Hs'|].
    cbn [length]. now rewrite Hlen.
Qed.

Lemma delay_1000ms_blocks (fuel : nat) (s : hw D) :
  inv s ->
  exists s' tr,
    DelayTimer.delay_1000ms fuel s = Spin s' tr /\ length tr = (4 + fuel)%nat.
Proof.
  intros Hs. rewrite delay_1000ms_unfold. cbn zeta.
  edestruct (wait_overflow_blocks fuel) as (s' & tr & -> & _ & Hlen).
  { repeat apply inv_store. exact Hs. }
  eexists _, _. split; [reflexivity|].
  rewrite length_app, Hlen. reflexivity.
Qed.
End Blocked.

(** The timer with its clock stopped never raises the flag. *)
Lemma stalled_store (a v : Z) (s : timer1) :
  overflow_flag s = false ->
  overflow_flag (hw_store (timer1_dev 0) a v s) = false.
Proof.
  intros Hs. cbn [hw_store timer1_dev]. change (clock 0 s) with s.
  unfold timer1_store.
  repeat (destruct (a =? _); [exact Hs|]).
  destruct (a =? TIFR1_ADDR); [|exact Hs].
  unfold overflow_flag in *. cbn [tifr1].
  now rewrite Z.land_spec, Hs.
Qed.

(** ** Full waits *)

Section Timing.
Variable c : nat.
Hypothesis c_pos : (1 <= c)%nat.
Hypothesis c_short : (c <= 256)%nat.

Lemma delay_rearms_any_fuel (s : timer1) :
  wf s ->
  exists s1 tr,
    (forall fuel, (poll_bound <= fuel)%nat ->
       DelayTimer.delay_1000ms (D:=timer1_dev c) fuel s = Done tt s1 tr) /\
    running s1 /\ wf s1 /\ calm 3040 s1 /\ io s1 = io s.
Proof.
  intros Hwf.
  destruct (delay_rearms c c_pos c_short poll_bound s Hwf (le_n _))
    as (s1 & tr & Hrun & Hrest).
  exists s1, tr. split; [|exact Hrest].
  intros fuel Hfuel. now apply (delay_1000ms_more_fuel (D:=timer1_dev c) poll_bound).
Qed.

Lemma delay_from_quiet_any_fuel (s : timer1) :
  wf s -> quiet s ->
  exists (k : nat) s1 tr,
    (3 + Z.of_nat k) * Z.of_nat c < cycles_to_overflow c s
      <= (4 + Z.of_nat k) * Z.of_nat c /\
    full_wait c k /\
    (forall fuel, (k <= fuel)%nat ->
       DelayTimer.delay_1000ms (D:=timer1_dev c) fuel s = Done tt s1 tr) /\
    length tr = (6 + k)%nat /\
    running s1 /\ wf s1 /\ calm 3040 s1 /\ io s1 = io s.
Proof.
  intros Hwf Hq.
  destruct (delay_from_quiet c c_pos c_short s Hwf Hq) as (k & Hk & _ & Hrun).
  destruct (Hrun k (le_n _)) as (s1 & tr & Hd & Hrest).
  exists k, s1, tr. split; [exact Hk|]. split.
  { pose proof (cycles_to_overflow_bounds c c_pos c_short s Hwf) as Hb.
    unfold full_wait. rewrite !Z.mul_add_distr_r in Hk. lia. }
  split; [|exact Hrest].
  intros fuel Hfuel. now apply (delay_1000ms_more_fuel (D:=timer1_dev c) k).
Qed.

(** A read-modify-write of a port register takes two accesses, in
    which the counter moves by at most two. *)
Lemma port_rmw_calm (n a v : Z) (s : timer1) :
  a = PORTB_ADDR \/ a = DDRB_ADDR ->
  wf s -> calm n s -> n <= 65000 ->
  calm (n + 2) (hw_store (timer1_dev c) a v (clock c s)).
Proof.
  intros Ha Hwf (Hclr & Hcnt & Hmode) Hn.
  assert (Hx : calm (n + 2) (clock (c + c) s)).
  { destruct Hmode as [Hrun|Hst].
    - assert (Hf : fine s <= n * 256 + 255).
      { unfold fine. pose proof (Z.mod_pos_bound (presc s) 256 eq_refl). lia. }
      destruct (clock_before_wrap (c + c) s Hrun Hwf) as [Hf2 Ht2];
        [change (2 ^ 24) with 16777216; lia|].
      apply calm_of_fine.
      + now apply clock_running.
      + now apply clock_wf.
      + unfold overflow_flag in *. now rewrite Ht2.
      + lia.
    - destruct (clock_stopped (c + c) s Hst) as (Hh & Hl & Ht).
      split; [unfold overflow_flag in *; now rewrite Ht|].
      split; [unfold tcnt1 in *; rewrite Hh, Hl; lia|].
      right. unfold stopped, clock_select in *.
      now destruct (clock_frame (c + c) s) as (_ & _ & ->). }
  cbn [hw_store timer1_dev]. rewrite <- clock_add.
  destruct Ha as [-> | ->]; exact Hx.
Qed.

(** A pass through the loop body from a calm state: the port goes high,
    a full wait follows, the port goes low, another full wait follows;
    nothing but the port changes among the plain registers. *)
Lemma toggle_cycle_from_calm (s : timer1) :
  wf s -> calm 3040 s ->
  exists (k1 k2 : nat) s' d1 d2,
    let p := uint8_t (default 0 (io s !! PORTB_ADDR)) in
    let hi := uint8_t (Z.lor p (Z.shiftl 1 5)) in
    let lo := uint8_t (Z.land hi (Z.lnot (Z.shiftl 1 5))) in
    full_wait c k1 /\ full_wait c k2 /\
    (forall fuel, (k1 <= fuel)%nat -> (k2 <= fuel)%nat ->
       DelayTimer.toggle_cycle (D:=timer1_dev c) fuel s =
       Done tt s' ([Load PORTB_ADDR p; Store PORTB_ADDR hi] ++ d1 ++
                   [Load PORTB_ADDR hi; Store PORTB_ADDR lo] ++ d2)) /\
    length d1 = (6 + k1)%nat /\ length d2 = (6 + k2)%nat /\
    touches_only timer_regs d1 = true /\ touches_only timer_regs d2 = true /\
    io s' = <[PORTB_ADDR := lo]> (<[PORTB_ADDR := hi]> (io s)) /\
    wf s' /\ calm 3040 s'.
Proof.
  intros Hwf Hcalm. cbn zeta.
  set (p := uint8_t (default 0 (io s !! PORTB_ADDR))).
  set (hi := uint8_t (Z.lor p (Z.shiftl 1 5))).
  set (lo := uint8_t (Z.land hi (Z.lnot (Z.shiftl 1 5)))).
  set (a1 := hw_store (timer1_dev c) PORTB_ADDR hi (clock c s)).
  assert (Hwa1 : wf a1) by (apply port_store_wf; [auto|now apply clock_wf]).
  assert (Hqa1 : quiet a1).
  { apply (calm_weaken 3042); [lia|].
    apply (port_rmw_calm 3040); auto. lia. }
  destruct (delay_from_quiet_any_fuel a1 Hwa1 Hqa1)
    as (k1 & s2 & d1 & _ & Hk1 & Hd1 & Hl1 & _ & Hw2 & Hc2 & Hio2).
  set (a2 := hw_store (timer1_dev c) PORTB_ADDR lo (clock c s2)).
  assert (Hwa2 : wf a2) by (apply port_store_wf; [auto|now apply clock_wf]).
  assert (Hqa2 : quiet a2).
  { apply (calm_weaken 3042); [lia|].
    apply (port_rmw_calm 3040); auto. lia. }
  destruct (delay_from_quiet_any_fuel a2 Hwa2 Hqa2)
    as (k2 & s4 & d2 & _ & Hk2 & Hd2 & Hl2 & _ & Hw4 & Hc4 & Hio4).
  assert (Hio_a1 : io a1 = <[PORTB_ADDR := hi]> (io s)).
  { unfold a1. rewrite port_store_io by auto.
    now destruct (clock_frame c s) as (-> & _ & _). }
  assert (Hp2 : uint8_t (default 0 (io s2 !! PORTB_ADDR)) = hi).
  { rewrite Hio2, Hio_a1, lookup_insert_eq. cbn [default].
    apply uint8_t_idem. }
  exists k1, k2, s4, d1, d2.
  split; [exact Hk1|]. split; [exact Hk2|]. split.
  { intros fuel Hf1 Hf2. rewrite toggle_cycle_run, port_load by auto.
    cbn zeta. fold p. fold hi. fold a1. rewrite (Hd1 fuel Hf1).
    rewrite port_load by auto. cbn zeta. rewrite Hp2. fold lo. fold a2.
    now rewrite (Hd2 fuel Hf2). }
  split; [exact Hl1|]. split; [exact Hl2|].
  split.
  { pose proof (delay_1000ms_touches (D:=timer1_dev c) k1 a1) as H.
    now rewrite (Hd1 k1 (le_n _)) in H. }
  split.
  { pose proof (delay_1000ms_touches (D:=timer1_dev c) k2 a2) as H.
    now rewrite (Hd2 k2 (le_n _)) in H. }
  split; [|auto].
  rewrite Hio4. unfold a2. rewrite port_store_io by auto.
  destruct (clock_frame c s2) as (-> & _ & _). now rewrite Hio2, Hio_a1.
Qed.
End Timing.

(** * Main theorems *)

(** ** The preload and the length of the wait *)

(** Two byte stores into the running counter, the low byte first: the
    counter has moved on by one access since the low byte was stored, and
    the prescaler keeps the phase it had then. *)
Lemma preload_fine (c : nat) (h l : Z) (s2 : timer1) :
  (c <= 256)%nat -> 0 <= h < 256 -> 0 <= l < 255 -> running s2 -> wf s2 ->
  let s4 := hw_store (timer1_dev c) TCNT1H_ADDR h
              (hw_store (timer1_dev c) TCNT1L_ADDR l s2) in
  running s4 /\ wf s4 /\
  fine s4 = (h * 256 + l) * 256 + presc (clock c s2) mod 256 + Z.of_nat c.
Proof.
  intros Hc Hh Hl Hrun Hwf. cbn [hw_store timer1_dev].
  pose proof (clock_running c s2 Hrun) as Hr3.
  pose proof (clock_wf c s2 Hwf) as [Hh3 Hl3].
  set (s3 := timer1_store TCNT1L_ADDR l (clock c s2)).
  assert (Hr3' : running s3) by exact Hr3.
  assert (Hw3' : wf s3) by (split; [exact Hh3|cbn; lia]).
  assert (Hf3 : fine s3 = (tcnt1h (clock c s2) * 256 + l) * 256
                          + presc (clock c s2) mod 256) by reflexivity.
  pose proof (Z.mod_pos_bound (presc (clock c s2)) 256 eq_refl) as Hp3.
  destruct (clock_before_wrap c s3 Hr3' Hw3') as [Hf4 Ht4];
    [change (2 ^ 24) with 16777216; lia|].
  pose proof (clock_running c s3 Hr3') as Hr4.
  pose proof (clock_wf c s3 Hw3') as [Hh4 Hl4].
  pose proof (Z.mod_pos_bound (presc (clock c s3)) 256 eq_refl) as Hp4.
  assert (Hf4' : fine (clock c s3) =
                 (tcnt1h (clock c s3) * 256 + tcnt1l (clock c s3)) * 256
                 + presc (clock c s3) mod 256) by reflexivity.
  assert (Hfine : fine (timer1_store TCNT1H_ADDR h (clock c s3)) =
                  (h * 256 + tcnt1l (clock c s3)) * 256
                  + presc (clock c s3) mod 256) by reflexivity.
  split; [exact Hr4|]. split; [split; [cbn; lia|exact Hl4]|].
  rewrite Hfine. lia.
Qed.

(** C1, as stated, fails: the two bytes a call stores to the counter form
    [0x0BDB], not [0x10000 - ticks = 0x0BDC]. *)
Lemma delay_1000ms_preload_differs :
  preload_written
    (trace_of (DelayTimer.delay_1000ms (D:=timer1_dev 2) 1 timer1_reset))
    = Some 0x0BDB /\
  preload_of (ticks_of 1000 256) = 0x0BDC /\
  preload_written
    (trace_of (DelayTimer.delay_1000ms (D:=timer1_dev 2) 1 timer1_reset))
    <> Some (preload_of (ticks_of 1000 256)).
Proof.
  unfold preload_written.
  rewrite !delay_1000ms_stores_to by discriminate.
  split; [reflexivity|]. split; [reflexivity|]. discriminate.
Qed.

(** C1, amended. The 16-bit value that every call of [delay_1000ms]
    stores to the counter, on any device, is [0x0BDB = 0xFFFF - ticks] for
    the 62500 ticks of one second at 16 MHz / 256, one less than
    [0x10000 - ticks]. On the timer, with accesses of 1 to 256 cycles and
    from any state, the counter wraps more than one second ([F_CPU]
    cycles) and at most one second and one tick (256 cycles) after the
    low byte was stored: the flag register is left alone until then and
    the overflow flag is up from then. From a quiet state the whole call
    lasts more than one second, and less than one second, one tick and
    six accesses. Stored the same way, the value [0x0BDC = 0x10000 - ticks]
    would make the counter wrap within the second, up to one tick
    early. *)
Theorem delay_1000ms_preload :
  (forall (D : device) (fuel : nat) (s : hw D),
     preload_written (trace_of (DelayTimer.delay_1000ms fuel s)) = Some 0x0BDB) /\
  ticks_of 1000 256 = 62500 /\
  0x0BDB = 0xFFFF - ticks_of 1000 256 /\
  0x0BDB = preload_of (ticks_of 1000 256) - 1 /\
  (forall (c : nat) (s : timer1),
     (1 <= c <= 256)%nat -> wf s ->
     let x := setup_state c s in
     let n := 2 ^ 24 - fine x in
     F_CPU < n + Z.of_nat c <= F_CPU + 256 /\
     (forall m : nat, Z.of_nat m < n -> tifr1 (clock m x) = tifr1 x) /\
     overflow_flag (clock (Z.to_nat n) x) = true) /\
  (forall (c : nat) (s : timer1),
     (1 <= c <= 256)%nat -> wf s -> quiet s ->
     exists (k : nat) s1 tr,
       (forall fuel, (k <= fuel)%nat ->
          DelayTimer.delay_1000ms (D:=timer1_dev c) fuel s = Done tt s1 tr) /\
       length tr = (6 + k)%nat /\
       F_CPU + 5 * Z.of_nat c < Z.of_nat (length tr) * Z.of_nat c
         < F_CPU + 256 + 6 * Z.of_nat c) /\
  (forall (c : nat) (s2 : timer1),
     (1 <= c <= 256)%nat -> running s2 -> wf s2 ->
     let y := hw_store (timer1_dev c) TCNT1H_ADDR 0x0B
                (hw_store (timer1_dev c) TCNT1L_ADDR 0xDC s2) in
     F_CPU - 256 < 2 ^ 24 - fine y + Z.of_nat c <= F_CPU).
Proof.
  split; [|split; [reflexivity|split; [reflexivity|split; [reflexivity|]]]].
  { intros D fuel s. unfold preload_written.
    now rewrite !delay_1000ms_stores_to by discriminate. }
  split; [|split].
  - intros c s [Hc1 Hc2] Hwf. cbn zeta.
    destruct (setup_control c s Hwf) as (Hr2 & Hw2 & _). cbn zeta in Hr2, Hw2.
    destruct (preload_fine c 0x0B 0xDB _ Hc2 ltac:(lia) ltac:(lia) Hr2 Hw2)
      as (Hr4 & Hw4 & Hf4).
    cbn zeta in Hr4, Hw4, Hf4. fold (setup_state c s) in Hr4, Hw4, Hf4.
    pose proof (Z.mod_pos_bound
      (presc (clock c (hw_store (timer1_dev c) TCCR1B_ADDR 4
                         (hw_store (timer1_dev c) TCCR1A_ADDR 0 s)))) 256 eq_refl) as Hp.
    unfold F_CPU.
    split; [rewrite Hf4; change (2 ^ 24) with 16777216; lia|].
    split.
    + intros m Hm.
      now destruct (clock_before_wrap m (setup_state c s) Hr4 Hw4 ltac:(lia)).
    + apply clock_after_wrap; [exact Hr4|exact Hw4|].
      rewrite Z2Nat.id; [lia|].
      pose proof (fine_range _ Hw4). lia.
  - intros c s [Hc1 Hc2] Hwf Hq.
    destruct (delay_from_quiet_any_fuel c Hc1 Hc2 s Hwf Hq)
      as (k & s1 & tr & Hk & _ & Hrun & Hl & _).
    pose proof (cycles_to_overflow_bounds c Hc1 Hc2 s Hwf) as Hb.
    exists k, s1, tr. split; [exact Hrun|]. split; [exact Hl|].
    rewrite Hl, Nat2Z.inj_add, Z.mul_add_distr_r.
    rewrite !Z.mul_add_distr_r in Hk. unfold F_CPU.
    revert Hk Hb. generalize (cycles_to_overflow c s).
    generalize (Z.of_nat k * Z.of_nat c). intros. lia.
  - intros c s2 [Hc1 Hc2] Hr2 Hw2. cbn zeta.
    destruct (preload_fine c 0x0B 0xDC s2 Hc2 ltac:(lia) ltac:(lia) Hr2 Hw2)
      as (_ & _ & Hf4).
    cbn zeta in Hf4. rewrite Hf4.
    pose proof (Z.mod_pos_bound (presc (clock c s2)) 256 eq_refl) as Hp.
    unfold F_CPU. change (2 ^ 24) with 16777216. lia.
Qed.

Lemma delay_1000ms_preload_witness :
  (F_CPU < 2 ^ 24 - fine (setup_state 2 timer1_reset) + 2 <= F_CPU + 256) /\
  (F_CPU - 256 <
     2 ^ 24 - fine (hw_store (timer1_dev 2) TCNT1H_ADDR 0x0B
                      (hw_store (timer1_dev 2) TCNT1L_ADDR 0xDC two_flags_pending))
     + 2 <= F_CPU) /\
  exists (k : nat) s1 tr,
    (forall fuel, (k <= fuel)%nat ->
       DelayTimer.delay_1000ms (D:=timer1_dev 2) fuel timer1_reset = Done tt s1 tr) /\
    length tr = (6 + k)%nat.
Proof.
  destruct delay_1000ms_preload as (_ & _ & _ & _ & Hwrap & Hcall & Hspec).
  split; [|split].
  - destruct (Hwrap 2%nat timer1_reset) as [H _];
      [lia|unfold wf; cbn; lia|exact H].
  - apply (Hspec 2%nat two_flags_pending);
      [lia|split; reflexivity|unfold wf; cbn; lia].
  - destruct (Hcall 2%nat timer1_reset) as (k & s1 & tr & Hrun & Hl & _).
    + lia.
    + unfold wf. cbn. lia.
    + split; [reflexivity|]. split; [unfold tcnt1, timer1_reset; cbn; lia|].
      right. reflexivity.
    + exists k, s1, tr. split; [exact Hrun|exact Hl].
Defined.

(** C2. Every call of [delay_1000ms], on any device: its trace is the
    four set-up stores (both control registers, then the preload), then
    polls of the flag register, one load per turn of the loop, every
    poll but the last seeing bit 0 clear and the last seeing it set,
    then the read-modify-write that writes bit 0 of the flag register;
    a call that runs out of fuel has done the set-up and only polls that
    saw bit 0 clear. On the timer the two control stores select normal
    mode and the divisor 256. *)
Theorem delay_1000ms_steps (D : device) (fuel : nat) (s : hw D) :
  match DelayTimer.delay_1000ms fuel s with
  | Done _ _ tr =>
      exists misses hit v,
        tr = delay_setup ++ misses ++ [hit] ++
             [Load TIFR1_ADDR v; Store TIFR1_ADDR (uint8_t (Z.lor v 1))] /\
        forallb poll_miss misses = true /\ poll_hit hit = true /\
        (length misses < fuel)%nat /\
        Z.testbit (uint8_t (Z.lor v 1)) 0 = true
  | Spin _ tr =>
      exists misses,
        tr = delay_setup ++ misses /\
        forallb poll_miss misses = true /\ length misses = fuel
  end /\
  delay_setup = [Store 0x80 0x00; Store 0x81 0x04; Store 0x84 0xDB; Store 0x85 0x0B] /\
  forall (c : nat) (t : timer1),
    let t2 := hw_store (timer1_dev c) TCCR1B_ADDR 0x04
                (hw_store (timer1_dev c) TCCR1A_ADDR 0x00 t) in
    normal_mode t2 = true /\ prescale_div (clock_select t2) = Some 256.
Proof.
  split; [|split; [reflexivity|]].
  - rewrite delay_1000ms_unfold. cbn zeta.
    pose proof (wait_overflow_trace fuel
      (hw_store D TCNT1H_ADDR 0x0B (hw_store D TCNT1L_ADDR 0xDB
         (hw_store D TCCR1B_ADDR 0x04 (hw_store D TCCR1A_ADDR 0x00 s))))) as H.
    destruct (DelayTimer.wait_overflow fuel _) as [[] s5 t|s5 t].
    + destruct H as (misses & hit & -> & Hm & Hh & Hl).
      destruct (hw_load D TIFR1_ADDR s5) as [v s6].
      exists misses, hit, (uint8_t v). rewrite <- !app_assoc.
      repeat split; auto. rewrite uint8_t_testbit. apply testbit_lor_1.
    + destruct H as [Hm Hl]. exists t. auto.
  - intros c t. cbn zeta. cbn [hw_store timer1_dev].
    unfold normal_mode, clock_select.
    change (tccr1b (timer1_store TCCR1B_ADDR 4 ?x)) with 4.
    change (tccr1a (timer1_store TCCR1B_ADDR 4 ?x)) with (tccr1a x).
    destruct (clock_frame c (timer1_store TCCR1A_ADDR 0 (clock c t)))
      as (_ & -> & _).
    split; reflexivity.
Qed.

(** C3. What the code does: the clearing write stores the byte just read
    from the flag register with bit 0 set. With the flag in bit 1 pending
    besides the overflow flag, the call reads [0x03], stores [0x03], and
    the write-one-to-clear register ends at zero: the other flag is
    cleared along with the overflow flag. *)
Theorem delay_1000ms_clears_other_flags :
  exists s',
    DelayTimer.delay_1000ms (D:=timer1_dev 2) 1 two_flags_pending =
      Done tt s' (delay_setup ++
                  [Load TIFR1_ADDR 0x03; Load TIFR1_ADDR 0x03; Store TIFR1_ADDR 0x03]) /\
    Z.testbit (tifr1 two_flags_pending) 1 = true /\
    tifr1 s' = 0.
Proof. eexists. split; [vm_compute; reflexivity|]. split; reflexivity. Qed.

Lemma timer1_reset_wf : wf timer1_reset.
Proof. unfold wf. cbn. lia. Qed.

Lemma stalled_flag (s : timer1) :
  overflow_flag s = false ->
  Z.testbit (uint8_t (fst (hw_load (timer1_dev 0) TIFR1_ADDR s))) 0 = false.
Proof.
  intros Hs. change (Z.testbit (uint8_t (tifr1 s)) 0 = false).
  rewrite uint8_t_testbit. exact Hs.
Qed.

(** C7. On the timer, whose counter runs from the preload and raises the
    flag on the wrap, every call of [delay_1000ms] returns: some fuel
    lets it return and every larger fuel gives the same outcome. On a
    device where bit 0 of the flag register never reads set, the call
    never returns, however much fuel it gets: it has done the four set-up
    stores and one poll per unit of fuel, and is still polling. The timer
    with its clock stopped is such a device. There is no third outcome. *)
Theorem delay_1000ms_returns_or_blocks :
  (forall (c : nat) (s : timer1),
     (1 <= c)%nat -> wf s ->
     exists fuel s' tr,
       forall fuel', (fuel <= fuel')%nat ->
         DelayTimer.delay_1000ms (D:=timer1_dev c) fuel' s = Done tt s' tr) /\
  (forall (D : device) (inv : hw D -> Prop),
     (forall a v s, inv s -> inv (hw_store D a v s)) ->
     (forall a s, inv s -> inv (snd (hw_load D a s))) ->
     (forall s, inv s ->
        Z.testbit (uint8_t (fst (hw_load D TIFR1_ADDR s))) 0 = false) ->
     forall fuel s, inv s ->
       exists s' tr,
         DelayTimer.delay_1000ms fuel s = Spin s' tr /\
         length tr = (4 + fuel)%nat) /\
  (forall (fuel : nat) (s : timer1),
     overflow_flag s = false ->
     returns (DelayTimer.delay_1000ms (D:=timer1_dev 0) fuel s) = false).
Proof.
  split; [|split].
  - intros c s Hc Hwf.
    destruct (delay_returns c Hc poll_bound s Hwf (le_n _)) as (s1 & tr & Hd & _).
    exists poll_bound, s1, tr. intros fuel' Hle.
    now apply (delay_1000ms_more_fuel (D:=timer1_dev c) poll_bound).
  - intros D inv Hst Hld Hfl fuel s Hs.
    now apply (delay_1000ms_blocks inv Hst Hld Hfl).
  - intros fuel s Hs.
    destruct (delay_1000ms_blocks (D:=timer1_dev 0)
                (fun x => overflow_flag x = false)) with (fuel := fuel) (s := s)
      as (s' & tr & -> & _); auto.
    + intros a v x Hx. now apply stalled_store.
    + intros x Hx. now apply stalled_flag.
Qed.

Lemma delay_1000ms_returns_or_blocks_witness :
  (exists fuel s' tr,
     DelayTimer.delay_1000ms (D:=timer1_dev 2) fuel timer1_reset = Done tt s' tr) /\
  (exists s' tr,
     DelayTimer.delay_1000ms (D:=timer1_dev 0) 5 timer1_reset = Spin s' tr /\
     length tr = 9%nat).
Proof.
  destruct delay_1000ms_returns_or_blocks as (Hret & Hblk & _). split.
  - destruct (Hret 2%nat timer1_reset) as (fuel & s' & tr & H);
      [lia|unfold wf; cbn; lia|].
    exists fuel, s', tr. apply H. lia.
  - apply (Hblk (timer1_dev 0) (fun x => overflow_flag x = false)).
    + intros a v x Hx. now apply stalled_store.
    + intros a x Hx. exact Hx.
    + intros x Hx. now apply stalled_flag.
    + reflexivity.
Defined.

(** C5. Two calls of [delay_1000ms] in succession on the timer, from any
    state: both return; the first returns with the overflow flag clear
    and the timer calm; each opens with the same four set-up stores and
    leaves the same control configuration; the second one is a full
    wait, its last poll being the first one at or after the wrap that
    its preload arms, which comes between 62500 and 62501 counter periods
    after the start of the call (plus three accesses). When the first
    call starts from a quiet state it is a full wait too, the two wraps
    come at times after the start of their calls that differ by less
    than one counter period, and the two calls differ in length by less
    than one counter period plus one access. *)
Theorem delay_1000ms_twice (c : nat) (s0 : timer1) :
  (1 <= c <= 256)%nat -> wf s0 ->
  exists s1 tr1 s2 tr2 (k2 : nat),
    (forall fuel, (poll_bound <= fuel)%nat ->
       DelayTimer.delay_1000ms (D:=timer1_dev c) fuel s0 = Done tt s1 tr1 /\
       DelayTimer.delay_1000ms (D:=timer1_dev c) fuel s1 = Done tt s2 tr2) /\
    (forall fuel s tr,
       DelayTimer.delay_1000ms (D:=timer1_dev c) fuel s0 = Done tt s tr ->
       s = s1 /\ tr = tr1) /\
    (forall fuel s tr,
       DelayTimer.delay_1000ms (D:=timer1_dev c) fuel s1 = Done tt s tr ->
       s = s2 /\ tr = tr2) /\
    overflow_flag s1 = false /\ overflow_flag s2 = false /\
    quiet s1 /\
    firstn 4 tr1 = delay_setup /\ firstn 4 tr2 = delay_setup /\
    running s1 /\ running s2 /\
    length tr2 = (6 + k2)%nat /\ full_wait c k2 /\
    (3 + Z.of_nat k2) * Z.of_nat c < cycles_to_overflow c s1
      <= (4 + Z.of_nat k2) * Z.of_nat c /\
    62500 * 256 + 3 * Z.of_nat c < cycles_to_overflow c s1
      <= 62501 * 256 + 3 * Z.of_nat c /\
    (quiet s0 ->
     exists k1 : nat,
       length tr1 = (6 + k1)%nat /\ full_wait c k1 /\
       (3 + Z.of_nat k1) * Z.of_nat c < cycles_to_overflow c s0
         <= (4 + Z.of_nat k1) * Z.of_nat c /\
       Z.abs (cycles_to_overflow c s1 - cycles_to_overflow c s0) < 256 /\
       Z.abs (Z.of_nat c * Z.of_nat (length tr2) -
              Z.of_nat c * Z.of_nat (length tr1)) < 256 + Z.of_nat c).
Proof.
  intros [Hc1 Hc2] Hwf0.
  destruct (delay_rearms_any_fuel c Hc1 Hc2 s0 Hwf0)
    as (s1 & tr1 & Hd1 & Hr1 & Hw1 & Hcalm1 & _).
  assert (Hq1 : quiet s1) by (apply (calm_weaken 3040); [lia|exact Hcalm1]).
  destruct (delay_from_quiet_any_fuel c Hc1 Hc2 s1 Hw1 Hq1)
    as (k2 & s2 & tr2 & Hk2 & Hfw2 & Hd2 & Hl2 & Hr2 & Hw2 & Hcalm2 & _).
  assert (Hkb : (k2 <= poll_bound)%nat).
  { destruct (delay_from_quiet c Hc1 Hc2 s1 Hw1 Hq1) as (k & Hk & Hkb & _).
    enough (k2 = k) by lia.
    apply Nat2Z.inj. apply Z.le_antisymm.
    - apply Z.lt_succ_r. apply (Z.mul_lt_mono_pos_r (Z.of_nat c)); [lia|].
      rewrite Z.mul_add_distr_r in Hk, Hk2. rewrite Z.mul_succ_l.
      rewrite (Z.mul_add_distr_r 4) in Hk. lia.
    - apply Z.lt_succ_r. apply (Z.mul_lt_mono_pos_r (Z.of_nat c)); [lia|].
      rewrite Z.mul_add_distr_r in Hk, Hk2. rewrite Z.mul_succ_l.
      rewrite (Z.mul_add_distr_r 4) in Hk2. lia. }
  pose proof (cycles_to_overflow_bounds c Hc1 Hc2 s1 Hw1) as Hb1.
  exists s1, tr1, s2, tr2, k2.
  split; [intros fuel Hf; split; [now apply Hd1|apply Hd2; lia]|].
  split; [intros fuel s tr H;
          destruct (delay_1000ms_unique (D:=timer1_dev c) fuel poll_bound s0 s s1 tr tr1);
          [exact H|apply Hd1; lia|subst; auto]|].
  split; [intros fuel s tr H;
          destruct (delay_1000ms_unique (D:=timer1_dev c) fuel k2 s1 s s2 tr tr2);
          [exact H|apply Hd2; lia|subst; auto]|].
  split; [apply Hcalm1|]. split; [apply Hcalm2|]. split; [exact Hq1|].
  assert (Hpre : forall fuel s s' tr,
             DelayTimer.delay_1000ms (D:=timer1_dev c) fuel s = Done tt s' tr ->
             firstn 4 tr = delay_setup).
  { intros fuel s s' tr H.
    destruct (delay_1000ms_trace_split (D:=timer1_dev c) fuel s) as (rest & Ht & _).
    rewrite H in Ht. cbn [trace_of] in Ht. now rewrite Ht. }
  split; [apply (Hpre poll_bound s0 s1), Hd1; lia|].
  split; [apply (Hpre k2 s1 s2), Hd2; lia|].
  split; [exact Hr1|]. split; [exact Hr2|]. split; [exact Hl2|].
  split; [exact Hfw2|]. split; [exact Hk2|]. split; [exact Hb1|].
  intros Hq0.
  destruct (delay_from_quiet_any_fuel c Hc1 Hc2 s0 Hwf0 Hq0)
    as (k1 & s1' & tr1' & Hk1 & Hfw1 & Hd1' & Hl1 & _).
  destruct (delay_1000ms_unique (D:=timer1_dev c) k1 poll_bound s0 s1' s1 tr1' tr1) as [-> ->];
    [apply Hd1'; lia|apply Hd1; lia|].
  pose proof (cycles_to_overflow_bounds c Hc1 Hc2 s0 Hwf0) as Hb0.
  exists k1. split; [exact Hl1|]. split; [exact Hfw1|]. split; [exact Hk1|].
  split; [lia|].
  rewrite Hl1, Hl2. unfold full_wait in *.
  rewrite !Nat2Z.inj_add, !Z.mul_add_distr_l.
  rewrite (Z.mul_comm (Z.of_nat c) (Z.of_nat k1)),
    (Z.mul_comm (Z.of_nat c) (Z.of_nat k2)).
  revert Hfw1 Hfw2. generalize (Z.of_nat k1 * Z.of_nat c).
  generalize (Z.of_nat k2 * Z.of_nat c). intros. lia.
Qed.

Lemma delay_1000ms_twice_witness :
  exists s1 tr1 s2 tr2,
    (forall fuel, (poll_bound <= fuel)%nat ->
       DelayTimer.delay_1000ms (D:=timer1_dev 2) fuel timer1_reset = Done tt s1 tr1 /\
       DelayTimer.delay_1000ms (D:=timer1_dev 2) fuel s1 = Done tt s2 tr2) /\
    overflow_flag s1 = false.
Proof.
  destruct (delay_1000ms_twice 2 timer1_reset) as (s1 & tr1 & s2 & tr2 & k2 & H);
    [lia|unfold wf; cbn; lia|].
  exists s1, tr1, s2, tr2. split; apply H.
Defined.

(** C6, as stated, fails: a pass through the loop body from the reset
    state returns with control register B of the timer changed from 0 to
    4, a register that is neither the data-direction register nor the
    output port register. *)
Lemma toggle_cycle_changes_timer_registers :
  exists fuel s' tr,
    DelayTimer.toggle_cycle (D:=timer1_dev 2) fuel timer1_reset = Done tt s' tr /\
    TCCR1B_ADDR <> DDRB_ADDR /\ TCCR1B_ADDR <> PORTB_ADDR /\
    timer1_load TCCR1B_ADDR timer1_reset = 0 /\
    timer1_load TCCR1B_ADDR s' = 4.
Proof.
  destruct (toggle_cycle_returns 2 ltac:(lia) poll_bound timer1_reset
              timer1_reset_wf (le_n _)) as (s' & tr & Hrun & _ & [_ Hb] & _).
  exists poll_bound, s', tr. split; [exact Hrun|].
  split; [discriminate|]. split; [discriminate|]. split; [reflexivity|exact Hb].
Qed.

(** C6, amended. A pass through the loop body (port bit 5 high, delay,
    port bit 5 low, delay) accesses only the output port register and the
    five timer registers of the delay, on any device; the data-direction
    register is not stored to. On the timer, from a calm state, the pass
    returns; the port is stored to twice, with bit 5 set and then with
    bit 5 clear and its other bits as they were; a full wait of the delay
    follows each store; every plain register other than the port keeps
    its value; and the timer is calm again for the next pass. *)
Theorem toggle_cycle_frame :
  (forall (D : device) (fuel : nat) (s : hw D),
     touches_only toggle_regs (trace_of (DelayTimer.toggle_cycle fuel s)) = true /\
     stores_to DDRB_ADDR (trace_of (DelayTimer.toggle_cycle fuel s)) = []) /\
  (forall (c : nat) (s : timer1),
     (1 <= c <= 256)%nat -> wf s -> calm 3040 s ->
     exists (k1 k2 : nat) s' d1 d2 p hi lo,
       full_wait c k1 /\ full_wait c k2 /\
       (forall fuel, (k1 <= fuel)%nat -> (k2 <= fuel)%nat ->
          DelayTimer.toggle_cycle (D:=timer1_dev c) fuel s =
          Done tt s' ([Load PORTB_ADDR p; Store PORTB_ADDR hi] ++ d1 ++
                      [Load PORTB_ADDR hi; Store PORTB_ADDR lo] ++ d2)) /\
       length d1 = (6 + k1)%nat /\ length d2 = (6 + k2)%nat /\
       touches_only timer_regs d1 = true /\ touches_only timer_regs d2 = true /\
       p = uint8_t (default 0 (io s !! PORTB_ADDR)) /\
       Z.testbit hi 5 = true /\ Z.testbit lo 5 = false /\
       (forall j, j <> 5 ->
          Z.testbit hi j = Z.testbit p j /\ Z.testbit lo j = Z.testbit p j) /\
       io s' !! PORTB_ADDR = Some lo /\
       (forall a, a <> PORTB_ADDR -> io s' !! a = io s !! a) /\
       wf s' /\ calm 3040 s').
Proof.
  split.
  - intros D fuel s.
    destruct (toggle_cycle_trace fuel s) as (Hto & _). cbn zeta in Hto.
    split; [exact Hto|]. now apply (stores_to_untouched toggle_regs).
  - intros c s [Hc1 Hc2] Hwf Hcalm.
    destruct (toggle_cycle_from_calm c Hc1 Hc2 s Hwf Hcalm)
      as (k1 & k2 & s' & d1 & d2 & Hk1 & Hk2 & Hrun & Hl1 & Hl2 & Ht1 & Ht2
          & Hio & Hwf' & Hcalm').
    cbn zeta in *.
    set (p := uint8_t (default 0 (io s !! PORTB_ADDR))) in *.
    set (hi := uint8_t (Z.lor p (Z.shiftl 1 5))) in *.
    set (lo := uint8_t (Z.land hi (Z.lnot (Z.shiftl 1 5)))) in *.
    exists k1, k2, s', d1, d2, p, hi, lo.
    split; [exact Hk1|]. split; [exact Hk2|]. split; [exact Hrun|].
    split; [exact Hl1|]. split; [exact Hl2|]. split; [exact Ht1|].
    split; [exact Ht2|]. split; [reflexivity|].
    split; [apply hi_bit5|]. split; [apply lo_bit5|].
    assert (Hp8 : forall j, 8 <= j -> Z.testbit p j = false).
    { intros j Hj. unfold p. rewrite uint8_t_testbit.
      destruct (Z.ltb_spec j 8); [lia|reflexivity]. }
    assert (Hhi : forall j, j <> 5 -> Z.testbit hi j = Z.testbit p j).
    { intros j Hj. unfold hi. rewrite set_byte_testbit by lia.
      destruct (Z.eqb_spec j 5); [contradiction|]. rewrite orb_false_r.
      destruct (Z.ltb_spec j 8); [reflexivity|]. now rewrite Hp8. }
    split.
    { intros j Hj. split; [now apply Hhi|].
      destruct (Z.ltb_spec j 0) as [Hneg|Hpos].
      { now rewrite !Z.testbit_neg_r. }
      unfold lo. rewrite clear_byte_testbit by lia.
      destruct (Z.eqb_spec j 5); [contradiction|]. cbn [negb].
      rewrite andb_true_r, Hhi by exact Hj.
      destruct (Z.ltb_spec j 8); [reflexivity|]. now rewrite Hp8. }
    split; [rewrite Hio; apply lookup_insert_eq|].
    split; [|auto].
    intros a Ha. rewrite Hio, !lookup_insert_ne by congruence. reflexivity.
Qed.

Lemma toggle_cycle_frame_witness :
  exists (k1 k2 : nat) s' tr,
    full_wait 2 k1 /\ full_wait 2 k2 /\
    (forall fuel, (k1 <= fuel)%nat -> (k2 <= fuel)%nat ->
       DelayTimer.toggle_cycle (D:=timer1_dev 2) fuel timer1_reset = Done tt s' tr) /\
    io s' !! DDRB_ADDR = io timer1_reset !! DDRB_ADDR.
Proof.
  destruct toggle_cycle_frame as [_ H].
  destruct (H 2%nat timer1_reset) as (k1 & k2 & s' & d1 & d2 & p & hi & lo & Hk1 & Hk2
    & Hrun & _ & _ & _ & _ & _ & _ & _ & _ & _ & Hio & _).
  - lia.
  - unfold wf. cbn. lia.
  - split; [reflexivity|]. split; [unfold tcnt1, timer1_reset; cbn; lia|].
    right. reflexivity.
  - exists k1, k2, s',
      ([Load PORTB_ADDR p; Store PORTB_ADDR hi] ++ d1 ++
       [Load PORTB_ADDR hi; Store PORTB_ADDR lo] ++ d2).
    split; [exact Hk1|]. split; [exact Hk2|].
    split; [exact Hrun|]. apply Hio. discriminate.
Defined.
(** ** The shape of the blink loops *)

Lemma blink_trace_mono (P b : Z) (d1 d2 : bool -> list event -> Prop)
      (n : nat) (tr : list event) :
  (forall c d, d1 c d -> d2 c d) ->
  blink_trace P b d1 n tr -> blink_trace P b d2 n tr.
Proof.
  intros H Hb.
  induction Hb;
    [apply blink_out_of_turns|apply blink_hangs_high|apply blink_hangs_low
    |apply blink_pass]; auto.
Qed.

Lemma port_high_stores (P b p : Z) :
  stores_to P (port_high P b p) = [uint8_t (Z.lor p (Z.shiftl 1 b))].
Proof. unfold port_high. cbn [stores_to]. now rewrite Z.eqb_refl. Qed.

Lemma port_low_stores (P b p : Z) :
  stores_to P (port_low P b p) = [uint8_t (Z.land p (Z.lnot (Z.shiftl 1 b)))].
Proof. unfold port_low. cbn [stores_to]. now rewrite Z.eqb_refl. Qed.

(** When no delay hangs, every turn is taken and stores to the port
    twice. *)
Lemma blink_trace_port_stores (P b : Z) (delays : bool -> list event -> Prop)
      (n : nat) (tr : list event) :
  (forall d, ~ delays false d) ->
  blink_trace P b delays n tr ->
  (2 * n <= length (stores_to P tr))%nat.
Proof.
  intros Hret Hb.
  induction Hb as [|n p d Hd|n p d1 q d2 _ Hd|n p d1 q d2 rest _ _ _ IH].
  - cbn. lia.
  - now apply Hret in Hd.
  - now apply Hret in Hd.
  - rewrite !stores_to_app, port_high_stores, port_low_stores.
    rewrite !length_app. cbn [length]. lia.
Qed.

Section BlinkShape.
Context {D : device}.

Lemma delay_1000ms_shape (fuel : nat) (s : hw D) :
  delay_trace fuel (returns (DelayTimer.delay_1000ms fuel s))
    (trace_of (DelayTimer.delay_1000ms fuel s)).
Proof.
  rewrite delay_1000ms_unfold. cbn zeta.
  pose proof (wait_overflow_trace fuel
    (hw_store D TCNT1H_ADDR 0x0B (hw_store D TCNT1L_ADDR 0xDB
       (hw_store D TCCR1B_ADDR 0x04 (hw_store D TCCR1A_ADDR 0x00 s))))) as H.
  destruct (DelayTimer.wait_overflow fuel _) as [[] s5 t|s5 t].
  - destruct H as (misses & hit & -> & Hm & Hh & Hl).
    destruct (hw_load D TIFR1_ADDR s5) as [v s6]. cbn [returns trace_of].
    exists misses. split; [exact Hm|]. split; [exact Hl|].
    exists hit, (uint8_t v). split; [exact Hh|].
    now rewrite <- !app_assoc.
  - destruct H as [Hm Hl]. exists t. cbn [returns trace_of]. auto.
Qed.

Lemma call_trace_delay_1000ms (fuel : nat) (complete : bool) (d : list event) :
  call_trace (fun _ : Z => DelayTimer.delay_1000ms (D:=D) fuel) complete d ->
  delay_trace fuel complete d.
Proof. intros (s & <- & <-). apply delay_1000ms_shape. Qed.

Variable delay_ms : Z -> prog D unit.
Variables DDRB PORTB DDB5 PORTB5 : Z.

Lemma blink_toggle_cycle_run (s : hw D) :
  BlinkLed.toggle_cycle delay_ms PORTB PORTB5 s =
  let '(p, s1) := hw_load D PORTB s in
  let hi := uint8_t (Z.lor (uint8_t p) (Z.shiftl 1 PORTB5)) in
  let t1 := port_high PORTB PORTB5 (uint8_t p) in
  match delay_ms 1000 (hw_store D PORTB hi s1) with
  | Spin s2 t2 => Spin s2 (t1 ++ t2)
  | Done _ s2 t2 =>
      let '(q, s3) := hw_load D PORTB s2 in
      let lo := uint8_t (Z.land (uint8_t q) (Z.lnot (Z.shiftl 1 PORTB5))) in
      let t3 := port_low PORTB PORTB5 (uint8_t q) in
      match delay_ms 1000 (hw_store D PORTB lo s3) with
      | Spin s4 t4 => Spin s4 (t1 ++ t2 ++ t3 ++ t4)
      | Done _ s4 t4 => Done tt s4 (t1 ++ t2 ++ t3 ++ t4)
      end
  end.
Proof.
  unfold BlinkLed.toggle_cycle, bind, load, store.
  destruct (hw_load D PORTB s) as [p s1]. cbn beta iota zeta.
  destruct (delay_ms 1000 _) as [[] s2 t2|s2 t2]; [|reflexivity].
  destruct (hw_load D PORTB s2) as [q s3]. cbn beta iota zeta.
  destruct (delay_ms 1000 _) as [[] s4 t4|s4 t4]; reflexivity.
Qed.

Lemma blink_while_shape (n : nat) (s : hw D) :
  exists s' rest,
    while n (ret true) (BlinkLed.toggle_cycle delay_ms PORTB PORTB5) s
      = Spin s' rest /\
    blink_trace PORTB PORTB5 (call_trace delay_ms) n rest.
Proof.
  revert s. induction n as [|n IH]; intros s.
  - exists s, []. split; [reflexivity|apply blink_out_of_turns].
  - rewrite while_S. cbn [ret]. rewrite blink_toggle_cycle_run.
    destruct (hw_load D PORTB s) as [p s1]. cbn zeta.
    destruct (delay_ms 1000 (hw_store D PORTB _ s1)) as [[] s2 t2|s2 t2] eqn:E1.
    + destruct (hw_load D PORTB s2) as [q s3]. cbn zeta.
      destruct (delay_ms 1000 (hw_store D PORTB _ s3)) as [[] s4 t4|s4 t4] eqn:E2.
      * destruct (IH s4) as (s' & rest & -> & Hb).
        eexists _, _. split; [reflexivity|].
        cbn [app]. rewrite <- !app_assoc.
        apply blink_pass; [| |exact Hb].
        -- eexists. rewrite E1. split; reflexivity.
        -- eexists. rewrite E2. split; reflexivity.
      * eexists _, _. split; [reflexivity|]. cbn [app].
        apply blink_hangs_low.
        -- eexists. rewrite E1. split; reflexivity.
        -- eexists. rewrite E2. split; reflexivity.
    + eexists _, _. split; [reflexivity|]. cbn [app].
      apply blink_hangs_high. eexists. rewrite E1. split; reflexivity.
Qed.

Lemma blink_main_shape (fuel : nat) (s : hw D) :
  exists s' rest,
    BlinkLed.main delay_ms DDRB PORTB DDB5 PORTB5 fuel s =
      Spin s' (port_high DDRB DDB5 (uint8_t (fst (hw_load D DDRB s))) ++ rest) /\
    blink_trace PORTB PORTB5 (call_trace delay_ms) fuel rest.
Proof.
  unfold BlinkLed.main. unfold bind at 1. unfold bind at 1. unfold load, store.
  destruct (hw_load D DDRB s) as [v s1]. cbn beta iota zeta.
  unfold bind.
  destruct (blink_while_shape fuel (hw_store D DDRB
              (uint8_t (Z.lor (uint8_t v) (Z.shiftl 1 DDB5))) s1))
    as (s' & rest & Hw & Hb).
  rewrite Hw.
  exists s', rest. split; [reflexivity|exact Hb].
Qed.

Lemma call_trace_returns :
  (forall ms x, returns (delay_ms ms x) = true) ->
  forall d, ~ call_trace delay_ms false d.
Proof. intros H d (s & _ & Hs). rewrite H in Hs. discriminate. Qed.
End BlinkShape.

Section TimedBlink.
Variable c : nat.
Hypothesis c_pos : (1 <= c)%nat.
Hypothesis c_short : (c <= 256)%nat.

Lemma full_wait_bound (k : nat) : full_wait c k -> (k <= poll_bound)%nat.
Proof.
  intros [_ H]. apply Nat2Z.inj_le. rewrite poll_bound_Z.
  pose proof (Z.mul_le_mono_nonneg_l 1 (Z.of_nat c) (Z.of_nat k)
                ltac:(lia) ltac:(lia)) as Hm.
  change (2 ^ 24) with 16777216. lia.
Qed.

Lemma cycles_timed (fuel n : nat) (s : timer1) :
  wf s -> calm 3040 s -> (poll_bound <= fuel)%nat ->
  exists s' tr,
    cycles (D:=timer1_dev c) fuel n s = Done tt s' tr /\ timed_passes c n tr.
Proof.
  intros Hwf Hcalm Hfuel. revert s Hwf Hcalm.
  induction n as [|n IH]; intros s Hwf Hcalm.
  - exists s, []. split; [reflexivity|apply timed_done].
  - destruct (toggle_cycle_from_calm c c_pos c_short s Hwf Hcalm)
      as (k1 & k2 & s1 & d1 & d2 & Hk1 & Hk2 & Hrun & Hl1 & Hl2 & Ht1 & Ht2
          & _ & Hwf1 & Hcalm1).
    cbn zeta in Hrun.
    pose proof (full_wait_bound k1 Hk1) as Hb1.
    pose proof (full_wait_bound k2 Hk2) as Hb2.
    destruct (IH s1 Hwf1 Hcalm1) as (s' & tr & Hcyc & Htimed).
    rewrite cycles_S, (Hrun fuel) by lia. rewrite Hcyc.
    eexists _, _. split; [reflexivity|].
    rewrite <- !app_assoc.
    exact (timed_pass c n _ d1 d2 tr k1 k2 Hk1 Hk2 Hl1 Hl2 Ht1 Ht2 Htimed).
Qed.

Lemma main_timed (fuel : nat) (s : timer1) :
  wf s -> calm 3038 s -> (poll_bound <= fuel)%nat ->
  exists s' rest,
    DelayTimer.main (D:=timer1_dev c) fuel s =
      Spin s' (port_high DDRB_ADDR 5 (uint8_t (default 0 (io s !! DDRB_ADDR)))
               ++ rest) /\
    timed_passes c fuel rest.
Proof.
  intros Hwf Hcalm Hfuel. rewrite main_run.
  rewrite (port_load c DDRB_ADDR s) by auto. cbn zeta.
  set (w := uint8_t (Z.lor (uint8_t (default 0 (io s !! DDRB_ADDR))) (Z.shiftl 1 5))).
  destruct (cycles_timed fuel fuel (hw_store (timer1_dev c) DDRB_ADDR w (clock c s)))
    as (s' & tr & -> & Htimed).
  - apply port_store_wf; [auto|]. now apply clock_wf.
  - apply (port_rmw_calm c c_pos c_short 3038); [auto|exact Hwf|exact Hcalm|lia].
  - exact Hfuel.
  - exists s', tr. split; [reflexivity|exact Htimed].
Qed.
End TimedBlink.

(** C8. The three main programs, on any device and with any fuel. None
    returns. The trace of each opens with the read-modify-write that sets
    the direction bit (bit 5 of the data-direction register) in the byte
    read from the device, and the rest is a blink trace: turn after turn
    of port bit high, a delay, port bit low, a delay, in this order, up
    to the end of the fuel or into a delay that does not return. For
    [delay_timer.c] the delays are calls of [delay_1000ms] (four set-up
    stores, polls of the flag register, the clearing write), the rest of
    the trace touches only the port and the timer registers, so the
    data-direction register is never stored to again, and the bytes
    stored to the port alternate between bit 5 set and bit 5 clear,
    starting set. For [reg_readwrite.c] and [blink_led.c] the delays are
    calls of the library delay, and when that returns every turn is
    taken. On the timer the turns complete, so that the port is toggled
    as often as one likes; and from a calm start (the reset state is
    one) every port store is followed by a full wait of the delay, one
    second of polling, before the next. *)
Theorem main_blinks_forever :
  (forall (D : device) (fuel : nat) (s : hw D),
     returns (DelayTimer.main fuel s) = false /\
     exists rest,
       let v := uint8_t (fst (hw_load D DDRB_ADDR s)) in
       let w := uint8_t (Z.lor v (Z.shiftl 1 5)) in
       let s1 := hw_store D DDRB_ADDR w (snd (hw_load D DDRB_ADDR s)) in
       trace_of (DelayTimer.main fuel s) =
         [Load DDRB_ADDR v; Store DDRB_ADDR w] ++ rest /\
       Z.testbit w 5 = true /\
       blink_trace PORTB_ADDR 5 (delay_trace fuel) fuel rest /\
       rest = trace_of (cycles fuel fuel s1) /\
       touches_only toggle_regs rest = true /\
       stores_to DDRB_ADDR rest = [] /\
       alternates true (stores_to PORTB_ADDR (trace_of (DelayTimer.main fuel s)))
         = true) /\
  (forall (D : device) (delay_ms : Z -> prog D unit) (fuel : nat) (s : hw D),
     returns (RegReadWrite.main delay_ms fuel s) = false /\
     exists rest,
       trace_of (RegReadWrite.main delay_ms fuel s) =
         port_high DDRB_ADDR 5 (uint8_t (fst (hw_load D DDRB_ADDR s))) ++ rest /\
       blink_trace PORTB_ADDR 5 (call_trace delay_ms) fuel rest /\
       ((forall ms x, returns (delay_ms ms x) = true) ->
        (2 * fuel <= length (stores_to PORTB_ADDR rest))%nat)) /\
  (forall (D : device) (delay_ms : Z -> prog D unit) (DDRB PORTB DDB5 PORTB5 : Z)
          (fuel : nat) (s : hw D),
     returns (BlinkLed.main delay_ms DDRB PORTB DDB5 PORTB5 fuel s) = false /\
     exists rest,
       trace_of (BlinkLed.main delay_ms DDRB PORTB DDB5 PORTB5 fuel s) =
         port_high DDRB DDB5 (uint8_t (fst (hw_load D DDRB s))) ++ rest /\
       blink_trace PORTB PORTB5 (call_trace delay_ms) fuel rest /\
       ((forall ms x, returns (delay_ms ms x) = true) ->
        (2 * fuel <= length (stores_to PORTB rest))%nat)) /\
  (forall (c n : nat) (s : timer1),
     (1 <= c)%nat -> wf s ->
     exists fuel,
       (2 * n <= length (stores_to PORTB_ADDR
                   (trace_of (DelayTimer.main (D:=timer1_dev c) fuel s))))%nat) /\
  (forall (c fuel : nat) (s : timer1),
     (1 <= c <= 256)%nat -> wf s -> calm 3038 s -> (poll_bound <= fuel)%nat ->
     exists rest,
       trace_of (DelayTimer.main (D:=timer1_dev c) fuel s) =
         port_high DDRB_ADDR 5 (uint8_t (default 0 (io s !! DDRB_ADDR))) ++ rest /\
       timed_passes c fuel rest).
Proof.
  assert (Hblink : forall (D : device) (delay_ms : Z -> prog D unit)
            (DDRB PORTB DDB5 PORTB5 : Z) (fuel : nat) (s : hw D),
     returns (BlinkLed.main delay_ms DDRB PORTB DDB5 PORTB5 fuel s) = false /\
     exists rest,
       trace_of (BlinkLed.main delay_ms DDRB PORTB DDB5 PORTB5 fuel s) =
         port_high DDRB DDB5 (uint8_t (fst (hw_load D DDRB s))) ++ rest /\
       blink_trace PORTB PORTB5 (call_trace delay_ms) fuel rest /\
       ((forall ms x, returns (delay_ms ms x) = true) ->
        (2 * fuel <= length (stores_to PORTB rest))%nat)).
  { intros D delay_ms DDRB PORTB DDB5 PORTB5 fuel s.
    destruct (blink_main_shape delay_ms DDRB PORTB DDB5 PORTB5 fuel s)
      as (s' & rest & -> & Hb).
    split; [reflexivity|]. exists rest. split; [reflexivity|].
    split; [exact Hb|]. intros Hret.
    apply (blink_trace_port_stores PORTB PORTB5 (call_trace delay_ms)); [|exact Hb].
    now apply call_trace_returns. }
  split; [|split; [|split; [|split]]].
  - intros D fuel s.
    destruct (blink_main_shape (fun _ => DelayTimer.delay_1000ms fuel)
                DDRB_ADDR PORTB_ADDR 5 5 fuel s) as (s' & rest & Hrun & Hb).
    change (BlinkLed.main _ DDRB_ADDR PORTB_ADDR 5 5 fuel s)
      with (DelayTimer.main fuel s) in Hrun.
    apply (blink_trace_mono _ _ _ (delay_trace fuel)) in Hb;
      [|apply call_trace_delay_1000ms].
    pose proof (main_run fuel s) as Hmr. rewrite Hrun in Hmr.
    rewrite Hrun. clear Hrun.
    destruct (hw_load D DDRB_ADDR s) as [v s1]. cbn [fst snd] in *.
    cbn zeta in Hmr. unfold port_high in Hmr. cbn [app] in Hmr.
    injection Hmr as _ Hrest.
    destruct (cycles_trace fuel fuel
                (hw_store D DDRB_ADDR (uint8_t (Z.lor (uint8_t v) (Z.shiftl 1 5))) s1))
      as [Hto Halt].
    rewrite <- Hrest in Hto, Halt.
    split; [reflexivity|]. exists rest. cbn zeta. cbn [trace_of].
    split; [reflexivity|]. split; [apply hi_bit5|]. split; [exact Hb|].
    split; [exact Hrest|]. split; [exact Hto|].
    split; [now apply (stores_to_untouched toggle_regs)|].
    unfold port_high. rewrite stores_to_app. exact Halt.
  - intros D delay_ms fuel s.
    exact (Hblink D delay_ms DDRB_ADDR PORTB_ADDR 5 5 fuel s).
  - exact Hblink.
  - intros c n s Hc Hwf. now apply main_toggles.
  - intros c fuel s [Hc1 Hc2] Hwf Hcalm Hfuel.
    destruct (main_timed c Hc1 Hc2 fuel s Hwf Hcalm Hfuel) as (s' & rest & -> & Ht).
    exists rest. split; [reflexivity|exact Ht].
Qed.

Lemma main_blinks_forever_witness :
  (exists fuel,
     (2 * 3 <= length (stores_to PORTB_ADDR
                 (trace_of (DelayTimer.main (D:=timer1_dev 2) fuel timer1_reset))))%nat) /\
  (exists rest,
     trace_of (DelayTimer.main (D:=timer1_dev 2) poll_bound timer1_reset) =
       port_high DDRB_ADDR 5 0 ++ rest /\
     timed_passes 2 poll_bound rest) /\
  (exists rest,
     trace_of (RegReadWrite.main (D:=ram) (fun _ => ret tt) 3 ∅) =
       port_high DDRB_ADDR 5 0 ++ rest /\
     (2 * 3 <= length (stores_to PORTB_ADDR rest))%nat) /\
  (exists rest,
     trace_of (BlinkLed.main (D:=ram) (fun _ => ret tt) 0x24 0x25 5 5 3 ∅) =
       port_high 0x24 5 0 ++ rest /\
     (2 * 3 <= length (stores_to 0x25 rest))%nat).
Proof.
  destruct main_blinks_forever as (_ & Hreg & Hled & Hcount & Htimed).
  split; [|split; [|split]]; cycle 3.
  - destruct (Hled ram (fun _ => ret tt) 0x24 0x25 5 5 3%nat ∅)
      as (_ & rest & Htr & _ & Hn).
    exists rest. split; [exact Htr|]. apply Hn. intros ms x. reflexivity.
  - apply (Hcount 2%nat 3%nat timer1_reset); [lia|]. unfold wf. cbn. lia.
  - apply (Htimed 2%nat poll_bound timer1_reset).
    + lia.
    + unfold wf. cbn. lia.
    + split; [reflexivity|]. split; [unfold tcnt1, timer1_reset; cbn; lia|].
      right. reflexivity.
    + apply le_n.
  - destruct (Hreg ram (fun _ => ret tt) 3%nat ∅) as (_ & rest & Htr & _ & Hn).
    exists rest. split; [exact Htr|]. apply Hn. intros ms x. reflexivity.
Defined.

(** * Further properties *)

(** ** Register access on plain storage *)

Lemma ram_write_reg (a v : Z) (m : gmap Z Z) :
  DelayTimer.write_reg (D:=ram) a v m =
  Done tt (<[a := uint8_t v]> m) [Store a (uint8_t v)].
Proof. reflexivity. Qed.

Lemma read_after_write_reg (a b v : Z) (m : gmap Z Z) :
  read_after (DelayTimer.write_reg a v) b m = Some (peek (<[a := uint8_t v]> m) b).
Proof. reflexivity. Qed.

Lemma ram_bind_write_reg (a v : Z) (k : prog ram unit) (m : gmap Z Z) :
  storage_after (DelayTimer.write_reg a v ;; k) m =
  storage_after k (<[a := uint8_t v]> m).
Proof.
  unfold storage_after, bind. rewrite ram_write_reg. cbn beta iota.
  now destruct (k _).
Qed.

Lemma ram_storage_write_reg (a v : Z) (m : gmap Z Z) :
  storage_after (DelayTimer.write_reg a v) m = Some (<[a := uint8_t v]> m).
Proof. reflexivity. Qed.

(** X1. On a register that stores bytes, [read_reg] after [write_reg]
    returns the byte written (the value reduced to eight bits); a write
    to one register leaves what every other register reads as; the last
    of two writes to a register wins; writes to different registers
    commute. *)
Theorem write_reg_read_reg (m : gmap Z Z) (a v w : Z) :
  read_after (DelayTimer.write_reg a v) a m = Some (uint8_t v) /\
  storage_after (DelayTimer.write_reg a v ;; DelayTimer.write_reg a w) m =
    storage_after (DelayTimer.write_reg a w) m /\
  forall b, a <> b ->
    read_after (DelayTimer.write_reg a v) b m = Some (peek m b) /\
    storage_after (DelayTimer.write_reg a v ;; DelayTimer.write_reg b w) m =
      storage_after (DelayTimer.write_reg b w ;; DelayTimer.write_reg a v) m.
Proof.
  rewrite !read_after_write_reg, !ram_bind_write_reg, !ram_storage_write_reg.
  rewrite peek_insert, uint8_t_idem, insert_insert_eq.
  split; [reflexivity|]. split; [reflexivity|].
  intros b Hab.
  rewrite read_after_write_reg, !ram_bind_write_reg, !ram_storage_write_reg.
  rewrite peek_insert_ne by exact Hab.
  split; [reflexivity|]. f_equal. now apply insert_insert_ne.
Qed.

Lemma write_reg_read_reg_witness :
  read_after (DelayTimer.write_reg TCCR1B_ADDR 0x04) TCCR1A_ADDR
    (<[TCCR1A_ADDR := 0x00]> ∅) = Some 0x00.
Proof.
  destruct (write_reg_read_reg (<[TCCR1A_ADDR := 0x00]> ∅) TCCR1B_ADDR 0x04 0)
    as (_ & _ & H).
  destruct (H TCCR1A_ADDR) as [Hr _]; [discriminate|]. exact Hr.
Defined.

(** X2. On registers that store bytes, [set_bit] and [clear_bit] on one
    register leave what every other register reads as. *)
Theorem bit_helpers_other_registers (m : gmap Z Z) (a b i : Z) :
  a <> b ->
  read_after (DelayTimer.set_bit a i) b m = Some (peek m b) /\
  read_after (DelayTimer.clear_bit a i) b m = Some (peek m b) /\
  read_after (RegReadWrite.set_bit a i) b m = Some (peek m b) /\
  read_after (RegReadWrite.clear_bit a i) b m = Some (peek m b).
Proof.
  intros Hab. rewrite set_bit_same, clear_bit_same.
  unfold read_after, bind. rewrite ram_set_bit, ram_clear_bit.
  cbn beta iota zeta. rewrite !ram_load, !peek_insert_ne by exact Hab.
  repeat split.
Qed.

Lemma bit_helpers_other_registers_witness :
  read_after (DelayTimer.set_bit PORTB_ADDR 5) DDRB_ADDR (<[DDRB_ADDR := 0x20]> ∅)
    = Some 0x20.
Proof.
  destruct (bit_helpers_other_registers (<[DDRB_ADDR := 0x20]> ∅)
              PORTB_ADDR DDRB_ADDR 5) as [H _]; [discriminate|exact H].
Defined.

Lemma peek_byte (m : gmap Z Z) (a : Z) : uint8_t (peek m a) = peek m a.
Proof. apply uint8_t_idem. Qed.

(** X3. A bit index beyond the byte: for [8 <= bit <= 14], where the
    shift is defined for a 16-bit as for a 32-bit [int], [set_bit] and
    [clear_bit] store back the byte they read, so the register reads as
    before. *)
Theorem bit_helpers_index_out_of_byte (m : gmap Z Z) (a i : Z) :
  8 <= i <= 14 ->
  read_after (DelayTimer.set_bit a i) a m = Some (peek m a) /\
  read_after (DelayTimer.clear_bit a i) a m = Some (peek m a) /\
  read_after (RegReadWrite.set_bit a i) a m = Some (peek m a) /\
  read_after (RegReadWrite.clear_bit a i) a m = Some (peek m a).
Proof.
  intros Hi. rewrite set_bit_same, clear_bit_same.
  rewrite read_after_set_bit, read_after_clear_bit.
  assert (Hs : uint8_t (Z.lor (peek m a) (Z.shiftl 1 i)) = peek m a).
  { apply Z.bits_inj'. intros n Hn. rewrite set_byte_testbit by lia.
    destruct (Z.ltb_spec n 8) as [Hlt|Hge].
    - destruct (Z.eqb_spec n i); [lia|]. now rewrite orb_false_r.
    - now rewrite peek_high_bits. }
  assert (Hc : uint8_t (Z.land (peek m a) (Z.lnot (Z.shiftl 1 i))) = peek m a).
  { apply Z.bits_inj'. intros n Hn. rewrite clear_byte_testbit by lia.
    destruct (Z.ltb_spec n 8) as [Hlt|Hge].
    - destruct (Z.eqb_spec n i); [lia|]. now rewrite andb_true_r.
    - now rewrite peek_high_bits. }
  rewrite Hs, Hc. repeat split.
Qed.

Lemma bit_helpers_index_out_of_byte_witness :
  read_after (DelayTimer.set_bit PORTB_ADDR 8) PORTB_ADDR (<[PORTB_ADDR := 0x21]> ∅)
    = Some 0x21.
Proof.
  destruct (bit_helpers_index_out_of_byte (<[PORTB_ADDR := 0x21]> ∅) PORTB_ADDR 8)
    as [H _]; [lia|exact H].
Defined.

Lemma ram_bind_set_bit (a i : Z) (k : prog ram unit) (m : gmap Z Z) :
  storage_after (DelayTimer.set_bit a i ;; k) m =
  storage_after k (<[a := uint8_t (Z.lor (peek m a) (Z.shiftl 1 i))]> m).
Proof.
  unfold storage_after, bind. rewrite ram_set_bit. cbn beta iota zeta.
  now destruct (k _).
Qed.

Lemma ram_bind_clear_bit (a i : Z) (k : prog ram unit) (m : gmap Z Z) :
  storage_after (DelayTimer.clear_bit a i ;; k) m =
  storage_after k (<[a := uint8_t (Z.land (peek m a) (Z.lnot (Z.shiftl 1 i)))]> m).
Proof.
  unfold storage_after, bind. rewrite ram_clear_bit. cbn beta iota zeta.
  now destruct (k _).
Qed.

Lemma ram_storage_set_bit (a i : Z) (m : gmap Z Z) :
  storage_after (DelayTimer.set_bit a i) m =
  Some (<[a := uint8_t (Z.lor (peek m a) (Z.shiftl 1 i))]> m).
Proof. reflexivity. Qed.

Lemma ram_storage_clear_bit (a i : Z) (m : gmap Z Z) :
  storage_after (DelayTimer.clear_bit a i) m =
  Some (<[a := uint8_t (Z.land (peek m a) (Z.lnot (Z.shiftl 1 i)))]> m).
Proof. reflexivity. Qed.

(** X4. How the bit helpers compose on a register that stores bytes:
    setting two bits, or clearing two bits, gives the same storage in
    either order; setting bit [i] and clearing a different bit [j]
    commute; clearing bit [i] and then setting it leaves what setting it
    alone leaves; and helpers applied to different registers commute. *)
Theorem bit_helpers_commute (m : gmap Z Z) (a i j : Z) :
  0 <= i -> 0 <= j ->
  storage_after (DelayTimer.set_bit a i ;; DelayTimer.set_bit a j) m =
    storage_after (DelayTimer.set_bit a j ;; DelayTimer.set_bit a i) m /\
  storage_after (DelayTimer.clear_bit a i ;; DelayTimer.clear_bit a j) m =
    storage_after (DelayTimer.clear_bit a j ;; DelayTimer.clear_bit a i) m /\
  storage_after (DelayTimer.clear_bit a i ;; DelayTimer.set_bit a i) m =
    storage_after (DelayTimer.set_bit a i) m /\
  (i <> j ->
   storage_after (DelayTimer.set_bit a i ;; DelayTimer.clear_bit a j) m =
     storage_after (DelayTimer.clear_bit a j ;; DelayTimer.set_bit a i) m) /\
  (forall b, a <> b ->
   storage_after (DelayTimer.set_bit a i ;; DelayTimer.clear_bit b j) m =
     storage_after (DelayTimer.clear_bit b j ;; DelayTimer.set_bit a i) m).
Proof.
  intros Hi Hj.
  rewrite !ram_bind_set_bit, !ram_bind_clear_bit,
    !ram_storage_set_bit, !ram_storage_clear_bit.
  rewrite !peek_insert, !uint8_t_idem, !insert_insert_eq.
  split; [|split; [|split; [|split]]].
  - do 2 f_equal. apply Z.bits_inj'. intros n Hn.
    rewrite !uint8_t_testbit, !Z.lor_spec, !uint8_t_testbit, !Z.lor_spec.
    destruct (n <? 8), (Z.testbit (peek m a) n), (Z.testbit (Z.shiftl 1 i) n),
      (Z.testbit (Z.shiftl 1 j) n); reflexivity.
  - do 2 f_equal. apply Z.bits_inj'. intros n Hn.
    rewrite !uint8_t_testbit, !Z.land_spec, !uint8_t_testbit, !Z.land_spec.
    destruct (n <? 8), (Z.testbit (peek m a) n),
      (Z.testbit (Z.lnot (Z.shiftl 1 i)) n),
      (Z.testbit (Z.lnot (Z.shiftl 1 j)) n); reflexivity.
  - do 2 f_equal. apply Z.bits_inj'. intros n Hn.
    rewrite !uint8_t_testbit, !Z.lor_spec, !uint8_t_testbit, !Z.land_spec,
      Z.lnot_spec by lia.
    destruct (n <? 8), (Z.testbit (peek m a) n), (Z.testbit (Z.shiftl 1 i) n);
      reflexivity.
  - intros Hij. do 2 f_equal. apply Z.bits_inj'. intros n Hn.
    rewrite !uint8_t_testbit, !Z.lor_spec, !Z.land_spec, !uint8_t_testbit,
      !Z.lor_spec, !Z.land_spec, !Z.lnot_spec, !shiftl_1_testbit by lia.
    destruct (Z.eqb_spec n i), (Z.eqb_spec n j); try lia;
      destruct (n <? 8), (Z.testbit (peek m a) n); reflexivity.
  - intros b Hab.
    rewrite !ram_bind_set_bit, !ram_bind_clear_bit,
      !ram_storage_set_bit, !ram_storage_clear_bit.
    rewrite !peek_insert_ne by congruence.
    f_equal. now apply insert_insert_ne.
Qed.

Lemma bit_helpers_commute_witness :
  storage_after (DelayTimer.set_bit PORTB_ADDR 5 ;; DelayTimer.clear_bit PORTB_ADDR 0)
    (<[PORTB_ADDR := 0x01]> ∅) =
  storage_after (DelayTimer.clear_bit PORTB_ADDR 0 ;; DelayTimer.set_bit PORTB_ADDR 5)
    (<[PORTB_ADDR := 0x01]> ∅).
Proof.
  destruct (bit_helpers_commute (<[PORTB_ADDR := 0x01]> ∅) PORTB_ADDR 5 0)
    as (_ & _ & _ & H & _); [lia|lia|]. apply H. lia.
Defined.

(** ** The delay routine and the flag register *)

Lemma cycle_tifr1 (s : timer1) :
  tifr1 (cycle s) = tifr1 s \/ tifr1 (cycle s) = Z.lor (tifr1 s) 1.
Proof.
  unfold cycle. destruct (prescale_div (clock_select s)); [|now left].
  destruct (normal_mode s && _); [|now left].
  unfold count_up. cbn [tifr1]. destruct (_ =? 0); [now right|now left].
Qed.

(** The clock leaves the flag register alone or raises the overflow flag. *)
Lemma clock_tifr1 (n : nat) (s : timer1) :
  tifr1 (clock n s) = tifr1 s \/ tifr1 (clock n s) = Z.lor (tifr1 s) 1.
Proof.
  induction n as [|n IH]; [now left|]. rewrite clock_S.
  destruct (cycle_tifr1 (clock n s)) as [-> | ->]; [exact IH|].
  destruct IH as [-> | ->]; [now right|right; apply lor_1_idem].
Qed.

Lemma clock_flag_stays (n : nat) (s : timer1) :
  overflow_flag s = true -> overflow_flag (clock n s) = true.
Proof.
  unfold overflow_flag. intros Hs.
  destruct (clock_tifr1 n s) as [-> | ->]; [exact Hs|apply testbit_lor_1].
Qed.

Section DelayOnAnyTimer.
Variable c : nat.

Lemma poll_on_timer (s : timer1) :
  hw_load (timer1_dev c) TIFR1_ADDR s = (tifr1 (clock c s), clock c s).
Proof. reflexivity. Qed.

(** The polling loop, finished or not, changes neither the plain
    registers nor the control registers. *)
Lemma wait_overflow_frame (fuel : nat) (s : timer1) :
  let s' := state_of (DelayTimer.wait_overflow (D:=timer1_dev c) fuel s) in
  io s' = io s /\ tccr1a s' = tccr1a s /\ tccr1b s' = tccr1b s.
Proof.
  cbn zeta. revert s. induction fuel as [|fuel IH]; intros s; [easy|].
  rewrite wait_overflow_S, poll_on_timer.
  destruct (clock_frame c s) as (Hio & Ha & Hb).
  destruct (Z.testbit _ 0); [cbn [state_of]; auto|].
  specialize (IH (clock c s)).
  destruct (DelayTimer.wait_overflow (D:=timer1_dev c) fuel (clock c s));
    cbn [state_of] in *;
    rewrite <- Hio, <- Ha, <- Hb; exact IH.
Qed.

Lemma setup_state_frame (s : timer1) :
  io (setup_state c s) = io s /\
  tccr1a (setup_state c s) = 0 /\ tccr1b (setup_state c s) = 4.
Proof.
  unfold setup_state. cbn [hw_store timer1_dev].
  set (x1 := timer1_store TCCR1A_ADDR 0 (clock c s)).
  set (x2 := timer1_store TCCR1B_ADDR 4 (clock c x1)).
  set (x3 := timer1_store TCNT1L_ADDR 219 (clock c x2)).
  change (io (timer1_store TCNT1H_ADDR 11 ?x)) with (io x).
  change (tccr1a (timer1_store TCNT1H_ADDR 11 ?x)) with (tccr1a x).
  change (tccr1b (timer1_store TCNT1H_ADDR 11 ?x)) with (tccr1b x).
  destruct (clock_frame c x3) as (-> & -> & ->).
  change (io x3) with (io (clock c x2)).
  change (tccr1a x3) with (tccr1a (clock c x2)).
  change (tccr1b x3) with (tccr1b (clock c x2)).
  destruct (clock_frame c x2) as (-> & -> & ->).
  change (io x2) with (io (clock c x1)).
  change (tccr1a x2) with (tccr1a (clock c x1)).
  change (tccr1b x2) with 4.
  destruct (clock_frame c x1) as (-> & -> & _).
  change (io x1) with (io (clock c s)). change (tccr1a x1) with 0.
  now destruct (clock_frame c s) as (-> & _ & _).
Qed.

Lemma setup_state_flag (s : timer1) :
  overflow_flag s = true -> overflow_flag (setup_state c s) = true.
Proof.
  intros Hs. unfold setup_state. cbn [hw_store timer1_dev].
  change (overflow_flag (timer1_store TCNT1H_ADDR 11 ?x)) with (overflow_flag x).
  apply (clock_flag_stays c).
  change (overflow_flag (timer1_store TCNT1L_ADDR 219 ?x)) with (overflow_flag x).
  apply (clock_flag_stays c).
  change (overflow_flag (timer1_store TCCR1B_ADDR 4 ?x)) with (overflow_flag x).
  apply (clock_flag_stays c).
  change (overflow_flag (timer1_store TCCR1A_ADDR 0 ?x)) with (overflow_flag x).
  now apply (clock_flag_stays c).
Qed.

Lemma delay_1000ms_on_timer (fuel : nat) (s : timer1) :
  DelayTimer.delay_1000ms (D:=timer1_dev c) fuel s =
  match DelayTimer.wait_overflow (D:=timer1_dev c) fuel (setup_state c s) with
  | Done _ s5 t =>
      let v := uint8_t (tifr1 (clock c s5)) in
      let w := uint8_t (Z.lor v 1) in
      Done tt (timer1_store TIFR1_ADDR w (clock c (clock c s5)))
        (delay_setup ++ t ++ [Load TIFR1_ADDR v; Store TIFR1_ADDR w])
  | Spin s5 t => Spin s5 (delay_setup ++ t)
  end.
Proof. rewrite delay_1000ms_unfold. reflexivity. Qed.

(** A call, finished or not, leaves the plain registers as they were and
    the timer in the configuration of the delay. *)
Lemma delay_1000ms_state_frame (fuel : nat) (s : timer1) :
  let s' := state_of (DelayTimer.delay_1000ms (D:=timer1_dev c) fuel s) in
  io s' = io s /\ running s'.
Proof.
  cbn zeta. rewrite delay_1000ms_on_timer.
  destruct (setup_state_frame s) as (Hio & Ha & Hb).
  destruct (wait_overflow_frame fuel (setup_state c s)) as (Hio5 & Ha5 & Hb5).
  cbn zeta in *.
  destruct (DelayTimer.wait_overflow (D:=timer1_dev c) fuel (setup_state c s))
    as [[] s5 t|s5 t]; cbn [state_of] in *.
  - change (io (timer1_store TIFR1_ADDR ?w ?x)) with (io x).
    unfold running.
    change (tccr1a (timer1_store TIFR1_ADDR ?w ?x)) with (tccr1a x).
    change (tccr1b (timer1_store TIFR1_ADDR ?w ?x)) with (tccr1b x).
    destruct (clock_frame c (clock c s5)) as (-> & -> & ->).
    destruct (clock_frame c s5) as (-> & -> & ->).
    rewrite Hio5, Ha5, Hb5, Hio, Ha, Hb. repeat split.
  - unfold running. rewrite Hio5, Ha5, Hb5, Hio, Ha, Hb. repeat split.
Qed.

(** The clearing write on the timer: whatever was pending when the flag
    register was read is cleared, and so is the overflow flag. *)
Lemma clearing_write (s5 : timer1) :
  let w := uint8_t (Z.lor (uint8_t (tifr1 (clock c s5))) 1) in
  uint8_t (tifr1 (timer1_store TIFR1_ADDR w (clock c (clock c s5)))) = 0.
Proof.
  cbn zeta.
  change (tifr1 (timer1_store TIFR1_ADDR ?w ?x)) with (Z.land (tifr1 x) (Z.lnot w)).
  apply Z.bits_inj'. intros n Hn.
  rewrite uint8_t_testbit, Z.land_spec, Z.lnot_spec, uint8_t_testbit,
    Z.lor_spec, uint8_t_testbit, Z.bits_0 by lia.
  destruct (Z.ltb_spec n 8) as [Hlt|Hge]; [|reflexivity]. cbn [andb].
  destruct (clock_tifr1 c (clock c s5)) as [-> | ->].
  - destruct (Z.testbit (tifr1 (clock c s5)) n); [reflexivity|reflexivity].
  - rewrite Z.lor_spec.
    destruct (Z.testbit (tifr1 (clock c s5)) n), (Z.testbit 1 n); reflexivity.
Qed.
End DelayOnAnyTimer.

(** X5. What a call of [delay_1000ms] leaves alone. On any device, and
    whether or not the call returns, every access is to one of the five
    timer registers: it stores nothing to the data-direction register or
    to the port. On the timer, at any access cost and from any state, the
    state it ends or hangs in has every plain register as before and the
    timer in the configuration of the delay (normal mode, divisor 256):
    the routine never stops the counter again. *)
Theorem delay_1000ms_frame :
  (forall (D : device) (fuel : nat) (s : hw D),
     touches_only timer_regs (trace_of (DelayTimer.delay_1000ms fuel s)) = true /\
     stores_to DDRB_ADDR (trace_of (DelayTimer.delay_1000ms fuel s)) = [] /\
     stores_to PORTB_ADDR (trace_of (DelayTimer.delay_1000ms fuel s)) = []) /\
  (forall (c fuel : nat) (s : timer1),
     let s' := state_of (DelayTimer.delay_1000ms (D:=timer1_dev c) fuel s) in
     io s' = io s /\ running s' /\
     prescale_div (clock_select s') = Some 256 /\ normal_mode s' = true).
Proof.
  split.
  - intros D fuel s. pose proof (delay_1000ms_touches fuel s) as Ht.
    split; [exact Ht|].
    split; now apply (stores_to_untouched timer_regs).
  - intros c fuel s. cbn zeta.
    destruct (delay_1000ms_state_frame c fuel s) as [Hio [Ha Hb]].
    split; [exact Hio|]. split; [split; assumption|].
    unfold clock_select, normal_mode. rewrite Ha, Hb. split; reflexivity.
Qed.

(** X6. The routine does not clear the overflow flag before it waits: on
    the timer, at any access cost and whatever the counter holds, a call
    entered with the flag already set returns at its first poll (seven
    accesses in all: four set-up stores, one poll, the read-modify-write)
    and leaves the flag clear. *)
Theorem delay_1000ms_stale_flag (c fuel : nat) (s : timer1) :
  overflow_flag s = true -> (1 <= fuel)%nat ->
  exists s' v v',
    DelayTimer.delay_1000ms (D:=timer1_dev c) fuel s =
      Done tt s' (delay_setup ++ [Load TIFR1_ADDR v] ++
                  [Load TIFR1_ADDR v'; Store TIFR1_ADDR (uint8_t (Z.lor v' 1))]) /\
    Z.testbit v 0 = true /\
    overflow_flag s' = false.
Proof.
  intros Hs Hfuel. rewrite delay_1000ms_on_timer.
  pose proof (setup_state_flag c s Hs) as H4.
  destruct fuel as [|fuel]; [lia|].
  rewrite wait_overflow_S, poll_on_timer.
  pose proof (clock_flag_stays c _ H4) as H5.
  assert (Hb : Z.testbit (uint8_t (tifr1 (clock c (setup_state c s)))) 0 = true)
    by (rewrite uint8_t_testbit; exact H5).
  rewrite Hb. cbn zeta.
  eexists _, _, _. split; [reflexivity|]. split; [exact Hb|].
  unfold overflow_flag.
  change (tifr1 (timer1_store TIFR1_ADDR ?w ?x)) with (Z.land (tifr1 x) (Z.lnot w)).
  rewrite Z.land_spec, Z.lnot_spec, uint8_t_testbit, testbit_lor_1 by lia.
  apply andb_false_r.
Qed.

Lemma delay_1000ms_stale_flag_witness :
  exists s' v v',
    DelayTimer.delay_1000ms (D:=timer1_dev 2) 1 two_flags_pending =
      Done tt s' (delay_setup ++ [Load TIFR1_ADDR v] ++
                  [Load TIFR1_ADDR v'; Store TIFR1_ADDR (uint8_t (Z.lor v' 1))]) /\
    Z.testbit v 0 = true /\
    overflow_flag s' = false.
Proof. apply delay_1000ms_stale_flag; [reflexivity|lia]. Defined.

(** X7. On the timer, at any access cost and from any state, a call of
    [delay_1000ms] that returns leaves the whole flag byte zero: the
    clearing write stores back every flag it read, so each flag pending
    at that moment is cleared together with the overflow flag. *)
Theorem delay_1000ms_clears_every_flag
        (c fuel : nat) (s s' : timer1) (tr : list event) :
  DelayTimer.delay_1000ms (D:=timer1_dev c) fuel s = Done tt s' tr ->
  uint8_t (tifr1 s') = 0 /\ overflow_flag s' = false.
Proof.
  rewrite delay_1000ms_on_timer.
  destruct (DelayTimer.wait_overflow (D:=timer1_dev c) fuel (setup_state c s))
    as [[] s5 t|s5 t]; [|discriminate].
  cbn zeta. intros H. inversion H; subst. clear H.
  pose proof (clearing_write c s5) as Hz. cbn zeta in Hz.
  split; [exact Hz|].
  unfold overflow_flag.
  assert (Hb : Z.testbit (uint8_t (tifr1 (timer1_store TIFR1_ADDR
                 (uint8_t (Z.lor (uint8_t (tifr1 (clock c s5))) 1))
                 (clock c (clock c s5))))) 0 = false)
    by (rewrite Hz; apply Z.bits_0).
  now rewrite uint8_t_testbit in Hb.
Qed.

Lemma delay_1000ms_clears_every_flag_witness :
  uint8_t (tifr1 (state_of
     (DelayTimer.delay_1000ms (D:=timer1_dev 2) 1 two_flags_pending))) = 0.
Proof.
  eapply (delay_1000ms_clears_every_flag 2 1 two_flags_pending).
  vm_compute. reflexivity.
Defined.

(** X8. The two-byte preload meets a running counter: the control stores
    have started the counter before the low and the high byte are stored.
    With accesses no longer than a counter period, whatever the counter
    held before the call, it holds [0x0BDB] after the set-up, or
    [0x0BDC] when a count fell between the two byte stores; both occur. *)
Theorem preload_meets_running_counter (c : nat) (s : timer1) :
  (1 <= c <= 256)%nat -> wf s ->
  (tcnt1 (setup_state c s) = 0x0BDB \/ tcnt1 (setup_state c s) = 0x0BDC) /\
  tcnt1 (setup_state 2 timer1_reset) = 0x0BDB /\
  tcnt1 (setup_state 2
           {| io := ∅; tccr1a := 0; tccr1b := 0; tcnt1h := 0xFF; tcnt1l := 0xFF;
              tifr1 := 0; presc := 248 |}) = 0x0BDC.
Proof.
  intros [Hc1 Hc2] Hwf. split; [|split; reflexivity].
  destruct (setup_control c s Hwf) as (Hr2 & Hw2 & _).
  destruct (setup_counter c Hc1 _ Hr2 Hw2) as (_ & [Hh Hl] & _).
  destruct (setup_counter_fine c Hc1 _ Hc2 Hr2 Hw2) as (Hf & _).
  cbn zeta in *. fold (setup_state c s) in *.
  unfold fine, tcnt1 in *.
  pose proof (Z.mod_pos_bound (presc (setup_state c s)) 256 eq_refl). lia.
Qed.

Lemma preload_meets_running_counter_witness :
  tcnt1 (setup_state 2 two_flags_pending) = 0x0BDB \/
  tcnt1 (setup_state 2 two_flags_pending) = 0x0BDC.
Proof.
  apply (preload_meets_running_counter 2 two_flags_pending);
    [lia|unfold wf; cbn; lia].
Defined.

(** ** The main program of [delay_timer.c] on the timer *)

Section MainOnAnyTimer.
Variable c : nat.

(** A pass through the loop body, finished or not, changes no plain
    register but the port. *)
Lemma toggle_cycle_io (fuel : nat) (s : timer1) (a : Z) :
  a <> PORTB_ADDR ->
  io (state_of (DelayTimer.toggle_cycle (D:=timer1_dev c) fuel s)) !! a = io s !! a.
Proof.
  intros Ha. rewrite toggle_cycle_run, port_load by auto. cbn zeta.
  set (hi := uint8_t (Z.lor _ (Z.shiftl 1 5))).
  set (a1 := hw_store (timer1_dev c) PORTB_ADDR hi (clock c s)).
  assert (Hio1 : io a1 !! a = io s !! a).
  { unfold a1. rewrite port_store_io by auto.
    destruct (clock_frame c s) as (-> & _ & _). now apply lookup_insert_ne. }
  destruct (delay_1000ms_state_frame c fuel a1) as [Hio2 _]. cbn zeta in Hio2.
  destruct (DelayTimer.delay_1000ms (D:=timer1_dev c) fuel a1) as [[] s2 t2|s2 t2];
    cbn [state_of] in *; [|now rewrite Hio2].
  rewrite port_load by auto. cbn zeta.
  set (lo := uint8_t (Z.land _ (Z.lnot (Z.shiftl 1 5)))).
  set (a2 := hw_store (timer1_dev c) PORTB_ADDR lo (clock c s2)).
  assert (Hio3 : io a2 !! a = io s !! a).
  { unfold a2. rewrite port_store_io by auto.
    destruct (clock_frame c s2) as (-> & _ & _).
    rewrite lookup_insert_ne by congruence. now rewrite Hio2. }
  destruct (delay_1000ms_state_frame c fuel a2) as [Hio4 _]. cbn zeta in Hio4.
  destruct (DelayTimer.delay_1000ms (D:=timer1_dev c) fuel a2) as [[] s4 t4|s4 t4];
    cbn [state_of] in *; now rewrite Hio4.
Qed.

Lemma cycles_io (fuel n : nat) (s : timer1) (a : Z) :
  a <> PORTB_ADDR ->
  io (state_of (cycles (D:=timer1_dev c) fuel n s)) !! a = io s !! a.
Proof.
  intros Ha. revert s. induction n as [|n IH]; intros s; [reflexivity|].
  rewrite cycles_S. pose proof (toggle_cycle_io fuel s a Ha) as Ht.
  destruct (DelayTimer.toggle_cycle (D:=timer1_dev c) fuel s) as [[] s1 t1|s1 t1];
    cbn [state_of] in *; [|exact Ht].
  specialize (IH s1).
  destruct (cycles (D:=timer1_dev c) fuel n s1); cbn [state_of] in *;
    now rewrite IH.
Qed.
End MainOnAnyTimer.

(** X9. What [main] of [delay_timer.c] never does, on the timer at any
    access cost, from any state and after any amount of running: the
    data-direction register holds its initial byte with bit 5 set, the
    bit is never cleared again, and every plain register other than the
    data-direction register and the port holds its initial value. *)
Theorem main_frame (c fuel : nat) (s : timer1) :
  let s' := state_of (DelayTimer.main (D:=timer1_dev c) fuel s) in
  let d := uint8_t (Z.lor (uint8_t (default 0 (io s !! DDRB_ADDR))) (Z.shiftl 1 5)) in
  io s' !! DDRB_ADDR = Some d /\
  Z.testbit d 5 = true /\
  (forall j, j <> 5 ->
     Z.testbit d j = Z.testbit (uint8_t (default 0 (io s !! DDRB_ADDR))) j) /\
  (forall a, a <> DDRB_ADDR -> a <> PORTB_ADDR -> io s' !! a = io s !! a).
Proof.
  cbn zeta. rewrite main_run, port_load by auto. cbn zeta. cbn [state_of].
  set (d := uint8_t (Z.lor _ (Z.shiftl 1 5))).
  set (a0 := hw_store (timer1_dev c) DDRB_ADDR d (clock c s)).
  assert (Hio0 : io a0 = <[DDRB_ADDR := d]> (io s)).
  { unfold a0. rewrite port_store_io by auto.
    now destruct (clock_frame c s) as (-> & _ & _). }
  split; [|split; [|split]].
  - rewrite cycles_io by discriminate. rewrite Hio0. apply lookup_insert_eq.
  - apply hi_bit5.
  - intros j Hj. unfold d. rewrite set_byte_testbit by lia.
    destruct (Z.eqb_spec j 5); [contradiction|]. rewrite orb_false_r.
    rewrite uint8_t_testbit. now destruct (j <? 8).
  - intros a Ha Hp. rewrite cycles_io by exact Hp. rewrite Hio0.
    now apply lookup_insert_ne.
Qed.

(** X10. The hang at the level of [main]: on the timer with its clock
    stopped and the overflow flag clear, the first delay never ends, so
    however long the program runs the port has been stored to exactly
    once, with bit 5 set, and still holds that byte: the pin goes high
    and is never driven low. *)
Theorem main_hangs_high (fuel : nat) (s : timer1) :
  overflow_flag s = false -> (1 <= fuel)%nat ->
  exists hi,
    stores_to PORTB_ADDR (trace_of (DelayTimer.main (D:=timer1_dev 0) fuel s)) = [hi] /\
    Z.testbit hi 5 = true /\
    io (state_of (DelayTimer.main (D:=timer1_dev 0) fuel s)) !! PORTB_ADDR = Some hi.
Proof.
  intros Hs Hfuel. rewrite main_run, port_load by auto. cbn zeta.
  set (d := uint8_t (Z.lor _ (Z.shiftl 1 5))).
  set (a0 := hw_store (timer1_dev 0) DDRB_ADDR d (clock 0 s)).
  assert (H0 : overflow_flag a0 = false) by (now apply stalled_store).
  destruct fuel as [|n]; [lia|]. rewrite cycles_S.
  rewrite toggle_cycle_run, port_load by auto. cbn zeta.
  set (hi := uint8_t (Z.lor _ (Z.shiftl 1 5))).
  set (a1 := hw_store (timer1_dev 0) PORTB_ADDR hi (clock 0 a0)).
  assert (H1 : overflow_flag a1 = false) by (now apply stalled_store).
  destruct (delay_1000ms_blocks (D:=timer1_dev 0)
              (fun x => overflow_flag x = false)) with (fuel := S n) (s := a1)
    as (s2 & t2 & Hd & _); auto.
  { intros a v x Hx. now apply stalled_store. }
  { intros x Hx. now apply stalled_flag. }
  pose proof (delay_1000ms_touches (D:=timer1_dev 0) (S n) a1) as Ht.
  pose proof (delay_1000ms_state_frame 0 (S n) a1) as [Hio _].
  cbn zeta in Hio. rewrite Hd in *. cbn [trace_of state_of] in *.
  exists hi. split; [|split].
  - rewrite !stores_to_app,
      (stores_to_untouched timer_regs PORTB_ADDR t2) by easy. reflexivity.
  - apply hi_bit5.
  - rewrite Hio. unfold a1. rewrite port_store_io by auto. apply lookup_insert_eq.
Qed.

Lemma main_hangs_high_witness :
  exists hi,
    stores_to PORTB_ADDR
      (trace_of (DelayTimer.main (D:=timer1_dev 0) 3 timer1_reset)) = [hi] /\
    Z.testbit hi 5 = true.
Proof.
  destruct (main_hangs_high 3 timer1_reset) as (hi & H1 & H2 & _);
    [reflexivity|lia|].
  exists hi. split; assumption.
Defined.

(** ** The blink loops of [blink_led.c] and [reg_readwrite.c] on storage *)

Lemma repeated_length {A : Type} (n : nat) (l : list A) :
  length (repeated n l) = (n * length l)%nat.
Proof. induction n as [|n IH]; [reflexivity|]. cbn. rewrite length_app, IH. lia. Qed.

Lemma set_after_clear_byte (v mask : Z) :
  uint8_t (Z.lor (uint8_t (Z.land (uint8_t (Z.lor v mask)) (Z.lnot mask))) mask) =
  uint8_t (Z.lor v mask).
Proof.
  apply Z.bits_inj'. intros n Hn.
  rewrite !uint8_t_testbit, !Z.lor_spec, !uint8_t_testbit, !Z.land_spec,
    !uint8_t_testbit, !Z.lor_spec, Z.lnot_spec by lia.
  destruct (n <? 8), (Z.testbit v n), (Z.testbit mask n); reflexivity.
Qed.

Section InertBlink.
Variable delay_ms : Z -> prog ram unit.
Hypothesis delay_inert : inert delay_ms.
Variables DDRB PORTB DDB5 PORTB5 : Z.
Hypothesis regs_differ : DDRB <> PORTB.

(** One pass: the port is read, stored with the bit set, read again and
    stored with the bit clear. *)
Lemma blink_toggle_cycle (m : gmap Z Z) :
  BlinkLed.toggle_cycle delay_ms PORTB PORTB5 m =
  let p := peek m PORTB in
  let hi := uint8_t (Z.lor p (Z.shiftl 1 PORTB5)) in
  let lo := uint8_t (Z.land hi (Z.lnot (Z.shiftl 1 PORTB5))) in
  Done tt (<[PORTB := lo]> m)
    [Load PORTB p; Store PORTB hi; Load PORTB hi; Store PORTB lo].
Proof.
  unfold BlinkLed.toggle_cycle, bind. cbn beta iota zeta.
  rewrite !ram_load. cbn [store hw_store ram]. rewrite delay_inert.
  rewrite ram_load. cbn [store hw_store ram]. rewrite delay_inert.
  rewrite peek_insert, uint8_t_idem, insert_insert_eq. reflexivity.
Qed.

(** [n] turns of the loop from storage whose port reads [p]. *)
Lemma blink_loop (n : nat) (m : gmap Z Z) :
  let p := peek m PORTB in
  let hi := uint8_t (Z.lor p (Z.shiftl 1 PORTB5)) in
  let lo := uint8_t (Z.land hi (Z.lnot (Z.shiftl 1 PORTB5))) in
  exists tr,
    while n (ret true) (BlinkLed.toggle_cycle delay_ms PORTB PORTB5) m =
      Spin (match n with O => m | S _ => <[PORTB := lo]> m end) tr /\
    stores_to PORTB tr = repeated n [hi; lo] /\
    stores_to DDRB tr = [] /\
    length tr = (4 * n)%nat.
Proof.
  cbn zeta. revert m. induction n as [|n IH]; intros m.
  - exists []. repeat split.
  - rewrite while_S. cbn [ret]. rewrite blink_toggle_cycle. cbn zeta.
    set (p := peek m PORTB).
    set (hi := uint8_t (Z.lor p (Z.shiftl 1 PORTB5))).
    set (lo := uint8_t (Z.land hi (Z.lnot (Z.shiftl 1 PORTB5)))).
    destruct (IH (<[PORTB := lo]> m)) as (tr & Hw & Hp & Hd & Hlen).
    rewrite peek_insert in Hp, Hw.
    assert (Hlo : uint8_t lo = lo) by apply uint8_t_idem.
    assert (Hhi : uint8_t (Z.lor lo (Z.shiftl 1 PORTB5)) = hi)
      by apply set_after_clear_byte.
    rewrite Hlo, Hhi in Hp, Hw. fold lo in Hp, Hw.
    assert (Hst : match n with
                  | O => <[PORTB := lo]> m
                  | S _ => <[PORTB := lo]> (<[PORTB := lo]> m)
                  end = (<[PORTB := lo]> m : gmap Z Z))
      by (destruct n; [reflexivity|apply insert_insert_eq]).
    rewrite Hst in Hw. rewrite Hw.
    eexists. split; [reflexivity|]. split; [|split].
    + cbn [app stores_to]. rewrite Z.eqb_refl. cbn [repeated app].
      now rewrite Hp.
    + cbn [app stores_to].
      destruct (Z.eqb_spec PORTB DDRB) as [E|_]; [now symmetry in E|exact Hd].
    + cbn [app length]. rewrite Hlen. lia.
Qed.

(** The whole program: the data-direction bit is set once, then the port
    is stored to in turn with the bit set and with the bit clear. *)
Lemma blink_main (n : nat) (m : gmap Z Z) :
  let d := uint8_t (Z.lor (peek m DDRB) (Z.shiftl 1 DDB5)) in
  let p := peek m PORTB in
  let hi := uint8_t (Z.lor p (Z.shiftl 1 PORTB5)) in
  let lo := uint8_t (Z.land hi (Z.lnot (Z.shiftl 1 PORTB5))) in
  exists tr,
    BlinkLed.main delay_ms DDRB PORTB DDB5 PORTB5 n m =
      Spin (match n with
            | O => <[DDRB := d]> m
            | S _ => <[PORTB := lo]> (<[DDRB := d]> m)
            end) tr /\
    stores_to DDRB tr = [d] /\
    stores_to PORTB tr = repeated n [hi; lo] /\
    length tr = (2 + 4 * n)%nat.
Proof.
  cbn zeta. unfold BlinkLed.main. unfold bind at 1. unfold bind at 1.
  rewrite ram_load. cbn [store hw_store ram]. cbn beta iota.
  set (d := uint8_t (Z.lor (peek m DDRB) (Z.shiftl 1 DDB5))).
  unfold bind.
  destruct (blink_loop n (<[DDRB := d]> m)) as (tr & Hw & Hp & Hd & Hlen).
  cbn zeta in *. rewrite peek_insert_ne in Hp, Hw by exact regs_differ.
  rewrite Hw.
  eexists. split; [reflexivity|]. split; [|split].
  - rewrite !stores_to_app, Hd. cbn [stores_to]. now rewrite Z.eqb_refl.
  - rewrite !stores_to_app, Hp. cbn [stores_to].
    destruct (Z.eqb_spec DDRB PORTB) as [E|_]; [contradiction|reflexivity].
  - rewrite !length_app, Hlen. reflexivity.
Qed.
End InertBlink.

Lemma alternates_repeated (n : nat) (hi lo : Z) :
  Z.testbit hi 5 = true -> Z.testbit lo 5 = false ->
  alternates true (repeated n [hi; lo]) = true.
Proof.
  intros Hhi Hlo. induction n as [|n IH]; [reflexivity|].
  cbn -[Z.testbit]. now rewrite Hhi, Hlo, IH.
Qed.

(** X11. [main] of [reg_readwrite.c] on registers that store bytes, with
    a delay that makes no register access: after [n] turns of its loop
    (it never returns) it has stored to the data-direction register
    once, its old byte with bit 5 set, and to the port [2 n] times, in
    turn the port's old byte with bit 5 set and with bit 5 clear; it has
    made [2 + 4 n] accesses; the port ends with bit 5 clear and both
    registers keep their other bits. *)
Theorem reg_readwrite_main_on_storage
        (delay_ms : Z -> prog ram unit) (n : nat) (m : gmap Z Z) :
  inert delay_ms ->
  let d := uint8_t (Z.lor (peek m DDRB_ADDR) (Z.shiftl 1 5)) in
  let hi := uint8_t (Z.lor (peek m PORTB_ADDR) (Z.shiftl 1 5)) in
  let lo := uint8_t (Z.land hi (Z.lnot (Z.shiftl 1 5))) in
  exists tr,
    RegReadWrite.main delay_ms n m =
      Spin (match n with
            | O => <[DDRB_ADDR := d]> m
            | S _ => <[PORTB_ADDR := lo]> (<[DDRB_ADDR := d]> m)
            end) tr /\
    stores_to DDRB_ADDR tr = [d] /\
    stores_to PORTB_ADDR tr = repeated n [hi; lo] /\
    alternates true (stores_to PORTB_ADDR tr) = true /\
    length tr = (2 + 4 * n)%nat /\
    Z.testbit d 5 = true /\ Z.testbit hi 5 = true /\ Z.testbit lo 5 = false /\
    (forall j, j <> 5 ->
       Z.testbit d j = Z.testbit (peek m DDRB_ADDR) j /\
       Z.testbit lo j = Z.testbit (peek m PORTB_ADDR) j).
Proof.
  intros Hinert. cbn zeta.
  destruct (blink_main delay_ms Hinert DDRB_ADDR PORTB_ADDR 5 5 ltac:(discriminate) n m)
    as (tr & Hrun & Hd & Hp & Hlen).
  cbn zeta in *. exists tr.
  split; [exact Hrun|]. split; [exact Hd|]. split; [exact Hp|].
  split; [rewrite Hp; apply alternates_repeated; [apply hi_bit5|apply lo_bit5]|].
  split; [exact Hlen|].
  split; [apply hi_bit5|]. split; [apply hi_bit5|]. split; [apply lo_bit5|].
  intros j Hj.
  assert (Hset : forall v, Z.testbit (uint8_t (Z.lor (peek m v) (Z.shiftl 1 5))) j
                           = Z.testbit (peek m v) j).
  { intros v. rewrite set_byte_testbit by lia.
    destruct (Z.eqb_spec j 5); [contradiction|]. rewrite orb_false_r.
    destruct (Z.ltb_spec j 8); [reflexivity|]. now rewrite peek_high_bits. }
  split; [apply Hset|].
  destruct (Z.ltb_spec j 0) as [Hneg|Hpos]; [now rewrite !Z.testbit_neg_r|].
  rewrite clear_byte_testbit by lia.
  destruct (Z.eqb_spec j 5); [contradiction|]. cbn [negb].
  rewrite andb_true_r, Hset.
  destruct (Z.ltb_spec j 8); [reflexivity|]. now rewrite peek_high_bits.
Qed.

Lemma reg_readwrite_main_on_storage_witness :
  exists tr,
    RegReadWrite.main (D:=ram) (fun _ => ret tt) 2 ∅ =
      Spin (<[PORTB_ADDR := 0x00]> (<[DDRB_ADDR := 0x20]> ∅)) tr /\
    stores_to PORTB_ADDR tr = [0x20; 0x00; 0x20; 0x00].
Proof.
  destruct (reg_readwrite_main_on_storage (fun _ => ret tt) 2 ∅)
    as (tr & Hrun & _ & Hp & _); [intros ms s; reflexivity|].
  exists tr. split; [exact Hrun|exact Hp].
Defined.

(** X12. [main] of [blink_led.c] on registers that store bytes, with a
    delay that makes no register access, for any two different register
    addresses and any bit numbers within the byte: after [n] turns of
    its loop it has stored to the data-direction register once, its old
    byte with the direction bit set, and to the port [2 n] times, in turn
    the port's old byte with the port bit set and with the port bit
    clear; every other register reads as before. *)
Theorem blink_led_main_on_storage
        (delay_ms : Z -> prog ram unit) (DDRB PORTB DDB5 PORTB5 : Z)
        (n : nat) (m : gmap Z Z) :
  inert delay_ms -> DDRB <> PORTB -> 0 <= DDB5 <= 7 -> 0 <= PORTB5 <= 7 ->
  let d := uint8_t (Z.lor (peek m DDRB) (Z.shiftl 1 DDB5)) in
  let hi := uint8_t (Z.lor (peek m PORTB) (Z.shiftl 1 PORTB5)) in
  let lo := uint8_t (Z.land hi (Z.lnot (Z.shiftl 1 PORTB5))) in
  exists m' tr,
    BlinkLed.main delay_ms DDRB PORTB DDB5 PORTB5 n m = Spin m' tr /\
    stores_to DDRB tr = [d] /\
    stores_to PORTB tr = repeated n [hi; lo] /\
    length tr = (2 + 4 * n)%nat /\
    Z.testbit d DDB5 = true /\
    Z.testbit hi PORTB5 = true /\ Z.testbit lo PORTB5 = false /\
    peek m' DDRB = d /\
    ((1 <= n)%nat -> peek m' PORTB = lo) /\
    (forall a, a <> DDRB -> a <> PORTB -> peek m' a = peek m a).
Proof.
  intros Hinert Hregs Hd5 Hp5. cbn zeta.
  destruct (blink_main delay_ms Hinert DDRB PORTB DDB5 PORTB5 Hregs n m)
    as (tr & Hrun & Hd & Hp & Hlen).
  cbn zeta in *. eexists _, tr.
  split; [exact Hrun|]. split; [exact Hd|]. split; [exact Hp|].
  split; [exact Hlen|].
  split.
  { rewrite set_byte_testbit by lia. rewrite Z.eqb_refl, orb_true_r.
    destruct (Z.ltb_spec DDB5 8); [reflexivity|lia]. }
  split.
  { rewrite set_byte_testbit by lia. rewrite Z.eqb_refl, orb_true_r.
    destruct (Z.ltb_spec PORTB5 8); [reflexivity|lia]. }
  split.
  { rewrite clear_byte_testbit by lia. rewrite Z.eqb_refl.
    now rewrite !andb_false_r. }
  split.
  { destruct n; [|rewrite peek_insert_ne by congruence];
      rewrite peek_insert; apply uint8_t_idem. }
  split.
  { intros Hn. destruct n; [lia|]. rewrite peek_insert. apply uint8_t_idem. }
  intros a Ha Hpa.
  destruct n; rewrite !peek_insert_ne by congruence; reflexivity.
Qed.

Lemma blink_led_main_on_storage_witness :
  exists m' tr,
    BlinkLed.main (D:=ram) (fun _ => ret tt) 0x24 0x25 5 5 1 ∅ = Spin m' tr /\
    stores_to 0x25 tr = [0x20; 0x00].
Proof.
  destruct (blink_led_main_on_storage (fun _ => ret tt) 0x24 0x25 5 5 1 ∅)
    as (m' & tr & Hrun & _ & Hp & _);
    [intros ms s; reflexivity|discriminate|lia|lia|].
  exists m', tr. split; [exact Hrun|exact Hp].
Defined.

(** ** The delay routine on plain storage *)

Lemma ram_wait_blocks (fuel : nat) (m : gmap Z Z) :
  Z.testbit (peek m TIFR1_ADDR) 0 = false ->
  returns (DelayTimer.wait_overflow (D:=ram) fuel m) = false.
Proof.
  intros Hm. induction fuel as [|fuel IH]; [reflexivity|].
  rewrite wait_overflow_S. cbn [hw_load ram].
  change (uint8_t (default 0 (m !! TIFR1_ADDR))) with (peek m TIFR1_ADDR).
  rewrite Hm. now destruct (DelayTimer.wait_overflow (D:=ram) fuel m).
Qed.

Lemma peek_after_setup (m : gmap Z Z) :
  peek (<[TCNT1H_ADDR := 0x0B]> (<[TCNT1L_ADDR := 0xDB]>
         (<[TCCR1B_ADDR := 0x04]> (<[TCCR1A_ADDR := 0x00]> m)))) TIFR1_ADDR
  = peek m TIFR1_ADDR.
Proof. now rewrite !peek_insert_ne by discriminate. Qed.

(** X13. [delay_1000ms] needs a flag register that hardware raises and
    that a written one clears. On a register that merely stores bytes:
    with bit 0 of the flag register clear the call never returns; with it
    set the call returns at its first poll, its clearing write stores the
    byte it read, and bit 0 is still set afterwards. *)
Theorem delay_1000ms_on_storage (fuel : nat) (m : gmap Z Z) :
  (Z.testbit (peek m TIFR1_ADDR) 0 = false ->
   returns (DelayTimer.delay_1000ms (D:=ram) fuel m) = false) /\
  (Z.testbit (peek m TIFR1_ADDR) 0 = true -> (1 <= fuel)%nat ->
   let v := peek m TIFR1_ADDR in
   exists m',
     DelayTimer.delay_1000ms (D:=ram) fuel m =
       Done tt m' (delay_setup ++
                   [Load TIFR1_ADDR v; Load TIFR1_ADDR v; Store TIFR1_ADDR v]) /\
     Z.testbit (peek m' TIFR1_ADDR) 0 = true).
Proof.
  split.
  - intros Hm. rewrite delay_1000ms_unfold. cbn zeta. cbn [hw_store ram].
    pose proof (ram_wait_blocks fuel _ (eq_trans (f_equal (fun x => Z.testbit x 0)
                  (peek_after_setup m)) Hm)) as Hw.
    now destruct (DelayTimer.wait_overflow (D:=ram) fuel _).
  - intros Hm Hfuel. cbn zeta. rewrite delay_1000ms_unfold. cbn zeta.
    cbn [hw_store ram]. destruct fuel as [|fuel]; [lia|].
    rewrite wait_overflow_S. cbn [hw_load ram].
    change (uint8_t (default 0 (?x !! TIFR1_ADDR))) with (peek x TIFR1_ADDR).
    rewrite peek_after_setup, Hm.
    change (uint8_t (default 0 (?x !! TIFR1_ADDR))) with (peek x TIFR1_ADDR).
    rewrite peek_after_setup.
    assert (Hv : uint8_t (Z.lor (peek m TIFR1_ADDR) 1) = peek m TIFR1_ADDR).
    { apply Z.bits_inj'. intros n Hn. rewrite uint8_t_testbit, Z.lor_spec.
      destruct (Z.eqb_spec n 0) as [->|Hn0].
      - rewrite Hm. reflexivity.
      - rewrite (Z.bits_above_log2 1 n) by (cbn; lia). rewrite orb_false_r.
        destruct (Z.ltb_spec n 8); [reflexivity|]. now rewrite peek_high_bits. }
    rewrite Hv. eexists. split; [reflexivity|].
    rewrite peek_insert, peek_byte. exact Hm.
Qed.

Lemma delay_1000ms_on_storage_witness :
  returns (DelayTimer.delay_1000ms (D:=ram) 4 ∅) = false /\
  exists m',
    DelayTimer.delay_1000ms (D:=ram) 1 (<[TIFR1_ADDR := 0x01]> ∅) =
      Done tt m' (delay_setup ++
                  [Load TIFR1_ADDR 1; Load TIFR1_ADDR 1; Store TIFR1_ADDR 1]).
Proof.
  split.
  - apply (delay_1000ms_on_storage 4 ∅). reflexivity.
  - destruct (delay_1000ms_on_storage 1 (<[TIFR1_ADDR := 0x01]> ∅)) as [_ H].
    destruct H as (m' & Hrun & _); [reflexivity|lia|].
    exists m'. exact Hrun.
Defined.
